(** * FitnessApp: a shallow embedding of the fitness dashboard and its properties

    The persistent store (SQLModel tables over SQLite) is a record of row
    lists kept in rowid order; a screen action is a function from the store
    to the store it commits.  Python floats are IEEE binary64 numbers, taken
    here as Rocq's primitive floats, so that the arithmetic of the source is
    evaluated bit for bit.  Calendar dates are proleptic Gregorian ordinals
    ([date.toordinal()]): ordinal 1 is Monday 0001-01-01. *)

From Stdlib Require Import ZArith List String Bool Lia.
From Stdlib Require Import Floats.
From Stdlib Require Import Sorted.
Import ListNotations.

#[local] Set Warnings "-inexact-float".
#[local] Open Scope string_scope.
#[local] Open Scope Z_scope.

(** ** Python and numpy primitives used by the screens *)

Module Py.

(** [float(n)] for a Python int, as [int * float] performs it: the nearest
    binary64 number, ties to even.  (Python raises OverflowError from 2^1024
    on, far outside what a 64-bit column holds; the model gives infinity.) *)
Definition float_of_int (n : Z) : float :=
  SF2Prim (binary_normalize prec emax n 0 false).

(** Truth value of an int ([if steps]). *)
Definition truthy (n : Z) : bool := negb (n =? 0).

(** [numpy.rint]: nearest integer, ties to even; infinities, NaN and zeros
    are returned as they are. *)
Definition rint (x : float) : float :=
  match Prim2SF x with
  | S754_finite s m e =>
      if 0 <=? e then x
      else
        let d := 2 ^ (- e) in
        let q := Z.pos m / d in
        let r := Z.pos m mod d in
        let n := if 2 * r <? d then q
                 else if d <? 2 * r then q + 1
                 else if Z.even q then q else q + 1 in
        if s then (- float_of_int n)%float else float_of_int n
  | _ => x
  end.

(** [Series.round(2)], numpy's [around]: scale by 10^2, [rint], scale back. *)
Definition round2 (x : float) : float := (rint (x * 100) / 100)%float.

(** [str1 != str2]. *)
Definition str_ne (a b : string) : bool := negb (String.eqb a b).

(** [sorted({...})], also the order of the group keys of a [groupby]: the
    ascending list of the distinct elements. *)
Fixpoint insert_set (x : Z) (l : list Z) : list Z :=
  match l with
  | [] => [x]
  | y :: l' =>
      if x <? y then x :: l
      else if x =? y then l
      else y :: insert_set x l'
  end.

Definition sorted_set (l : list Z) : list Z := fold_right insert_set [] l.

(** [int(x)] for a float: truncation toward zero; [None] is the ValueError
    or OverflowError of NaN and the infinities. *)
Definition int_of_float (x : float) : option Z :=
  match Prim2SF x with
  | S754_zero _ => Some 0
  | S754_finite s m e =>
      let n := if 0 <=? e then Z.pos m * 2 ^ e else Z.pos m / 2 ^ (- e) in
      Some (if s then - n else n)
  | _ => None
  end.

(** A numeric cell handed to [int(v)]: a Python or numpy integer, a float,
    or a missing value ([None], [pd.NA]). *)
Inductive scalar :=
| SInt (n : Z)
| SFloat (x : float)
| SNA.

(** [int(v)]; [None] when it raises. *)
Definition int (v : scalar) : option Z :=
  match v with
  | SInt n => Some n
  | SFloat x => int_of_float x
  | SNA => None
  end.

(** [x or None] for a float: zero is falsy. *)
Definition or_none (x : float) : option float :=
  if (x =? 0)%float then None else Some x.

End Py.

(** ** models.py *)

Definition date := Z.

Module User.
Record t := mk {
  id : Z;
  name : string;
  email : option string;
  height_cm : option float;
  goal_weight_kg : option float;
  units : string
}.
End User.

Module Week.
Record t := mk {
  id : Z;
  user_id : Z;
  week_number : Z;
  start_date : date
}.
End Week.

Module DailyMetric.
Record t := mk {
  id : Z;
  user_id : Z;
  date : date;
  week_id : option Z;
  weight_kg : option float;
  steps : option Z;
  run_km : option float
}.
End DailyMetric.

Module Measurement.
Record t := mk {
  id : Z;
  user_id : Z;
  week_id : Z;
  r_biceps_in : option float;
  l_biceps_in : option float;
  chest_in : option float;
  r_thigh_in : option float;
  l_thigh_in : option float;
  waist_navel_in : option float
}.
End Measurement.

Module Wellbeing.
Record t := mk {
  id : Z;
  user_id : Z;
  week_id : Z;
  sleep_issues : option Z;
  hunger_issues : option Z;
  stress_issues : option Z
}.
End Wellbeing.

Module Adherence.
Record t := mk {
  id : Z;
  user_id : Z;
  week_id : Z;
  diet_score : option Z;
  workout_score : option Z
}.
End Adherence.

(** ** db.py: the store behind a session

    Each table is the list of its rows in rowid order.  An [INTEGER PRIMARY
    KEY] column without AUTOINCREMENT gets one more than the largest rowid in
    the table (1 in an empty table).  A [select(...).first()] without
    [order_by] is the first matching row of the table scan. *)

Record Store := mkStore {
  users : list User.t;
  weeks : list Week.t;
  dailies : list DailyMetric.t;
  measurements : list Measurement.t;
  wellbeings : list Wellbeing.t;
  adherences : list Adherence.t
}.

Definition empty_store : Store := mkStore [] [] [] [] [] [].

Definition next_id (ids : list Z) : Z := 1 + fold_right Z.max 0 ids.

Definition first {A} (l : list A) : option A := hd_error l.

Definition set_users (st : Store) (x : list User.t) : Store :=
  mkStore x (weeks st) (dailies st) (measurements st) (wellbeings st) (adherences st).
Definition set_weeks (st : Store) (x : list Week.t) : Store :=
  mkStore (users st) x (dailies st) (measurements st) (wellbeings st) (adherences st).
Definition set_dailies (st : Store) (x : list DailyMetric.t) : Store :=
  mkStore (users st) (weeks st) x (measurements st) (wellbeings st) (adherences st).
Definition set_measurements (st : Store) (x : list Measurement.t) : Store :=
  mkStore (users st) (weeks st) (dailies st) x (wellbeings st) (adherences st).
Definition set_wellbeings (st : Store) (x : list Wellbeing.t) : Store :=
  mkStore (users st) (weeks st) (dailies st) (measurements st) x (adherences st).
Definition set_adherences (st : Store) (x : list Adherence.t) : Store :=
  mkStore (users st) (weeks st) (dailies st) (measurements st) (wellbeings st) x.

(** [sess.add(row); sess.commit()] for a row loaded from the table: the row
    with that primary key is rewritten in place. *)
Fixpoint update_row {A} (key : A -> Z) (r : A) (l : list A) : list A :=
  match l with
  | [] => []
  | x :: l' => if key x =? key r then r :: l' else x :: update_row key r l'
  end.

(** [x in ids], the test of [column.in_(ids)]. *)
Definition mem (x : Z) (ids : list Z) : bool := existsb (Z.eqb x) ids.

(** [week_id] of Measurement, Wellbeing and Adherence is declared
    [unique=True] (models.py:61, 78, 92).  The INSERT of a row whose week is
    held already by a row of the table, of whatever user, fails with
    IntegrityError at the flush, and nothing of the open transaction is
    committed.  An UPDATE of the screens never changes a [week_id]. *)
Definition measurement_week_taken (st : Store) (week_id : Z) : bool :=
  existsb (fun m => Measurement.week_id m =? week_id) (measurements st).

Definition wellbeing_week_taken (st : Store) (week_id : Z) : bool :=
  existsb (fun m => Wellbeing.week_id m =? week_id) (wellbeings st).

Definition adherence_week_taken (st : Store) (week_id : Z) : bool :=
  existsb (fun m => Adherence.week_id m =? week_id) (adherences st).

(** ** app.py *)

Module App.

(** [bootstrap_user]: the first User row, created when the table is empty. *)
Definition bootstrap_user (st : Store) : User.t * Store :=
  match first (users st) with
  | Some u => (u, st)
  | None =>
      let u := User.mk (next_id (map User.id (users st)))
                       "You" None None None "metric" in
      (u, set_users st (users st ++ [u]))
  end.

(** The "Save profile" form, submitted for the user the screen loaded:
    the row of that id is rewritten. *)
Definition save_profile (st : Store) (user : User.t) (name : string)
           (height goal : float) (units : string) : Store :=
  set_users st
    (update_row User.id
       (User.mk (User.id user) name (User.email user)
                (Py.or_none height) (Py.or_none goal) units)
       (users st)).

(** One run of the home screen with the profile form submitted. *)
Definition home_save_profile (st : Store) (name : string) (height goal : float)
           (units : string) : Store :=
  let '(user, st1) := bootstrap_user st in
  save_profile st1 user name height goal units.

End App.

(** ** pages/2_Data_Entry.py *)

Module DataEntry.

(** [steps_to_km]: the argument is what [pd.to_numeric(steps,
    errors="coerce")] yields, [None] standing for NaN. *)
Definition steps_to_km (steps : option Z) : option float :=
  match steps with
  | Some s => Some ((Py.float_of_int s * 8) / (1780 * 5))%float
  | None => None
  end.

Definition weekday (d : date) : Z := (d + 6) mod 7.

Definition monday_start (d : date) : date := d - weekday d.

(** [order_by(Week.week_number.desc())]: insertion sort, largest week
    number first, rows of equal number in table order. *)
Fixpoint insert_desc (w : Week.t) (l : list Week.t) : list Week.t :=
  match l with
  | [] => [w]
  | x :: l' =>
      if Week.week_number x <=? Week.week_number w then w :: l
      else x :: insert_desc w l'
  end.

Definition order_by_week_number_desc (l : list Week.t) : list Week.t :=
  fold_right insert_desc [] l.

Definition week_at (user_id : Z) (start : date) (w : Week.t) : bool :=
  (Week.user_id w =? user_id) && (Week.start_date w =? start).

Definition week_of_user (user_id : Z) (w : Week.t) : bool :=
  Week.user_id w =? user_id.

Definition get_or_create_week (st : Store) (user_id : Z) (d : date)
  : Week.t * Store :=
  let start := monday_start d in
  match first (filter (week_at user_id start) (weeks st)) with
  | Some wk => (wk, st)
  | None =>
      let last := first (order_by_week_number_desc
                           (filter (week_of_user user_id) (weeks st))) in
      let next_num := match last with
                      | Some l => Week.week_number l + 1
                      | None => 1
                      end in
      let wk := Week.mk (next_id (map Week.id (weeks st)))
                        user_id next_num start in
      (wk, set_weeks st (weeks st ++ [wk]))
  end.

(** The "Save daily entry" button.  [weight] and [steps] are the values of
    the two number inputs; [None] is the AttributeError of [user.id] when
    the User table is empty. *)
Definition save_daily_entry (st : Store) (d : date) (weight : float) (steps : Z)
  : option Store :=
  match first (users st) with
  | None => None
  | Some user =>
      let km_val := steps_to_km (Some steps) in
      let '(wk, st1) := get_or_create_week st (User.id user) d in
      let dm := DailyMetric.mk
                  (next_id (map DailyMetric.id (dailies st1)))
                  (User.id user)
                  d
                  (Some (Week.id wk))
                  (if (weight =? 0)%float then None else Some weight)
                  (if Py.truthy steps then Some steps else None)
                  km_val in
      Some (set_dailies st1 (dailies st1 ++ [dm]))
  end.

(** The inputs of the weekly check-in form. *)
Record WeeklyInputs := mkWeeklyInputs {
  r_bi : float;
  l_bi : float;
  chest : float;
  r_th : float;
  l_th : float;
  waist : float;
  sleep : Z;
  hunger : Z;
  stress : Z;
  diet : Z;
  workout : Z
}.

Definition find_measurement (st : Store) (user_id wk_id : Z) : option Measurement.t :=
  first (filter (fun m => (Measurement.user_id m =? user_id)
                          && (Measurement.week_id m =? wk_id))
                (measurements st)).

Definition find_wellbeing (st : Store) (user_id wk_id : Z) : option Wellbeing.t :=
  first (filter (fun m => (Wellbeing.user_id m =? user_id)
                          && (Wellbeing.week_id m =? wk_id))
                (wellbeings st)).

Definition find_adherence (st : Store) (user_id wk_id : Z) : option Adherence.t :=
  first (filter (fun m => (Adherence.user_id m =? user_id)
                          && (Adherence.week_id m =? wk_id))
                (adherences st)).

(** Measurement (upsert), lines 102-116.  [None] is the IntegrityError of
    the INSERT when the week is held by a Measurement of another user. *)
Definition upsert_measurement (st : Store) (user_id wk_id : Z) (i : WeeklyInputs)
  : option Store :=
  match find_measurement st user_id wk_id with
  | Some row =>
      Some (set_measurements st
              (update_row Measurement.id
                 (Measurement.mk (Measurement.id row) (Measurement.user_id row)
                    (Measurement.week_id row)
                    (Py.or_none (r_bi i)) (Py.or_none (l_bi i)) (Py.or_none (chest i))
                    (Py.or_none (r_th i)) (Py.or_none (l_th i)) (Py.or_none (waist i)))
                 (measurements st)))
  | None =>
      if measurement_week_taken st wk_id then None
      else
        Some (set_measurements st
                (measurements st ++
                   [Measurement.mk (next_id (map Measurement.id (measurements st)))
                      user_id wk_id
                      (Py.or_none (r_bi i)) (Py.or_none (l_bi i)) (Py.or_none (chest i))
                      (Py.or_none (r_th i)) (Py.or_none (l_th i))
                      (Py.or_none (waist i))]))
  end.

(** Wellbeing (upsert), lines 119-130. *)
Definition upsert_wellbeing (st : Store) (user_id wk_id : Z) (i : WeeklyInputs)
  : option Store :=
  match find_wellbeing st user_id wk_id with
  | Some wb =>
      Some (set_wellbeings st
              (update_row Wellbeing.id
                 (Wellbeing.mk (Wellbeing.id wb) (Wellbeing.user_id wb)
                    (Wellbeing.week_id wb)
                    (Some (sleep i)) (Some (hunger i)) (Some (stress i)))
                 (wellbeings st)))
  | None =>
      if wellbeing_week_taken st wk_id then None
      else
        Some (set_wellbeings st
                (wellbeings st ++
                   [Wellbeing.mk (next_id (map Wellbeing.id (wellbeings st)))
                      user_id wk_id
                      (Some (sleep i)) (Some (hunger i)) (Some (stress i))]))
  end.

(** Adherence (upsert), lines 133-144. *)
Definition upsert_adherence (st : Store) (user_id wk_id : Z) (i : WeeklyInputs)
  : option Store :=
  match find_adherence st user_id wk_id with
  | Some ad =>
      Some (set_adherences st
              (update_row Adherence.id
                 (Adherence.mk (Adherence.id ad) (Adherence.user_id ad)
                    (Adherence.week_id ad)
                    (Some (diet i)) (Some (workout i)))
                 (adherences st)))
  | None =>
      if adherence_week_taken st wk_id then None
      else
        Some (set_adherences st
                (adherences st ++
                   [Adherence.mk (next_id (map Adherence.id (adherences st)))
                      user_id wk_id
                      (Some (diet i)) (Some (workout i))]))
  end.

(** The three upserts of the button handler, in one session with one commit
    at its end: [None] when one of the INSERTs raises. *)
Definition checkin_rows (st : Store) (user_id wk_id : Z) (i : WeeklyInputs)
  : option Store :=
  match upsert_measurement st user_id wk_id i with
  | None => None
  | Some st2 =>
      match upsert_wellbeing st2 user_id wk_id i with
      | None => None
      | Some st3 => upsert_adherence st3 user_id wk_id i
      end
  end.

(** The weekly tab: the week of the chosen date is resolved, and committed,
    when the tab is drawn, and "Save weekly check-in" upserts the three
    weekly rows of that week.  [None] is the AttributeError of [user.id] on
    an empty User table.  Otherwise the result is the store the tab leaves
    and whether the check-in was committed: when an INSERT raises
    IntegrityError nothing of the check-in is written, and the store is the
    one with the week resolved. *)
Definition save_weekly_checkin (st : Store) (wd : date) (i : WeeklyInputs)
  : option (Store * bool) :=
  match first (users st) with
  | None => None
  | Some user =>
      let '(wk, st1) := get_or_create_week st (User.id user) wd in
      match checkin_rows st1 (User.id user) (Week.id wk) i with
      | Some st' => Some (st', true)
      | None => Some (st1, false)
      end
  end.

End DataEntry.

(** ** pages/3_Import_Export.py *)

Module ImportExport.

(** A row of the uploaded CSV after [pd.read_csv] and the parsing the loop
    applies to its cells: [parse_date(...).date()] for the two dates,
    [int(...)] and [float(...)] for the numbers.  [None] is a blank (NaN)
    cell, or for the optional weekly fields also a column the file does not
    have.  A cell that does not parse raises and ends the import at that
    row; the rows before it are already committed, which is the import of
    the shorter list. *)
Record CsvRow := mkCsvRow {
  c_week_number : Z;
  c_start_date : date;
  c_date : date;
  c_weight_kg : option float;
  c_steps : option Z;
  c_r_biceps_in : option float;
  c_l_biceps_in : option float;
  c_chest_in : option float;
  c_r_thigh_in : option float;
  c_l_thigh_in : option float;
  c_waist_navel_in : option float;
  c_sleep_issues : option Z;
  c_hunger_issues : option Z;
  c_stress_issues : option Z;
  c_diet_score : option Z;
  c_workout_score : option Z
}.

(** The expression stored in [dm.run_km] (line 75). *)
Definition run_km_of (steps : option Z) : option float :=
  match steps with
  | Some s => Some ((Py.float_of_int s * 8) / (1780 * 5))%float
  | None => None
  end.

(** [setattr(existing, f, v)] when the cell is present, else no change. *)
Definition override {A} (cell : option A) (old : option A) : option A :=
  match cell with Some v => Some v | None => old end.

Definition present {A} (cell : option A) : bool :=
  match cell with Some _ => true | None => false end.

(** [assign_weekly(Measurement, ...)].  [None] is the IntegrityError of the
    commit of line 89 when the row is new and the week is held by a
    Measurement of another user. *)
Definition assign_measurement (st : Store) (user_id week_id : Z) (row : CsvRow)
  : option Store :=
  let found := first (filter (fun m => (Measurement.user_id m =? user_id)
                                       && (Measurement.week_id m =? week_id))
                             (measurements st)) in
  let existing := match found with
                  | Some m => m
                  | None => Measurement.mk (next_id (map Measurement.id (measurements st)))
                              user_id week_id None None None None None None
                  end in
  let changed := present (c_r_biceps_in row) || present (c_l_biceps_in row)
                 || present (c_chest_in row) || present (c_r_thigh_in row)
                 || present (c_l_thigh_in row) || present (c_waist_navel_in row) in
  let m' := Measurement.mk (Measurement.id existing) (Measurement.user_id existing)
              (Measurement.week_id existing)
              (override (c_r_biceps_in row) (Measurement.r_biceps_in existing))
              (override (c_l_biceps_in row) (Measurement.l_biceps_in existing))
              (override (c_chest_in row) (Measurement.chest_in existing))
              (override (c_r_thigh_in row) (Measurement.r_thigh_in existing))
              (override (c_l_thigh_in row) (Measurement.l_thigh_in existing))
              (override (c_waist_navel_in row) (Measurement.waist_navel_in existing)) in
  if changed then
    match found with
    | Some _ =>
        Some (set_measurements st (update_row Measurement.id m' (measurements st)))
    | None =>
        if measurement_week_taken st week_id then None
        else Some (set_measurements st (measurements st ++ [m']))
    end
  else Some st.

(** [assign_weekly(Wellbeing, ...)]. *)
Definition assign_wellbeing (st : Store) (user_id week_id : Z) (row : CsvRow)
  : option Store :=
  let found := first (filter (fun m => (Wellbeing.user_id m =? user_id)
                                       && (Wellbeing.week_id m =? week_id))
                             (wellbeings st)) in
  let existing := match found with
                  | Some m => m
                  | None => Wellbeing.mk (next_id (map Wellbeing.id (wellbeings st)))
                              user_id week_id None None None
                  end in
  let changed := present (c_sleep_issues row) || present (c_hunger_issues row)
                 || present (c_stress_issues row) in
  let m' := Wellbeing.mk (Wellbeing.id existing) (Wellbeing.user_id existing)
              (Wellbeing.week_id existing)
              (override (c_sleep_issues row) (Wellbeing.sleep_issues existing))
              (override (c_hunger_issues row) (Wellbeing.hunger_issues existing))
              (override (c_stress_issues row) (Wellbeing.stress_issues existing)) in
  if changed then
    match found with
    | Some _ => Some (set_wellbeings st (update_row Wellbeing.id m' (wellbeings st)))
    | None =>
        if wellbeing_week_taken st week_id then None
        else Some (set_wellbeings st (wellbeings st ++ [m']))
    end
  else Some st.

(** [assign_weekly(Adherence, ...)]. *)
Definition assign_adherence (st : Store) (user_id week_id : Z) (row : CsvRow)
  : option Store :=
  let found := first (filter (fun m => (Adherence.user_id m =? user_id)
                                       && (Adherence.week_id m =? week_id))
                             (adherences st)) in
  let existing := match found with
                  | Some m => m
                  | None => Adherence.mk (next_id (map Adherence.id (adherences st)))
                              user_id week_id None None
                  end in
  let changed := present (c_diet_score row) || present (c_workout_score row) in
  let m' := Adherence.mk (Adherence.id existing) (Adherence.user_id existing)
              (Adherence.week_id existing)
              (override (c_diet_score row) (Adherence.diet_score existing))
              (override (c_workout_score row) (Adherence.workout_score existing)) in
  if changed then
    match found with
    | Some _ => Some (set_adherences st (update_row Adherence.id m' (adherences st)))
    | None =>
        if adherence_week_taken st week_id then None
        else Some (set_adherences st (adherences st ++ [m']))
    end
  else Some st.

(** The week of a CSV row (lines 62-67): the Week of the user at the row's
    [start_date], created with the row's own [week_number] when there is
    none.  The boolean tells whether a Week was created. *)
Definition import_week (st : Store) (user_id : Z) (row : CsvRow)
  : Week.t * Store * bool :=
  let start := c_start_date row in
  match first (filter (DataEntry.week_at user_id start) (weeks st)) with
  | Some wk => (wk, st, false)
  | None =>
      let wk := Week.mk (next_id (map Week.id (weeks st)))
                        user_id (c_week_number row) start in
      (wk, set_weeks st (weeks st ++ [wk]), true)
  end.

Definition find_daily (st : Store) (user_id : Z) (d : date) : option DailyMetric.t :=
  first (filter (fun dm => (DailyMetric.user_id dm =? user_id)
                           && (DailyMetric.date dm =? d))
                (dailies st)).

(** The DailyMetric written for a CSV row (lines 69-77). *)
Definition import_daily_row (st : Store) (user_id : Z) (wk : Week.t) (row : CsvRow)
  : DailyMetric.t :=
  let d := c_date row in
  let dm := match find_daily st user_id d with
            | Some dm => dm
            | None => DailyMetric.mk (next_id (map DailyMetric.id (dailies st)))
                        user_id d (Some (Week.id wk)) None None None
            end in
  let steps := c_steps row in
  DailyMetric.mk (DailyMetric.id dm) (DailyMetric.user_id dm) (DailyMetric.date dm)
                 (Some (Week.id wk)) (c_weight_kg row) steps (run_km_of steps).

Definition import_daily (st : Store) (user_id : Z) (wk : Week.t) (row : CsvRow)
  : Store :=
  let dm := import_daily_row st user_id wk row in
  match find_daily st user_id (c_date row) with
  | Some _ => set_dailies st (update_row DailyMetric.id dm (dailies st))
  | None => set_dailies st (dailies st ++ [dm])
  end.

(** The weekly part of an iteration (lines 90-92), each [assign_weekly]
    with its own commit: the store as committed, and whether the three calls
    completed. *)
Definition assign_weekly_rows (st : Store) (user_id week_id : Z) (row : CsvRow)
  : Store * bool :=
  match assign_measurement st user_id week_id row with
  | None => (st, false)
  | Some st3 =>
      match assign_wellbeing st3 user_id week_id row with
      | None => (st3, false)
      | Some st4 =>
          match assign_adherence st4 user_id week_id row with
          | None => (st4, false)
          | Some st5 => (st5, true)
          end
      end
  end.

(** One iteration of the import loop: the store as committed, whether a
    Week was created, and whether the iteration completed.  When a weekly
    INSERT raises, the Week and the DailyMetric of the row are committed
    already. *)
Definition import_row (st : Store) (user_id : Z) (row : CsvRow)
  : Store * bool * bool :=
  let '(wk, st1, created) := import_week st user_id row in
  let st2 := import_daily st1 user_id wk row in
  let '(st5, completed) := assign_weekly_rows st2 user_id (Week.id wk) row in
  (st5, created, completed).

(** The loop; the counts are [None] when an iteration raised, which ends
    the import with the commits made so far. *)
Fixpoint import_rows (st : Store) (user_id : Z) (rows : list CsvRow)
         (n_daily n_week : Z) : Store * option (Z * Z) :=
  match rows with
  | [] => (st, Some (n_daily, n_week))
  | row :: rows' =>
      let '(st', created, completed) := import_row st user_id row in
      if completed then
        import_rows st' user_id rows' (n_daily + 1)
                    (if created then n_week + 1 else n_week)
      else (st', None)
  end.

(** The "Import" button on a file that has the required columns.  The
    result carries the two counts of the success message, [None] when the
    import raised: with no User row the first iteration raises on [user.id]
    before anything is written. *)
Definition import_csv (st : Store) (rows : list CsvRow) : Store * option (Z * Z) :=
  match rows with
  | [] => (st, Some (0, 0))
  | _ =>
      match first (users st) with
      | None => (st, None)
      | Some user => import_rows st (User.id user) rows 0 0
      end
  end.

(** What a "Delete now" button reports. *)
Inductive Message :=
| error (text : string)
| success (text : string).

Definition in_range (d_from d_to : date) (dm : DailyMetric.t) : bool :=
  (d_from <=? DailyMetric.date dm) && (DailyMetric.date dm <=? d_to).

Definition week_ids_of (q : list DailyMetric.t) : list Z :=
  flat_map (fun dm => match DailyMetric.week_id dm with
                      | Some w => [w]
                      | None => []
                      end) q.

(** [touched_week_ids] of the rows selected in [d_from, d_to]. *)
Definition touched_week_ids (st : Store) (d_from d_to : date) : list Z :=
  Py.sorted_set (week_ids_of (filter (in_range d_from d_to) (dailies st))).

Definition has_week_id (wid : Z) (dm : DailyMetric.t) : bool :=
  match DailyMetric.week_id dm with
  | Some w => w =? wid
  | None => false
  end.

(** [empty_weeks]: the touched weeks with no DailyMetric left. *)
Definition empty_weeks (st : Store) (touched : list Z) : list Z :=
  filter (fun wid => (List.length (filter (has_week_id wid) (dailies st)) =? 0)%nat)
         touched.

Definition nonempty {A} (l : list A) : bool :=
  match l with [] => false | _ => true end.

(** [sqla_delete(Model).where(Model.week_id.in_(ids))] on the three weekly
    tables, then the commit. *)
Definition delete_weekly (st : Store) (ids : list Z) : Store :=
  let st := set_measurements st
              (filter (fun m => negb (mem (Measurement.week_id m) ids))
                      (measurements st)) in
  let st := set_wellbeings st
              (filter (fun m => negb (mem (Wellbeing.week_id m) ids))
                      (wellbeings st)) in
  set_adherences st
    (filter (fun m => negb (mem (Adherence.week_id m) ids)) (adherences st)).

Definition delete_weeks (st : Store) (ids : list Z) : Store :=
  set_weeks st (filter (fun w => negb (mem (Week.id w) ids)) (weeks st)).

(** "Delete now" in the mode "By date range". *)
Definition delete_by_date (st : Store) (d_from d_to : date)
           (also_delete_weekly delete_empty_weeks : bool) (confirm : string)
  : Store * Message :=
  if Py.str_ne confirm "DELETE" then
    (st, error "Please type DELETE to confirm.")
  else
    let touched := touched_week_ids st d_from d_to in
    let st1 := set_dailies st
                 (filter (fun dm => negb (in_range d_from d_to dm)) (dailies st)) in
    let st2 :=
      if also_delete_weekly && nonempty touched then
        let empty := empty_weeks st1 touched in
        if nonempty empty then
          let st2 := delete_weekly st1 empty in
          if delete_empty_weeks then delete_weeks st2 empty else st2
        else st1
      else st1 in
    (st2, success "Deletion completed. Check the dashboard.").

Definition week_in_range (wk_from wk_to : Z) (w : Week.t) : bool :=
  (wk_from <=? Week.week_number w) && (Week.week_number w <=? wk_to).

Definition dailies_week_in (ids : list Z) (dm : DailyMetric.t) : bool :=
  match DailyMetric.week_id dm with
  | Some w => mem w ids
  | None => false
  end.

(** "Delete now" in the mode "By week numbers". *)
Definition delete_by_week (st : Store) (wk_from wk_to : Z)
           (also_delete_weekly2 delete_weeks2 : bool) (confirm2 : string)
  : Store * Message :=
  if Py.str_ne confirm2 "DELETE" then
    (st, error "Please type DELETE to confirm.")
  else
    let wids := map Week.id (filter (week_in_range wk_from wk_to) (weeks st)) in
    let st' :=
      if nonempty wids then
        let st1 := set_dailies st
                     (filter (fun dm => negb (dailies_week_in wids dm)) (dailies st)) in
        let st2 := if also_delete_weekly2 then delete_weekly st1 wids else st1 in
        if delete_weeks2 then delete_weeks st2 wids else st2
      else st in
    (st', success "Deletion completed for selected weeks.").

(** [remaining] of the preview: the dailies of a week dated outside the
    range. *)
Definition remaining_outside (wid : Z) (d_from d_to : date) (dm : DailyMetric.t)
  : bool :=
  has_week_id wid dm
  && ((DailyMetric.date dm <? d_from) || (d_to <? DailyMetric.date dm)).

(** "Preview impact" in the mode "By date range": the number of daily rows
    to delete, the weeks touched, and with "also remove weekly check-ins" on
    touched weeks the weeks that would be fully removed. *)
Definition preview_by_date (st : Store) (d_from d_to : date)
           (also_delete_weekly : bool) : nat * list Z * option (list Z) :=
  let q_daily := filter (in_range d_from d_to) (dailies st) in
  let touched := touched_week_ids st d_from d_to in
  (List.length q_daily, touched,
   if also_delete_weekly && nonempty touched then
     Some (filter (fun wid =>
                     (List.length (filter (remaining_outside wid d_from d_to)
                                          (dailies st)) =? 0)%nat)
                  touched)
   else None).

(** "Preview impact" in the mode "By week numbers": the ids of the weeks
    found and the number of daily rows to delete. *)
Definition preview_by_week (st : Store) (wk_from wk_to : Z) : list Z * nat :=
  let wids := map Week.id (filter (week_in_range wk_from wk_to) (weeks st)) in
  (wids,
   if nonempty wids
   then List.length (filter (dailies_week_in wids) (dailies st))
   else 0%nat).

End ImportExport.

(** ** pages/5_Manage_Data.py *)

Module ManageData.

(** A row of the edited daily grid as "Save changes" reads it.  [e_id] is
    [None] for a row added in the grid (its id cell is NaN, and [int(NaN)]
    raises); the other [None]s are blank cells. *)
Record EditedDaily := mkEditedDaily {
  e_id : option Z;
  e_date : date;
  e_week_id : option Z;
  e_weight_kg : option float;
  e_steps : option Z
}.

(** The value stored in [dm.run_km] (lines 58-61). *)
Definition run_km_of (steps : option Z) : option float :=
  match steps with
  | Some s => Some ((Py.float_of_int s * 8) / (1780 * 5))%float
  | None => None
  end.

(** [sess.get(DailyMetric, id)]. *)
Definition get_daily (st : Store) (id : Z) : option DailyMetric.t :=
  find (fun dm => DailyMetric.id dm =? id) (dailies st).

Definition edit_daily (dm : DailyMetric.t) (r : EditedDaily) : DailyMetric.t :=
  DailyMetric.mk (DailyMetric.id dm) (DailyMetric.user_id dm)
                 (e_date r)
                 (match e_week_id r with
                  | Some w => Some w
                  | None => DailyMetric.week_id dm
                  end)
                 (e_weight_kg r)
                 (e_steps r)
                 (run_km_of (e_steps r)).

(** The loop over the edited rows; [None] when an iteration raises. *)
Fixpoint save_daily_rows (st : Store) (edited : list EditedDaily) : option Store :=
  match edited with
  | [] => Some st
  | r :: edited' =>
      match e_id r with
      | None => None
      | Some id =>
          match get_daily st id with
          | None => save_daily_rows st edited'
          | Some dm =>
              save_daily_rows
                (set_dailies st (update_row DailyMetric.id (edit_daily dm r) (dailies st)))
                edited'
          end
      end
  end.

(** "Save changes" on the daily tab: the commit follows the loop, so an
    iteration that raises leaves the store as it was. *)
Definition save_daily_changes (st : Store) (edited : list EditedDaily) : Store :=
  match save_daily_rows st edited with
  | Some st' => st'
  | None => st
  end.

(** A row of the edited weekly grid.  The measurement, wellbeing and
    adherence cells are read only when the grid has those columns, which is
    when the table had rows of the user at load. *)
Record EditedWeekly := mkEditedWeekly {
  ew_week_id : Z;
  ew_start_date : date;
  ew_r_biceps_in : option float;
  ew_l_biceps_in : option float;
  ew_chest_in : option float;
  ew_r_thigh_in : option float;
  ew_l_thigh_in : option float;
  ew_waist_navel_in : option float;
  ew_sleep_issues : option Z;
  ew_hunger_issues : option Z;
  ew_stress_issues : option Z;
  ew_diet_score : option Z;
  ew_workout_score : option Z
}.

(** [setattr(row, f, ...)] under [if f in edited.columns]. *)
Definition put {A} (in_columns : bool) (cell old : option A) : option A :=
  if in_columns then cell else old.

Definition set_week_start (st : Store) (r : EditedWeekly) : Store :=
  match find (fun w => Week.id w =? ew_week_id r) (weeks st) with
  | Some wk =>
      set_weeks st
        (update_row Week.id
           (Week.mk (Week.id wk) (Week.user_id wk) (Week.week_number wk)
                    (ew_start_date r))
           (weeks st))
  | None => st
  end.

(** [upsert(Measurement, ...)]; [None] is the IntegrityError of the INSERT
    when the week is held by a Measurement of another user. *)
Definition upsert_measurement (st : Store) (user_id : Z) (cols : bool)
           (r : EditedWeekly) : option Store :=
  match first (filter (fun m => (Measurement.user_id m =? user_id)
                                && (Measurement.week_id m =? ew_week_id r))
                      (measurements st)) with
  | Some m =>
      Some (set_measurements st
              (update_row Measurement.id
                 (Measurement.mk (Measurement.id m) (Measurement.user_id m)
                    (Measurement.week_id m)
                    (put cols (ew_r_biceps_in r) (Measurement.r_biceps_in m))
                    (put cols (ew_l_biceps_in r) (Measurement.l_biceps_in m))
                    (put cols (ew_chest_in r) (Measurement.chest_in m))
                    (put cols (ew_r_thigh_in r) (Measurement.r_thigh_in m))
                    (put cols (ew_l_thigh_in r) (Measurement.l_thigh_in m))
                    (put cols (ew_waist_navel_in r) (Measurement.waist_navel_in m)))
                 (measurements st)))
  | None =>
      if measurement_week_taken st (ew_week_id r) then None
      else
        Some (set_measurements st
                (measurements st ++
                   [Measurement.mk (next_id (map Measurement.id (measurements st)))
                      user_id (ew_week_id r)
                      (put cols (ew_r_biceps_in r) None)
                      (put cols (ew_l_biceps_in r) None)
                      (put cols (ew_chest_in r) None)
                      (put cols (ew_r_thigh_in r) None)
                      (put cols (ew_l_thigh_in r) None)
                      (put cols (ew_waist_navel_in r) None)]))
  end.

Definition upsert_wellbeing (st : Store) (user_id : Z) (cols : bool)
           (r : EditedWeekly) : option Store :=
  match first (filter (fun m => (Wellbeing.user_id m =? user_id)
                                && (Wellbeing.week_id m =? ew_week_id r))
                      (wellbeings st)) with
  | Some m =>
      Some (set_wellbeings st
              (update_row Wellbeing.id
                 (Wellbeing.mk (Wellbeing.id m) (Wellbeing.user_id m)
                    (Wellbeing.week_id m)
                    (put cols (ew_sleep_issues r) (Wellbeing.sleep_issues m))
                    (put cols (ew_hunger_issues r) (Wellbeing.hunger_issues m))
                    (put cols (ew_stress_issues r) (Wellbeing.stress_issues m)))
                 (wellbeings st)))
  | None =>
      if wellbeing_week_taken st (ew_week_id r) then None
      else
        Some (set_wellbeings st
                (wellbeings st ++
                   [Wellbeing.mk (next_id (map Wellbeing.id (wellbeings st)))
                      user_id (ew_week_id r)
                      (put cols (ew_sleep_issues r) None)
                      (put cols (ew_hunger_issues r) None)
                      (put cols (ew_stress_issues r) None)]))
  end.

Definition upsert_adherence (st : Store) (user_id : Z) (cols : bool)
           (r : EditedWeekly) : option Store :=
  match first (filter (fun m => (Adherence.user_id m =? user_id)
                                && (Adherence.week_id m =? ew_week_id r))
                      (adherences st)) with
  | Some m =>
      Some (set_adherences st
              (update_row Adherence.id
                 (Adherence.mk (Adherence.id m) (Adherence.user_id m)
                    (Adherence.week_id m)
                    (put cols (ew_diet_score r) (Adherence.diet_score m))
                    (put cols (ew_workout_score r) (Adherence.workout_score m)))
                 (adherences st)))
  | None =>
      if adherence_week_taken st (ew_week_id r) then None
      else
        Some (set_adherences st
                (adherences st ++
                   [Adherence.mk (next_id (map Adherence.id (adherences st)))
                      user_id (ew_week_id r)
                      (put cols (ew_diet_score r) None)
                      (put cols (ew_workout_score r) None)]))
  end.

(** The body of the loop for one grid row: the Week's [start_date] is
    written back and the three weekly rows are upserted. *)
Definition save_weekly_row (st : Store) (user_id : Z) (m_cols wb_cols ad_cols : bool)
           (r : EditedWeekly) : option Store :=
  match upsert_measurement (set_week_start st r) user_id m_cols r with
  | None => None
  | Some st =>
      match upsert_wellbeing st user_id wb_cols r with
      | None => None
      | Some st => upsert_adherence st user_id ad_cols r
      end
  end.

(** The loop over the grid rows; [None] when an iteration raises. *)
Fixpoint save_weekly_rows (st : Store) (user_id : Z) (m_cols wb_cols ad_cols : bool)
         (edited : list EditedWeekly) : option Store :=
  match edited with
  | [] => Some st
  | r :: edited' =>
      match save_weekly_row st user_id m_cols wb_cols ad_cols r with
      | None => None
      | Some st' => save_weekly_rows st' user_id m_cols wb_cols ad_cols edited'
      end
  end.

(** "Save weekly changes".  [m_cols], [wb_cols] and [ad_cols] tell which
    column groups the grid has.  The commit follows the loop, so an
    iteration that raises leaves the store as it was. *)
Definition save_weekly_changes (st : Store) (m_cols wb_cols ad_cols : bool)
           (edited : list EditedWeekly) : Store :=
  match first (users st) with
  | None => st
  | Some user =>
      match save_weekly_rows st (User.id user) m_cols wb_cols ad_cols edited with
      | Some st' => st'
      | None => st
      end
  end.

(** What the two delete buttons report: the warning of an empty selection,
    or the success message with the number of selected rows. *)
Inductive Notice :=
| select_at_least_one
| deleted (n : nat).

(** [sess.delete(row)]: the row of that primary key goes. *)
Definition delete_daily (st : Store) (id : Z) : Store :=
  set_dailies st (filter (fun dm => negb (DailyMetric.id dm =? id)) (dailies st)).

(** The loop of "Delete selected" over the ids of the checked rows; an id
    cell that is NaN (a row added in the grid) raises on [int(i)]. *)
Fixpoint delete_daily_rows (st : Store) (ids : list (option Z)) : option Store :=
  match ids with
  | [] => Some st
  | None :: _ => None
  | Some i :: ids' =>
      match get_daily st i with
      | Some dm => delete_daily_rows (delete_daily st (DailyMetric.id dm)) ids'
      | None => delete_daily_rows st ids'
      end
  end.

(** "Delete selected" on the daily tab; [None] when the loop raised, in which
    case nothing is committed and no message is shown. *)
Definition delete_selected_daily (st : Store) (ids : list (option Z))
  : Store * option Notice :=
  match ids with
  | [] => (st, Some select_at_least_one)
  | _ =>
      match delete_daily_rows st ids with
      | Some st' => (st', Some (deleted (List.length ids)))
      | None => (st, None)
      end
  end.

(** The three lookups and deletes of one checked week id. *)
Definition delete_weekly_of (st : Store) (user_id wid : Z) : Store :=
  let st :=
    match first (filter (fun m => (Measurement.user_id m =? user_id)
                                  && (Measurement.week_id m =? wid))
                        (measurements st)) with
    | Some row =>
        set_measurements st
          (filter (fun m => negb (Measurement.id m =? Measurement.id row))
                  (measurements st))
    | None => st
    end in
  let st :=
    match first (filter (fun m => (Wellbeing.user_id m =? user_id)
                                  && (Wellbeing.week_id m =? wid))
                        (wellbeings st)) with
    | Some row =>
        set_wellbeings st
          (filter (fun m => negb (Wellbeing.id m =? Wellbeing.id row)) (wellbeings st))
    | None => st
    end in
  match first (filter (fun m => (Adherence.user_id m =? user_id)
                                && (Adherence.week_id m =? wid))
                      (adherences st)) with
  | Some row =>
      set_adherences st
        (filter (fun m => negb (Adherence.id m =? Adherence.id row)) (adherences st))
  | None => st
  end.

(** "Delete selected week rows (all weekly records)" for the week ids of the
    checked rows of the weekly grid; [None] is the AttributeError of
    [user.id] on an empty User table. *)
Definition delete_selected_weeks (st : Store) (ids : list Z)
  : Store * option Notice :=
  match ids with
  | [] => (st, Some select_at_least_one)
  | _ =>
      match first (users st) with
      | None => (st, None)
      | Some user =>
          (fold_left (fun st wid => delete_weekly_of st (User.id user) wid) ids st,
           Some (deleted (List.length ids)))
      end
  end.

End ManageData.

(** ** pages/1_Dashboard.py *)

Module Dashboard.

(** [steps_to_km] on a numeric series, element by element. *)
Definition steps_to_km (series : list float) : list float :=
  map (fun s => (s * 8) / (1780 * 5))%float series.

(** The [km_calc] column: [steps_to_km(daily_day["steps"]).round(2)]. *)
Definition km_calc (steps : list float) : list float :=
  map Py.round2 (steps_to_km steps).

Definition faces : list string := ["😄"; "🙂"; "😐"; "😕"; "😣"; "😫"].

(** [issue_emoji]: [None] would be the IndexError of the list lookup. *)
Definition issue_emoji (v : Py.scalar) : option string :=
  match Py.int v with
  | None => Some "—"
  | Some v => nth_error faces (Z.to_nat (Z.max 0 (Z.min 5 v)))
  end.

Definition adherence_emoji (v : Py.scalar) : string :=
  match Py.int v with
  | None => "—"
  | Some v =>
      if 8 <=? v then "🔥"
      else if 6 <=? v then "👍"
      else if 4 <=? v then "⚠️"
      else "❌"
  end.

End Dashboard.

(** ** utils.py

    A DataFrame is its list of column labels and its rows, a row being the
    dict of its cells; a label a row does not hold reads as missing. *)

Module Utils.

Inductive cell :=
| NA
| Int (n : Z)
| Float (x : float)
| Day (d : date).

Definition row := list (string * cell).

Record DataFrame := mkDF {
  columns : list string;
  rows : list row
}.

Fixpoint get (r : row) (c : string) : cell :=
  match r with
  | [] => NA
  | (k, v) :: r' => if String.eqb k c then v else get r' c
  end.

(** [df[c]] as the list of its values. *)
Definition column (df : DataFrame) (c : string) : list cell :=
  map (fun r => get r c) (rows df).

Definition in_cols (c : string) (cols : list string) : bool :=
  existsb (String.eqb c) cols.

(** [c in df.columns]. *)
Definition has_col (df : DataFrame) (c : string) : bool :=
  in_cols c (columns df).

(** [df.empty]: an axis of length 0. *)
Definition empty (df : DataFrame) : bool :=
  match columns df, rows df with
  | [], _ => true
  | _, [] => true
  | _, _ => false
  end.

(** [df[c] = values], the values in row order. *)
Definition assign (df : DataFrame) (c : string) (vals : list cell) : DataFrame :=
  mkDF (if has_col df c then columns df else columns df ++ [c])
       (map (fun rv => (c, snd rv) :: fst rv) (combine (rows df) vals)).

(** [df[c] = scalar]. *)
Definition assign_scalar (df : DataFrame) (c : string) (v : cell) : DataFrame :=
  mkDF (if has_col df c then columns df else columns df ++ [c])
       (map (fun r => (c, v) :: r) (rows df)).

(** [df[[cols]]]. *)
Definition select (df : DataFrame) (cols : list string) : DataFrame :=
  mkDF cols (map (fun r => map (fun c => (c, get r c)) cols) (rows df)).

(** [df.drop(columns=cols)]. *)
Definition drop (df : DataFrame) (cols : list string) : DataFrame :=
  mkDF (filter (fun c => negb (in_cols c cols)) (columns df))
       (map (filter (fun kv => negb (in_cols (fst kv) cols))) (rows df)).

Definition REQUIRED_WEEKLY_COLS : list string :=
  ["week_id"; "week_number"; "start_date";
   "avg_weight_kg"; "avg_steps"; "weekly_weight_loss";
   "diet_score"; "workout_score";
   "sleep_issues"; "hunger_issues"; "stress_issues";
   "waist_navel_in"; "chest_in"; "r_biceps_in"; "l_biceps_in";
   "r_thigh_in"; "l_thigh_in"].

Definition _ensure_weekly_cols (df : DataFrame) : DataFrame :=
  if empty df then
    fold_left (fun out c => assign out c []) REQUIRED_WEEKLY_COLS (mkDF [] [])
  else
    fold_left (fun df c => if negb (has_col df c) then assign_scalar df c NA else df)
              REQUIRED_WEEKLY_COLS df.

Definition of_int (o : option Z) : cell :=
  match o with Some n => Int n | None => NA end.

Definition of_float (o : option float) : cell :=
  match o with Some x => Float x | None => NA end.

(** [_to_dict] on the rows of each table. *)
Definition daily_to_dict (r : DailyMetric.t) : row :=
  [("id", Int (DailyMetric.id r)); ("user_id", Int (DailyMetric.user_id r));
   ("date", Day (DailyMetric.date r)); ("week_id", of_int (DailyMetric.week_id r));
   ("weight_kg", of_float (DailyMetric.weight_kg r));
   ("steps", of_int (DailyMetric.steps r));
   ("run_km", of_float (DailyMetric.run_km r))].

Definition week_to_dict (r : Week.t) : row :=
  [("id", Int (Week.id r)); ("user_id", Int (Week.user_id r));
   ("week_number", Int (Week.week_number r)); ("start_date", Day (Week.start_date r))].

Definition measurement_to_dict (r : Measurement.t) : row :=
  [("id", Int (Measurement.id r)); ("user_id", Int (Measurement.user_id r));
   ("week_id", Int (Measurement.week_id r));
   ("r_biceps_in", of_float (Measurement.r_biceps_in r));
   ("l_biceps_in", of_float (Measurement.l_biceps_in r));
   ("chest_in", of_float (Measurement.chest_in r));
   ("r_thigh_in", of_float (Measurement.r_thigh_in r));
   ("l_thigh_in", of_float (Measurement.l_thigh_in r));
   ("waist_navel_in", of_float (Measurement.waist_navel_in r))].

Definition wellbeing_to_dict (r : Wellbeing.t) : row :=
  [("id", Int (Wellbeing.id r)); ("user_id", Int (Wellbeing.user_id r));
   ("week_id", Int (Wellbeing.week_id r));
   ("sleep_issues", of_int (Wellbeing.sleep_issues r));
   ("hunger_issues", of_int (Wellbeing.hunger_issues r));
   ("stress_issues", of_int (Wellbeing.stress_issues r))].

Definition adherence_to_dict (r : Adherence.t) : row :=
  [("id", Int (Adherence.id r)); ("user_id", Int (Adherence.user_id r));
   ("week_id", Int (Adherence.week_id r));
   ("diet_score", of_int (Adherence.diet_score r));
   ("workout_score", of_int (Adherence.workout_score r))].

(** [load_daily_df]: both branches give the seven columns of the model. *)
Definition load_daily_df (st : Store) (user_id : Z) : DataFrame :=
  let rows := filter (fun r => DailyMetric.user_id r =? user_id) (dailies st) in
  mkDF ["id"; "user_id"; "date"; "week_id"; "weight_kg"; "steps"; "run_km"]
       (map daily_to_dict rows).

(** Merge and group keys: the integer of the cell, or missing. *)
Definition key_of (c : cell) : option Z :=
  match c with Int n => Some n | _ => None end.

(** pandas matches a missing key with a missing key. *)
Definition key_eqb (a b : option Z) : bool :=
  match a, b with
  | Some x, Some y => x =? y
  | None, None => true
  | _, _ => false
  end.

(** Order of [sort_values(..., na_position="last")]. *)
Definition key_leb (a b : option Z) : bool :=
  match a, b with
  | _, None => true
  | None, Some _ => false
  | Some x, Some y => x <=? y
  end.

Definition somes (l : list (option Z)) : list Z :=
  flat_map (fun o => match o with Some n => [n] | None => [] end) l.

Definition is_none (o : option Z) : bool :=
  match o with None => true | Some _ => false end.

(** Group keys of [groupby(..., dropna=False)]: ascending, missing last. *)
Definition group_keys (ks : list (option Z)) : list (option Z) :=
  map Some (Py.sorted_set (somes ks)) ++ (if existsb is_none ks then [None] else []).

(** The number of a cell for a mean; missing cells and NaN are skipped. *)
Definition present (c : cell) : list float :=
  match c with
  | Int n => [Py.float_of_int n]
  | Float x => if is_nan x then [] else [x]
  | _ => []
  end.

(** One step of the compensated (Kahan) summation of pandas' [group_mean]:
    the running sum and its compensation, the latter reset to 0 when it is
    NaN. *)
Definition kahan_add (acc : float * float) (val : float) : float * float :=
  let '(sumx, compensation) := acc in
  let y := (val - compensation)%float in
  let t := (sumx + y)%float in
  let c := (t - sumx - y)%float in
  (t, if is_nan c then 0%float else c).

(** The aggregation ["mean"] of a groupby: the compensated sum of the
    present values, in row order, over their count; NaN when there is
    none. *)
Definition mean (cs : list cell) : cell :=
  match flat_map present cs with
  | [] => Float nan
  | xs => Float (fst (fold_left kahan_add xs (0%float, 0%float))
                 / Py.float_of_int (Z.of_nat (List.length xs)))%float
  end.

(** [d.groupby("week_id", dropna=False).agg(avg_weight_kg=("weight_kg",
    "mean"), avg_steps=("steps", "mean")).reset_index()]. *)
Definition weekly_means (d : DataFrame) : DataFrame :=
  mkDF ["week_id"; "avg_weight_kg"; "avg_steps"]
       (map (fun k =>
               let g := filter (fun r => key_eqb (key_of (get r "week_id")) k)
                               (rows d) in
               [("week_id", of_int k);
                ("avg_weight_kg", mean (map (fun r => get r "weight_kg") g));
                ("avg_steps", mean (map (fun r => get r "steps") g))])
            (group_keys (map key_of (column d "week_id")))).

(** [left.merge(right, left_on=..., right_on=..., how="left")] for frames
    that share no label but the key: every left row in order, joined with
    each right row of the same key, or alone when there is none. *)
Definition merge_left (l r : DataFrame) (left_on right_on : string) : DataFrame :=
  mkDF (columns l ++ filter (fun c => negb (in_cols c (columns l))) (columns r))
       (flat_map
          (fun lr =>
             match filter (fun rr => key_eqb (key_of (get lr left_on))
                                             (key_of (get rr right_on)))
                          (rows r) with
             | [] => [lr]
             | ms => map (fun rr => (lr ++ rr)%list) ms
             end)
          (rows l)).

Fixpoint insert_by (c : string) (r : row) (l : list row) : list row :=
  match l with
  | [] => [r]
  | x :: l' =>
      if key_leb (key_of (get r c)) (key_of (get x c)) then r :: l
      else x :: insert_by c r l'
  end.

(** [df.sort_values(c, na_position="last")], rows of equal key in their
    former order. *)
Definition sort_values (df : DataFrame) (c : string) : DataFrame :=
  mkDF (columns df) (fold_right (insert_by c) [] (rows df)).

Fixpoint keep_last (c : string) (l : list row) : list row :=
  match l with
  | [] => []
  | r :: l' =>
      if existsb (fun r' => key_eqb (key_of (get r' c)) (key_of (get r c))) l'
      then keep_last c l'
      else r :: keep_last c l'
  end.

(** [df.drop_duplicates(subset=[c], keep="last")]. *)
Definition drop_duplicates (df : DataFrame) (c : string) : DataFrame :=
  mkDF (columns df) (keep_last c (rows df)).

(** [table_df] for the three weekly tables: the rows of the user, or the
    empty frame with the same labels. *)
Definition measurement_df (st : Store) (user_id : Z) : DataFrame :=
  mkDF ["id"; "user_id"; "week_id"; "r_biceps_in"; "l_biceps_in"; "chest_in";
        "r_thigh_in"; "l_thigh_in"; "waist_navel_in"]
       (map measurement_to_dict
            (filter (fun r => Measurement.user_id r =? user_id) (measurements st))).

Definition wellbeing_df (st : Store) (user_id : Z) : DataFrame :=
  mkDF ["id"; "user_id"; "week_id"; "sleep_issues"; "hunger_issues"; "stress_issues"]
       (map wellbeing_to_dict
            (filter (fun r => Wellbeing.user_id r =? user_id) (wellbeings st))).

Definition adherence_df (st : Store) (user_id : Z) : DataFrame :=
  mkDF ["id"; "user_id"; "week_id"; "diet_score"; "workout_score"]
       (map adherence_to_dict
            (filter (fun r => Adherence.user_id r =? user_id) (adherences st))).

(** The body of [for frame in (m, wb, ad)]. *)
Definition merge_weekly (out frame : DataFrame) : DataFrame :=
  if negb (empty frame) then
    let frame := drop_duplicates (sort_values frame "id") "week_id" in
    merge_left out (drop frame ["id"; "user_id"]) "week_id" "week_id"
  else out.

Definition num (c : cell) : float :=
  match c with
  | Int n => Py.float_of_int n
  | Float x => x
  | _ => nan
  end.

Fixpoint diff_from (prev : cell) (l : list cell) : list cell :=
  match l with
  | [] => []
  | c :: l' => Float (num c - num prev)%float :: diff_from c l'
  end.

(** [series.diff(1)]: NaN first, then each value minus the one before. *)
Definition diff (l : list cell) : list cell :=
  match l with
  | [] => []
  | c :: l' => Float nan :: diff_from c l'
  end.

Definition load_weekly_df (st : Store) (user_id : Z) : DataFrame :=
  let d := load_daily_df st user_id in
  if empty d then _ensure_weekly_cols (mkDF [] [])
  else
    let weeks := filter (fun x => Week.user_id x =? user_id) (weeks st) in
    let w := mkDF ["id"; "user_id"; "week_number"; "start_date"]
                  (map week_to_dict weeks) in
    if negb (has_col d "week_id") then _ensure_weekly_cols (mkDF [] [])
    else
      let avg := weekly_means d in
      let out :=
        if negb (empty w) then
          drop (merge_left avg (select w ["id"; "week_number"; "start_date"])
                           "week_id" "id")
               ["id"]
        else
          assign_scalar (assign_scalar avg "week_number" NA) "start_date" NA in
      let m := measurement_df st user_id in
      let wb := wellbeing_df st user_id in
      let ad := adherence_df st user_id in
      let out := fold_left merge_weekly [m; wb; ad] out in
      let out := if has_col out "week_number"
                 then sort_values out "week_number" else out in
      let out := assign out "weekly_weight_loss" (diff (column out "avg_weight_kg")) in
      _ensure_weekly_cols out.

End Utils.

(** ** Notions and scenarios used by the properties *)

(** A DailyMetric keeps [run_km] derived from its stored [steps]. *)
Definition km_derived (dm : DailyMetric.t) : Prop :=
  DailyMetric.run_km dm =
  match DailyMetric.steps dm with
  | Some s => Some (Py.float_of_int s * 8 / 8900)%float
  | None => None
  end.

(** The number of Week rows of a user at a start date. *)
Definition count_weeks_at (st : Store) (user_id : Z) (start : date) : nat :=
  List.length (filter (DataEntry.week_at user_id start) (weeks st)).

(** The store after the first load of the home screen. *)
Definition fresh_store : Store := snd (App.bootstrap_user empty_store).

(** Monday 2025-01-06, the date of the CSV template. *)
Definition monday_2025_01_06 : date := 739257.

(** A CSV row with the required columns only. *)
Definition csv_row (week_number : Z) (start d : date) (weight : option float)
           (steps : option Z) : ImportExport.CsvRow :=
  ImportExport.mkCsvRow week_number start d weight steps
    None None None None None None None None None None None.

(** Two weeks resolved on the data-entry screen, after which the weekly grid
    of the manage-data screen is saved with the second week's [start_date]
    edited to the Monday of the first. *)
Definition two_weeks_same_monday : Store :=
  let st1 := snd (DataEntry.get_or_create_week fresh_store 1 monday_2025_01_06) in
  let st2 := snd (DataEntry.get_or_create_week st1 1 (monday_2025_01_06 + 7)) in
  ManageData.save_weekly_changes st2 false false false
    [ManageData.mkEditedWeekly 1 monday_2025_01_06
       None None None None None None None None None None None;
     ManageData.mkEditedWeekly 2 monday_2025_01_06
       None None None None None None None None None None None].

(** The store of a date-range deletion once its DailyMetric rows are deleted,
    on which the deletion looks for the weeks that became empty. *)
Definition after_dailies (st : Store) (d_from d_to : date) : Store :=
  set_dailies st (filter (fun dm => negb (ImportExport.in_range d_from d_to dm))
                         (dailies st)).

(** The weeks a date-range deletion finds fully empty. *)
Definition detected_empty (st : Store) (d_from d_to : date) : list Z :=
  ImportExport.empty_weeks (after_dailies st d_from d_to)
                           (ImportExport.touched_week_ids st d_from d_to).

(** Two users with a daily entry each, in the same week number of their own
    Week rows. *)
Definition two_users_store : Store :=
  mkStore [User.mk 1 "You" None None None "metric";
           User.mk 2 "Other" None None None "metric"]
          [Week.mk 1 1 1 monday_2025_01_06; Week.mk 2 2 1 monday_2025_01_06]
          [DailyMetric.mk 1 1 monday_2025_01_06 (Some 1) (Some 88.9%float) None None;
           DailyMetric.mk 2 2 (monday_2025_01_06 + 1) (Some 2) (Some 70%float) None None]
          [] [] [].

(** Two weeks of one user with their check-ins: week 1 has its two dailies
    on Monday and Tuesday, week 2 on the next Monday and Tuesday. *)
Definition two_weeks_store : Store :=
  mkStore [User.mk 1 "You" None None None "metric"]
          [Week.mk 1 1 1 monday_2025_01_06; Week.mk 2 1 2 (monday_2025_01_06 + 7)]
          [DailyMetric.mk 1 1 monday_2025_01_06 (Some 1) (Some 90%float) None None;
           DailyMetric.mk 2 1 (monday_2025_01_06 + 1) (Some 1) (Some 90%float) None None;
           DailyMetric.mk 3 1 (monday_2025_01_06 + 7) (Some 2) (Some 88.5%float) None None;
           DailyMetric.mk 4 1 (monday_2025_01_06 + 8) (Some 2) (Some 88.5%float) None None]
          [Measurement.mk 1 1 1 None None (Some 40%float) None None None;
           Measurement.mk 2 1 2 None None (Some 39.5%float) None None None]
          [Wellbeing.mk 1 1 1 (Some 1) (Some 2) (Some 1);
           Wellbeing.mk 2 1 2 (Some 0) (Some 1) (Some 1)]
          [Adherence.mk 1 1 1 (Some 9) (Some 8); Adherence.mk 2 1 2 (Some 10) (Some 7)].

(** The order of the weekly frame: ascending week numbers, missing ones
    last. *)
Definition week_number_order (a b : Utils.cell) : Prop :=
  Utils.key_leb (Utils.key_of a) (Utils.key_of b) = true.

(** "Save daily entry" on a store that has its User row. *)
Definition saved (st : Store) (d : date) (weight : float) (steps : Z) : Store :=
  match DataEntry.save_daily_entry st d weight steps with
  | Some st' => st'
  | None => st
  end.

(** Three consecutive weeks entered on the data-entry screen, two weigh-ins
    in the first week: the weekly averages are 90.0, 88.5 and 88.5. *)
Definition three_weeks_store : Store :=
  let st := saved fresh_store monday_2025_01_06 89.5%float 8000 in
  let st := saved st (monday_2025_01_06 + 2) 90.5%float 9000 in
  let st := saved st (monday_2025_01_06 + 7) 88.5%float 12319 in
  saved st (monday_2025_01_06 + 14) 88.5%float 10000.

(** The CSV template row with a chest measurement only. *)
Definition csv_row_chest : ImportExport.CsvRow :=
  ImportExport.mkCsvRow 1 monday_2025_01_06 monday_2025_01_06 (Some 88.9%float)
    (Some 12319) None None (Some 41%float) None None None None None None None None.

(** A table [l'] obtained from [l] by deleting rows, none of them a row of a
    week outside [ids] as long as the keys of [l] are distinct. *)
Definition kept {A} (key wk : A -> Z) (ids : list Z) (l l' : list A) : Prop :=
  exists p : A -> bool,
    l' = filter p l
    /\ (NoDup (map key l) ->
        forall m, In m l -> ~ In (wk m) ids -> p m = true).

(** Whether the INSERT of a weekly row of the user for the week violates the
    UNIQUE constraint of [week_id]: the user has no row for the week, and a
    row of another user holds it. *)
Definition measurement_blocked (st : Store) (user_id week_id : Z) : bool :=
  match DataEntry.find_measurement st user_id week_id with
  | Some _ => false
  | None => measurement_week_taken st week_id
  end.

Definition wellbeing_blocked (st : Store) (user_id week_id : Z) : bool :=
  match DataEntry.find_wellbeing st user_id week_id with
  | Some _ => false
  | None => wellbeing_week_taken st week_id
  end.

Definition adherence_blocked (st : Store) (user_id week_id : Z) : bool :=
  match DataEntry.find_adherence st user_id week_id with
  | Some _ => false
  | None => adherence_week_taken st week_id
  end.

(** A check-in writes a row in each of the three tables. *)
Definition checkin_blocked (st : Store) (user_id week_id : Z) : bool :=
  measurement_blocked st user_id week_id
  || wellbeing_blocked st user_id week_id
  || adherence_blocked st user_id week_id.

(** The first user's week 1 is held by a Wellbeing row of a second user. *)
Definition week_held_store : Store :=
  mkStore [User.mk 1 "You" None None None "metric";
           User.mk 2 "Other" None None None "metric"]
          [Week.mk 1 1 1 monday_2025_01_06]
          [] []
          [Wellbeing.mk 1 2 1 (Some 1) (Some 1) (Some 1)]
          [].

(** * Properties *)

(** ** Derived kilometres *)

Lemma km_divisor : (1780 * 5)%float = 8900%float.
Proof. reflexivity. Qed.

Lemma import_daily_row_km_derived st user_id wk row :
  km_derived (ImportExport.import_daily_row st user_id wk row).
Proof.
  unfold km_derived, ImportExport.import_daily_row; simpl.
  destruct (ImportExport.c_steps row); reflexivity.
Qed.

Lemma edit_daily_km_derived dm r : km_derived (ManageData.edit_daily dm r).
Proof.
  unfold km_derived, ManageData.edit_daily; simpl.
  destruct (ManageData.e_steps r); reflexivity.
Qed.

Lemma get_or_create_week_dailies st user_id d :
  dailies (snd (DataEntry.get_or_create_week st user_id d)) = dailies st.
Proof.
  unfold DataEntry.get_or_create_week.
  destruct (first (filter _ (weeks st))); reflexivity.
Qed.

(** The row "Save daily entry" appends. *)
Lemma save_daily_entry_row st d weight steps st' :
  DataEntry.save_daily_entry st d weight steps = Some st' ->
  exists dm,
    dailies st' = (dailies st ++ [dm])%list
    /\ DailyMetric.steps dm = (if Py.truthy steps then Some steps else None)
    /\ DailyMetric.run_km dm = Some (Py.float_of_int steps * 8 / 8900)%float.
Proof.
  unfold DataEntry.save_daily_entry.
  destruct (first (users st)) as [user|]; [|discriminate].
  pose proof (get_or_create_week_dailies st (User.id user) d) as Hd.
  destruct (DataEntry.get_or_create_week st (User.id user) d) as [wk st1].
  simpl in Hd. intros H. injection H as <-.
  eexists. simpl. rewrite Hd. repeat split.
Qed.

Lemma save_daily_entry_km_derived st d weight steps st' :
  steps <> 0 ->
  DataEntry.save_daily_entry st d weight steps = Some st' ->
  exists dm, dailies st' = (dailies st ++ [dm])%list /\ km_derived dm.
Proof.
  intros Hs H. destruct (save_daily_entry_row _ _ _ _ _ H) as (dm & Hd & Hst & Hkm).
  exists dm. split; [exact Hd|]. unfold km_derived. rewrite Hst, Hkm.
  unfold Py.truthy. destruct (Z.eqb_spec steps 0); [contradiction|reflexivity].
Qed.

(** C1 (the code departs from the claim): "Save daily entry" with a steps
    input of zero appends a DailyMetric whose [steps] is absent and whose
    [run_km] is 0.0, not absent; the CSV import and the manage-data save both
    clear [run_km] when [steps] is absent
    ([import_daily_row_km_derived], [edit_daily_km_derived]). *)
Theorem save_daily_entry_zero_steps st d weight st' :
  DataEntry.save_daily_entry st d weight 0 = Some st' ->
  exists dm,
    dailies st' = (dailies st ++ [dm])%list
    /\ DailyMetric.steps dm = None
    /\ DailyMetric.run_km dm = Some 0%float
    /\ ~ km_derived dm.
Proof.
  intros H. destruct (save_daily_entry_row _ _ _ _ _ H) as (dm & Hd & Hst & Hkm).
  exists dm. simpl in Hst. repeat split; try assumption.
  unfold km_derived. rewrite Hst, Hkm. discriminate.
Qed.

Lemma save_daily_entry_zero_steps_witness :
  exists dm,
    dailies (mkStore [User.mk 1 "You" None None None "metric"]
                     [Week.mk 1 1 1 739257]
                     [DailyMetric.mk 1 1 739257 (Some 1) (Some 90%float) None (Some 0%float)]
                     [] [] [])
    = ([] ++ [dm])%list
    /\ DailyMetric.steps dm = None
    /\ DailyMetric.run_km dm = Some 0%float
    /\ ~ km_derived dm.
Proof.
  apply (save_daily_entry_zero_steps
           (mkStore [User.mk 1 "You" None None None "metric"] [] [] [] [] [])
           739257 90%float).
  reflexivity.
Defined.

(** C7: for every step count [s] (so for every non-negative one) the four
    screens derive the kilometres as [s * 8.0 / 8900.0], the divisor
    [1780.0 * 5.0] being exactly 8900.0; the dashboard does so for every
    element of every steps series it is given, whatever its length, and its
    [km_calc] column is that value rounded to two decimals; and 12319 steps
    give 11.07 km once rounded. *)
Theorem steps_to_km_formula (s : Z) :
  (forall series,
      Dashboard.steps_to_km series = map (fun x => (x * 8 / 8900)%float) series)
  /\ Dashboard.steps_to_km [Py.float_of_int s] = [(Py.float_of_int s * 8 / 8900)%float]
  /\ (forall x, Dashboard.steps_to_km [x] = [(x * 8 / 8900)%float])
  /\ DataEntry.steps_to_km (Some s) = Some (Py.float_of_int s * 8 / 8900)%float
  /\ ImportExport.run_km_of (Some s) = Some (Py.float_of_int s * 8 / 8900)%float
  /\ ManageData.run_km_of (Some s) = Some (Py.float_of_int s * 8 / 8900)%float
  /\ (forall series,
         Dashboard.km_calc series
         = map (fun x => Py.round2 (x * 8 / 8900)%float) series)
  /\ Dashboard.km_calc [Py.float_of_int 12319] = [11.07%float].
Proof.
  assert (Hs : forall series,
             Dashboard.steps_to_km series
             = map (fun x => (x * 8 / 8900)%float) series).
  { intros series. unfold Dashboard.steps_to_km. apply map_ext.
    intros x. now rewrite km_divisor. }
  split; [exact Hs|].
  split; [apply Hs|]. split; [intros x; apply Hs|].
  unfold DataEntry.steps_to_km, ImportExport.run_km_of, ManageData.run_km_of.
  rewrite km_divisor.
  split; [reflexivity|]. split; [reflexivity|]. split; [reflexivity|].
  split; [|reflexivity].
  intros series. unfold Dashboard.km_calc. rewrite Hs. apply map_map.
Qed.

(** ** Profile bootstrap *)

Lemma bootstrap_user_existing st :
  users st <> [] -> snd (App.bootstrap_user st) = st.
Proof.
  unfold App.bootstrap_user, first. destruct (users st); [congruence|reflexivity].
Qed.

(** C5: on a store with no User row the bootstrap creates exactly one row,
    named "You", with email, height and goal weight absent and units
    "metric"; a second run leaves the store as it is, so one User row. *)
Theorem bootstrap_user_once st :
  users st = [] ->
  users (snd (App.bootstrap_user st)) = [User.mk 1 "You" None None None "metric"]
  /\ snd (App.bootstrap_user (snd (App.bootstrap_user st))) = snd (App.bootstrap_user st)
  /\ List.length (users (snd (App.bootstrap_user (snd (App.bootstrap_user st))))) = 1%nat.
Proof.
  intros H.
  assert (H1 : users (snd (App.bootstrap_user st))
               = [User.mk 1 "You" None None None "metric"]).
  { unfold App.bootstrap_user. rewrite H. reflexivity. }
  assert (H2 : snd (App.bootstrap_user (snd (App.bootstrap_user st)))
               = snd (App.bootstrap_user st)).
  { apply bootstrap_user_existing. rewrite H1. discriminate. }
  split; [exact H1|]. split; [exact H2|]. rewrite H2, H1. reflexivity.
Qed.

Lemma bootstrap_user_once_witness :
  users (snd (App.bootstrap_user empty_store)) = [User.mk 1 "You" None None None "metric"]
  /\ snd (App.bootstrap_user (snd (App.bootstrap_user empty_store)))
     = snd (App.bootstrap_user empty_store)
  /\ List.length (users (snd (App.bootstrap_user (snd (App.bootstrap_user empty_store)))))
     = 1%nat.
Proof. apply (bootstrap_user_once empty_store). reflexivity. Defined.

(** ** Guarded bulk deletion *)

Lemma str_ne_true a b : a <> b -> Py.str_ne a b = true.
Proof.
  intros H. unfold Py.str_ne. destruct (String.eqb_spec a b); [contradiction|reflexivity].
Qed.

(** C3: when the confirmation text is not "DELETE", either bulk deletion
    leaves the whole store (every table) as it was and reports an error. *)
Theorem deletion_needs_confirmation st confirm :
  confirm <> "DELETE" ->
  (forall d_from d_to also_delete_weekly delete_empty_weeks,
      ImportExport.delete_by_date st d_from d_to also_delete_weekly delete_empty_weeks confirm
      = (st, ImportExport.error "Please type DELETE to confirm."))
  /\ (forall wk_from wk_to also_delete_weekly2 delete_weeks2,
      ImportExport.delete_by_week st wk_from wk_to also_delete_weekly2 delete_weeks2 confirm
      = (st, ImportExport.error "Please type DELETE to confirm.")).
Proof.
  intros H. split; intros;
    unfold ImportExport.delete_by_date, ImportExport.delete_by_week;
    rewrite (str_ne_true _ _ H); reflexivity.
Qed.

(** ** Week resolution *)

Lemma week_at_refl user_id start id n :
  DataEntry.week_at user_id start (Week.mk id user_id n start) = true.
Proof. unfold DataEntry.week_at; simpl. now rewrite !Z.eqb_refl. Qed.

Lemma first_insert_desc w l :
  first (DataEntry.insert_desc w l) =
  match first l with
  | None => Some w
  | Some h => if Week.week_number h <=? Week.week_number w then Some w else Some h
  end.
Proof.
  destruct l as [|x l']; simpl; [reflexivity|].
  destruct (Week.week_number x <=? Week.week_number w); reflexivity.
Qed.

Lemma In_insert_desc w l x :
  In x (DataEntry.insert_desc w l) <-> x = w \/ In x l.
Proof.
  induction l as [|y l' IH]; simpl.
  - intuition congruence.
  - destruct (Week.week_number y <=? Week.week_number w); simpl; rewrite ?IH;
      intuition congruence.
Qed.

Lemma In_order_by_desc l x :
  In x (DataEntry.order_by_week_number_desc l) <-> In x l.
Proof.
  induction l as [|w l' IH]; simpl; [tauto|].
  rewrite In_insert_desc, IH. intuition congruence.
Qed.

(** The first row of the descending order carries the largest week number. *)
Lemma first_order_by_desc l :
  match first (DataEntry.order_by_week_number_desc l) with
  | Some m => In m l /\ forall w, In w l -> Week.week_number w <= Week.week_number m
  | None => l = []
  end.
Proof.
  induction l as [|w l' IH]; simpl; [reflexivity|].
  rewrite first_insert_desc.
  destruct (first (DataEntry.order_by_week_number_desc l')) as [h|].
  - destruct IH as [Hin IH].
    destruct (Z.leb_spec (Week.week_number h) (Week.week_number w)).
    + split; [now left|]. intros x [<-|Hx]; [lia|]. specialize (IH x Hx). lia.
    + split; [now right|]. intros x [<-|Hx]; [lia|now apply IH].
  - subst l'. split; [now left|]. intros x [<-|[]]. lia.
Qed.

Lemma get_or_create_week_again st user_id d :
  DataEntry.get_or_create_week (snd (DataEntry.get_or_create_week st user_id d)) user_id d
  = DataEntry.get_or_create_week st user_id d.
Proof.
  unfold DataEntry.get_or_create_week at 2 3.
  destruct (first (filter _ (weeks st))) as [wk|] eqn:Hf; simpl.
  - unfold DataEntry.get_or_create_week. now rewrite Hf.
  - unfold DataEntry.get_or_create_week; simpl.
    rewrite filter_app; simpl. rewrite week_at_refl.
    destruct (filter _ (weeks st)); [reflexivity|discriminate].
Qed.

Lemma count_weeks_at_resolved st user_id d :
  count_weeks_at (snd (DataEntry.get_or_create_week st user_id d)) user_id
                 (DataEntry.monday_start d)
  = Nat.max 1 (count_weeks_at st user_id (DataEntry.monday_start d)).
Proof.
  unfold count_weeks_at, DataEntry.get_or_create_week.
  destruct (filter _ (weeks st)) as [|wk l] eqn:Hf; simpl.
  - rewrite filter_app, Hf; simpl. now rewrite week_at_refl.
  - rewrite Hf. reflexivity.
Qed.

(** C2, as it holds: a Week created by week resolution gets [week_number] 1
    when the user has no Week, and otherwise one more than the largest
    [week_number] among the user's Weeks, whatever their start dates; a Week
    created by the CSV import gets the [week_number] of its CSV row. *)
Theorem week_numbering st user_id d :
  filter (DataEntry.week_at user_id (DataEntry.monday_start d)) (weeks st) = [] ->
  let mine := filter (DataEntry.week_of_user user_id) (weeks st) in
  let wk := fst (DataEntry.get_or_create_week st user_id d) in
  weeks (snd (DataEntry.get_or_create_week st user_id d)) = (weeks st ++ [wk])%list
  /\ Week.user_id wk = user_id
  /\ Week.start_date wk = DataEntry.monday_start d
  /\ (mine = [] -> Week.week_number wk = 1)
  /\ (mine <> [] ->
      (exists m, In m mine /\ Week.week_number wk = Week.week_number m + 1)
      /\ forall w, In w mine -> Week.week_number w < Week.week_number wk)
  /\ (forall row,
        filter (DataEntry.week_at user_id (ImportExport.c_start_date row)) (weeks st) = [] ->
        let '(wk', st', _) := ImportExport.import_week st user_id row in
        weeks st' = (weeks st ++ [wk'])%list
        /\ Week.week_number wk' = ImportExport.c_week_number row).
Proof.
  intros Hnone mine wk. subst wk. unfold DataEntry.get_or_create_week.
  rewrite Hnone; simpl. fold mine.
  pose proof (first_order_by_desc mine) as Hmax.
  repeat split.
  - intros ->. reflexivity.
  - destruct (first (DataEntry.order_by_week_number_desc mine)) as [m|];
      [|contradiction].
    exists m. split; [apply Hmax|reflexivity].
  - intros w Hw.
    destruct (first (DataEntry.order_by_week_number_desc mine)) as [m|].
    + destruct Hmax as [_ Hmax]. specialize (Hmax w Hw). lia.
    + subst mine. rewrite Hmax in Hw. destruct Hw.
  - intros row Hrow. unfold ImportExport.import_week. rewrite Hrow; simpl.
    split; reflexivity.
Qed.

Lemma week_numbering_witness :
  let st := snd (DataEntry.get_or_create_week fresh_store 1 (monday_2025_01_06 + 7)) in
  let mine := filter (DataEntry.week_of_user 1) (weeks st) in
  let wk := fst (DataEntry.get_or_create_week st 1 monday_2025_01_06) in
  weeks (snd (DataEntry.get_or_create_week st 1 monday_2025_01_06)) = (weeks st ++ [wk])%list
  /\ Week.user_id wk = 1
  /\ Week.start_date wk = DataEntry.monday_start monday_2025_01_06
  /\ (mine = [] -> Week.week_number wk = 1)
  /\ (mine <> [] ->
      (exists m, In m mine /\ Week.week_number wk = Week.week_number m + 1)
      /\ forall w, In w mine -> Week.week_number w < Week.week_number wk)
  /\ (forall row,
        filter (DataEntry.week_at 1 (ImportExport.c_start_date row)) (weeks st) = [] ->
        let '(wk', st', _) := ImportExport.import_week st 1 row in
        weeks st' = (weeks st ++ [wk'])%list
        /\ Week.week_number wk' = ImportExport.c_week_number row).
Proof.
  apply (week_numbering
           (snd (DataEntry.get_or_create_week fresh_store 1 (monday_2025_01_06 + 7)))
           1 monday_2025_01_06).
  reflexivity.
Defined.

(** C2 as stated fails on the CSV import: the user has no Week, and the Week
    the import creates for a row whose [week_number] is 5 is numbered 5. *)
Lemma csv_import_week_number_counterexample :
  filter (DataEntry.week_of_user 1) (weeks fresh_store) = []
  /\ exists wk,
      weeks (fst (ImportExport.import_csv fresh_store
                    [csv_row 5 monday_2025_01_06 monday_2025_01_06 (Some 88.9%float)
                             (Some 12319)]))
      = [wk]
      /\ Week.week_number wk = 5
      /\ Week.week_number wk <> 1.
Proof.
  split; [reflexivity|].
  eexists. split; [reflexivity|]. split; [reflexivity|]. discriminate.
Qed.

(** C8, as it holds: resolving the week of a date twice in succession
    returns the same Week both times and the second resolution leaves the
    store as the first left it; the user then has as many Week rows at that
    Monday as before, or one when there was none: exactly one whenever there
    was at most one. *)
Theorem week_resolution_idempotent st user_id d :
  let r1 := DataEntry.get_or_create_week st user_id d in
  let r2 := DataEntry.get_or_create_week (snd r1) user_id d in
  Week.id (fst r2) = Week.id (fst r1)
  /\ snd r2 = snd r1
  /\ count_weeks_at (snd r2) user_id (DataEntry.monday_start d)
     = Nat.max 1 (count_weeks_at st user_id (DataEntry.monday_start d)).
Proof.
  intros r1 r2. subst r1 r2. rewrite get_or_create_week_again.
  repeat split. apply count_weeks_at_resolved.
Qed.

(** C8 as stated fails on a store the screens can produce: after the weekly
    grid was saved with two Weeks on one Monday, resolving that Monday twice
    leaves two Week rows for it, not one. *)
Lemma week_resolution_two_rows_counterexample :
  let st := two_weeks_same_monday in
  let r1 := DataEntry.get_or_create_week st 1 monday_2025_01_06 in
  let r2 := DataEntry.get_or_create_week (snd r1) 1 monday_2025_01_06 in
  Week.id (fst r2) = Week.id (fst r1)
  /\ count_weeks_at (snd r2) 1 (DataEntry.monday_start monday_2025_01_06) = 2%nat
  /\ count_weeks_at (snd r2) 1 (DataEntry.monday_start monday_2025_01_06) <> 1%nat.
Proof. repeat split. discriminate. Qed.

(** ** Bulk deletion *)

Lemma mem_In x ids : mem x ids = true <-> In x ids.
Proof.
  unfold mem. rewrite existsb_exists. split.
  - intros (y & Hy & Heq). apply Z.eqb_eq in Heq. now subst.
  - intros H. exists x. split; [assumption|apply Z.eqb_refl].
Qed.

Lemma In_insert_set x y l : In x (Py.insert_set y l) <-> x = y \/ In x l.
Proof.
  induction l as [|z l' IH]; simpl; [intuition congruence|].
  destruct (Z.ltb_spec y z); simpl; [intuition congruence|].
  destruct (Z.eqb_spec y z); simpl; rewrite ?IH; subst; intuition congruence.
Qed.

Lemma In_sorted_set x l : In x (Py.sorted_set l) <-> In x l.
Proof.
  induction l as [|y l' IH]; simpl; [tauto|].
  rewrite In_insert_set, IH. intuition congruence.
Qed.

Lemma In_week_ids_of wid q :
  In wid (ImportExport.week_ids_of q)
  <-> exists dm, In dm q /\ DailyMetric.week_id dm = Some wid.
Proof.
  unfold ImportExport.week_ids_of. rewrite in_flat_map. split.
  - intros (dm & Hin & Hw). exists dm. split; [assumption|].
    destruct (DailyMetric.week_id dm); simpl in Hw; [|contradiction].
    destruct Hw as [->|[]]. reflexivity.
  - intros (dm & Hin & Hw). exists dm. split; [assumption|]. rewrite Hw. now left.
Qed.

Lemma in_range_spec d_from d_to dm :
  ImportExport.in_range d_from d_to dm = true
  <-> d_from <= DailyMetric.date dm <= d_to.
Proof. unfold ImportExport.in_range. rewrite andb_true_iff, !Z.leb_le. tauto. Qed.

Lemma In_touched_week_ids st d_from d_to wid :
  In wid (ImportExport.touched_week_ids st d_from d_to)
  <-> exists dm, In dm (dailies st)
                 /\ d_from <= DailyMetric.date dm <= d_to
                 /\ DailyMetric.week_id dm = Some wid.
Proof.
  unfold ImportExport.touched_week_ids. rewrite In_sorted_set, In_week_ids_of.
  split; intros (dm & H1 & H2); exists dm.
  - apply filter_In in H1. rewrite in_range_spec in H1. tauto.
  - rewrite filter_In, in_range_spec. tauto.
Qed.

Lemma has_week_id_spec wid dm :
  ImportExport.has_week_id wid dm = true <-> DailyMetric.week_id dm = Some wid.
Proof.
  unfold ImportExport.has_week_id. destruct (DailyMetric.week_id dm) as [w|].
  - rewrite Z.eqb_eq. split; congruence.
  - split; discriminate.
Qed.

Lemma In_empty_weeks st touched wid :
  In wid (ImportExport.empty_weeks st touched)
  <-> In wid touched
      /\ forall dm, In dm (dailies st) -> DailyMetric.week_id dm <> Some wid.
Proof.
  unfold ImportExport.empty_weeks. rewrite filter_In, Nat.eqb_eq, length_zero_iff_nil.
  split; intros [Ht He]; (split; [assumption|]).
  - intros dm Hin Hw.
    assert (H : In dm (filter (ImportExport.has_week_id wid) (dailies st))).
    { rewrite filter_In, has_week_id_spec. tauto. }
    rewrite He in H. destruct H.
  - destruct (filter _ (dailies st)) as [|dm l] eqn:Hf; [reflexivity|].
    assert (H : In dm (filter (ImportExport.has_week_id wid) (dailies st))).
    { rewrite Hf. now left. }
    rewrite filter_In, has_week_id_spec in H. destruct H as [Hin Hw].
    now destruct (He dm Hin).
Qed.

Lemma nonempty_In {A} (x : A) l : In x l -> ImportExport.nonempty l = true.
Proof. destruct l; [intros []|reflexivity]. Qed.

Lemma filter_filter_keep {A} (p q : A -> bool) l :
  (forall x, In x l -> p x = true -> q x = true) ->
  filter p (filter q l) = filter p l.
Proof.
  induction l as [|x l' IH]; intros H; simpl; [reflexivity|].
  destruct (q x) eqn:Hq; simpl.
  - destruct (p x); rewrite IH; auto using in_cons.
  - destruct (p x) eqn:Hp.
    + rewrite (H x (or_introl eq_refl) Hp) in Hq. discriminate.
    + apply IH. auto using in_cons.
Qed.

Lemma filter_all {A} (p : A -> bool) l :
  (forall x, In x l -> p x = true) -> filter p l = l.
Proof.
  induction l as [|x l' IH]; intros H; simpl; [reflexivity|].
  rewrite (H x (or_introl eq_refl)), IH; auto using in_cons.
Qed.

Lemma not_mem_keep x ids (y : Z) :
  ~ In x ids -> (y =? x) = true -> negb (mem y ids) = true.
Proof.
  intros Hn Hy. apply Z.eqb_eq in Hy. subst y.
  destruct (mem x ids) eqn:Hm; [|reflexivity]. apply mem_In in Hm. contradiction.
Qed.

Lemma mem_drop x ids (y : Z) :
  In x ids -> negb (mem y ids) = true -> y <> x.
Proof.
  intros Hin Hn ->. apply mem_In in Hin. rewrite Hin in Hn. discriminate.
Qed.

Lemma str_ne_DELETE : Py.str_ne "DELETE" "DELETE" = false.
Proof. reflexivity. Qed.

Lemma delete_by_date_confirmed st d_from d_to also_delete_weekly delete_empty_weeks :
  fst (ImportExport.delete_by_date st d_from d_to also_delete_weekly delete_empty_weeks
                                   "DELETE")
  = let st1 := after_dailies st d_from d_to in
    let empty := detected_empty st d_from d_to in
    if also_delete_weekly && ImportExport.nonempty empty then
      if delete_empty_weeks
      then ImportExport.delete_weeks (ImportExport.delete_weekly st1 empty) empty
      else ImportExport.delete_weekly st1 empty
    else st1.
Proof.
  unfold ImportExport.delete_by_date. rewrite str_ne_DELETE.
  fold (after_dailies st d_from d_to). cbv zeta. unfold detected_empty.
  destruct also_delete_weekly; simpl; [|reflexivity].
  destruct (ImportExport.touched_week_ids st d_from d_to) as [|t l]; reflexivity.
Qed.

(** C4: in a confirmed deletion by date range, a week that has DailyMetric
    rows, all of them dated inside [d_from, d_to], is found fully empty once
    the dailies are deleted; with "also remove weekly check-ins" its
    Measurement, Wellbeing and Adherence rows are removed, and with "delete
    empty weeks" in addition its Week row.  A week that keeps a DailyMetric
    dated outside the range is not found empty and keeps its weekly rows and
    its Week row. *)
Theorem empty_week_cascade st d_from d_to also_delete_weekly delete_empty_weeks wid :
  let st' := fst (ImportExport.delete_by_date st d_from d_to also_delete_weekly
                                              delete_empty_weeks "DELETE") in
  ((exists dm, In dm (dailies st) /\ DailyMetric.week_id dm = Some wid) ->
   (forall dm, In dm (dailies st) -> DailyMetric.week_id dm = Some wid ->
               d_from <= DailyMetric.date dm <= d_to) ->
   In wid (detected_empty st d_from d_to)
   /\ (also_delete_weekly = true ->
       (forall m, In m (measurements st') -> Measurement.week_id m <> wid)
       /\ (forall m, In m (wellbeings st') -> Wellbeing.week_id m <> wid)
       /\ (forall m, In m (adherences st') -> Adherence.week_id m <> wid)
       /\ (delete_empty_weeks = true ->
           forall w, In w (weeks st') -> Week.id w <> wid)))
  /\
  ((exists dm, In dm (dailies st) /\ DailyMetric.week_id dm = Some wid
               /\ (DailyMetric.date dm < d_from \/ d_to < DailyMetric.date dm)) ->
   ~ In wid (detected_empty st d_from d_to)
   /\ filter (fun m => Measurement.week_id m =? wid) (measurements st')
      = filter (fun m => Measurement.week_id m =? wid) (measurements st)
   /\ filter (fun m => Wellbeing.week_id m =? wid) (wellbeings st')
      = filter (fun m => Wellbeing.week_id m =? wid) (wellbeings st)
   /\ filter (fun m => Adherence.week_id m =? wid) (adherences st')
      = filter (fun m => Adherence.week_id m =? wid) (adherences st)
   /\ filter (fun w => Week.id w =? wid) (weeks st')
      = filter (fun w => Week.id w =? wid) (weeks st)).
Proof.
  intros st'. subst st'. rewrite delete_by_date_confirmed. cbv zeta. split.
  - intros (dm0 & Hin0 & Hw0) Hall.
    assert (Hdet : In wid (detected_empty st d_from d_to)).
    { unfold detected_empty. rewrite In_empty_weeks, In_touched_week_ids. split.
      - exists dm0. auto.
      - intros dm Hin Hw. unfold after_dailies in Hin; simpl in Hin.
        apply filter_In in Hin. destruct Hin as [Hin Hout].
        apply negb_true_iff in Hout.
        assert (ImportExport.in_range d_from d_to dm = true)
          by (apply in_range_spec; auto).
        congruence. }
    split; [exact Hdet|]. intros ->.
    rewrite (nonempty_In _ _ Hdet). simpl.
    destruct delete_empty_weeks; simpl; repeat split; try discriminate; intros;
      match goal with
      | H : In _ (filter _ _) |- _ =>
          apply filter_In in H; destruct H as [_ H]; exact (mem_drop _ _ _ Hdet H)
      end.
  - intros (dm0 & Hin0 & Hw0 & Hout0).
    assert (Hdet : ~ In wid (detected_empty st d_from d_to)).
    { unfold detected_empty. rewrite In_empty_weeks. intros [_ He].
      apply (He dm0); [|exact Hw0].
      unfold after_dailies; simpl. apply filter_In. split; [exact Hin0|].
      apply negb_true_iff.
      destruct (ImportExport.in_range d_from d_to dm0) eqn:Hr; [|reflexivity].
      apply in_range_spec in Hr. lia. }
    split; [exact Hdet|].
    destruct (also_delete_weekly && ImportExport.nonempty (detected_empty st d_from d_to));
      [|repeat split].
    destruct delete_empty_weeks; simpl; repeat split;
      try reflexivity;
      apply filter_filter_keep; intros x _ Hx; exact (not_mem_keep _ _ _ Hdet Hx).
Qed.

Lemma empty_week_cascade_witness :
  let st' := fst (ImportExport.delete_by_date two_weeks_store monday_2025_01_06
                    (monday_2025_01_06 + 7) true true "DELETE") in
  (In 1 (detected_empty two_weeks_store monday_2025_01_06 (monday_2025_01_06 + 7))
   /\ (true = true ->
       (forall m, In m (measurements st') -> Measurement.week_id m <> 1)
       /\ (forall m, In m (wellbeings st') -> Wellbeing.week_id m <> 1)
       /\ (forall m, In m (adherences st') -> Adherence.week_id m <> 1)
       /\ (true = true -> forall w, In w (weeks st') -> Week.id w <> 1)))
  /\ (~ In 2 (detected_empty two_weeks_store monday_2025_01_06 (monday_2025_01_06 + 7))
      /\ filter (fun m => Measurement.week_id m =? 2) (measurements st')
         = filter (fun m => Measurement.week_id m =? 2) (measurements two_weeks_store)
      /\ filter (fun m => Wellbeing.week_id m =? 2) (wellbeings st')
         = filter (fun m => Wellbeing.week_id m =? 2) (wellbeings two_weeks_store)
      /\ filter (fun m => Adherence.week_id m =? 2) (adherences st')
         = filter (fun m => Adherence.week_id m =? 2) (adherences two_weeks_store)
      /\ filter (fun w => Week.id w =? 2) (weeks st')
         = filter (fun w => Week.id w =? 2) (weeks two_weeks_store)).
Proof.
  split.
  - apply (proj1 (empty_week_cascade two_weeks_store monday_2025_01_06
                    (monday_2025_01_06 + 7) true true 1)).
    + eexists. split; [left; reflexivity|reflexivity].
    + intros dm [<-|[<-|[<-|[<-|[]]]]]; simpl; intros H;
        try discriminate H; unfold monday_2025_01_06; lia.
  - apply (proj2 (empty_week_cascade two_weeks_store monday_2025_01_06
                    (monday_2025_01_06 + 7) true true 2)).
    eexists. split; [right; right; right; left; reflexivity|].
    split; [reflexivity|]. right. simpl. unfold monday_2025_01_06. lia.
Defined.

Lemma deletion_needs_confirmation_witness :
  (forall d_from d_to also_delete_weekly delete_empty_weeks,
      ImportExport.delete_by_date two_weeks_store d_from d_to also_delete_weekly
                                  delete_empty_weeks "delete"
      = (two_weeks_store, ImportExport.error "Please type DELETE to confirm."))
  /\ (forall wk_from wk_to also_delete_weekly2 delete_weeks2,
      ImportExport.delete_by_week two_weeks_store wk_from wk_to also_delete_weekly2
                                  delete_weeks2 "delete"
      = (two_weeks_store, ImportExport.error "Please type DELETE to confirm.")).
Proof. apply (deletion_needs_confirmation two_weeks_store "delete"). discriminate. Defined.

Lemma dailies_week_in_spec ids dm :
  ImportExport.dailies_week_in ids dm = true
  <-> exists w, DailyMetric.week_id dm = Some w /\ In w ids.
Proof.
  unfold ImportExport.dailies_week_in. destruct (DailyMetric.week_id dm) as [w|].
  - rewrite mem_In. split.
    + intros H. exists w. auto.
    + intros (w' & Hw & Hin). congruence.
  - split; [discriminate|]. intros (w & Hw & _). discriminate.
Qed.

Lemma delete_by_week_confirmed st wk_from wk_to also_delete_weekly2 delete_weeks2 :
  fst (ImportExport.delete_by_week st wk_from wk_to also_delete_weekly2 delete_weeks2
                                   "DELETE")
  = let wids := map Week.id (filter (ImportExport.week_in_range wk_from wk_to) (weeks st)) in
    let st1 := set_dailies st
                 (filter (fun dm => negb (ImportExport.dailies_week_in wids dm))
                         (dailies st)) in
    let st2 := if also_delete_weekly2 then ImportExport.delete_weekly st1 wids else st1 in
    if delete_weeks2 then ImportExport.delete_weeks st2 wids else st2.
Proof.
  unfold ImportExport.delete_by_week. rewrite str_ne_DELETE. cbv zeta.
  destruct (map Week.id (filter _ (weeks st))) as [|w l] eqn:Hw; [|reflexivity].
  simpl ImportExport.nonempty. cbv iota. simpl fst.
  unfold ImportExport.delete_weekly, ImportExport.delete_weeks.
  destruct st as [us ws ds ms wbs ads]; simpl.
  unfold set_dailies, set_measurements, set_wellbeings, set_adherences, set_weeks; simpl.
  rewrite !(filter_all (fun _ => true)) by reflexivity.
  destruct also_delete_weekly2, delete_weeks2; simpl;
    rewrite ?(filter_all (fun _ => true)) by reflexivity;
    f_equal; symmetry; apply filter_all; intros dm _;
    unfold ImportExport.dailies_week_in; destruct (DailyMetric.week_id dm); reflexivity.
Qed.

(** C10: a confirmed deletion by date range removes every DailyMetric dated
    in [d_from, d_to], whichever user it belongs to, and keeps the others; a
    confirmed deletion by week numbers takes the Week rows of every user whose
    [week_number] is in range, and removes every DailyMetric linked to one of
    them, with the options also their weekly rows and the Week rows. *)
Theorem bulk_deletion_all_users st :
  (forall d_from d_to also_delete_weekly delete_empty_weeks,
      let st' := fst (ImportExport.delete_by_date st d_from d_to also_delete_weekly
                                                  delete_empty_weeks "DELETE") in
      forall dm,
        In dm (dailies st') <->
        In dm (dailies st)
        /\ ~ (d_from <= DailyMetric.date dm <= d_to))
  /\ (forall wk_from wk_to also_delete_weekly2 delete_weeks2,
      let st' := fst (ImportExport.delete_by_week st wk_from wk_to also_delete_weekly2
                                                  delete_weeks2 "DELETE") in
      forall user_id w,
        In w (weeks st) -> Week.user_id w = user_id ->
        wk_from <= Week.week_number w <= wk_to ->
        (forall dm, In dm (dailies st') -> DailyMetric.week_id dm <> Some (Week.id w))
        /\ (also_delete_weekly2 = true ->
            (forall m, In m (measurements st') -> Measurement.week_id m <> Week.id w)
            /\ (forall m, In m (wellbeings st') -> Wellbeing.week_id m <> Week.id w)
            /\ (forall m, In m (adherences st') -> Adherence.week_id m <> Week.id w))
        /\ (delete_weeks2 = true -> ~ In w (weeks st'))).
Proof.
  split.
  - intros d_from d_to a b st' dm. subst st'. rewrite delete_by_date_confirmed. cbv zeta.
    assert (H : dailies (if a && ImportExport.nonempty (detected_empty st d_from d_to)
                         then if b
                              then ImportExport.delete_weeks
                                     (ImportExport.delete_weekly (after_dailies st d_from d_to)
                                        (detected_empty st d_from d_to))
                                     (detected_empty st d_from d_to)
                              else ImportExport.delete_weekly (after_dailies st d_from d_to)
                                     (detected_empty st d_from d_to)
                         else after_dailies st d_from d_to)
                = dailies (after_dailies st d_from d_to)).
    { destruct (a && _); [destruct b|]; reflexivity. }
    rewrite H. unfold after_dailies; simpl.
    rewrite filter_In, negb_true_iff, <- not_true_iff_false, in_range_spec. tauto.
  - intros wk_from wk_to a b st' user_id w Hin _ Hr. subst st'.
    rewrite delete_by_week_confirmed. cbv zeta.
    set (wids := map Week.id (filter (ImportExport.week_in_range wk_from wk_to) (weeks st))).
    assert (Hw : In (Week.id w) wids).
    { unfold wids. apply in_map. apply filter_In. split; [exact Hin|].
      unfold ImportExport.week_in_range. rewrite andb_true_iff, !Z.leb_le. exact Hr. }
    split; [|split].
    + intros dm Hdm Hid.
      assert (Hd : In dm (filter (fun dm => negb (ImportExport.dailies_week_in wids dm))
                                 (dailies st))).
      { destruct a, b; exact Hdm. }
      apply filter_In in Hd. destruct Hd as [_ Hd]. apply negb_true_iff in Hd.
      assert (ImportExport.dailies_week_in wids dm = true).
      { apply dailies_week_in_spec. exists (Week.id w). auto. }
      congruence.
    + intros ->. destruct b; simpl; repeat split; intros m Hm;
        apply filter_In in Hm; destruct Hm as [_ Hm]; exact (mem_drop _ _ _ Hw Hm).
    + intros -> Hin'. destruct a; simpl in Hin';
        apply filter_In in Hin'; destruct Hin' as [_ Hm];
        exact (mem_drop _ _ _ Hw Hm eq_refl).
Qed.

Lemma bulk_deletion_all_users_witness :
  (dailies (fst (ImportExport.delete_by_date two_users_store monday_2025_01_06
                   (monday_2025_01_06 + 6) true true "DELETE")) = []
   /\ map DailyMetric.user_id (dailies two_users_store) = [1; 2])
  /\ ((forall dm,
         In dm (dailies (fst (ImportExport.delete_by_week two_users_store 1 1 true true
                                "DELETE"))) ->
         DailyMetric.week_id dm <> Some 2)
      /\ (true = true ->
          (forall m, In m (measurements (fst (ImportExport.delete_by_week two_users_store
                                                1 1 true true "DELETE"))) ->
                     Measurement.week_id m <> 2)
          /\ (forall m, In m (wellbeings (fst (ImportExport.delete_by_week two_users_store
                                                 1 1 true true "DELETE"))) ->
                        Wellbeing.week_id m <> 2)
          /\ (forall m, In m (adherences (fst (ImportExport.delete_by_week two_users_store
                                                 1 1 true true "DELETE"))) ->
                        Adherence.week_id m <> 2))
      /\ (true = true ->
          ~ In (Week.mk 2 2 1 monday_2025_01_06)
               (weeks (fst (ImportExport.delete_by_week two_users_store 1 1 true true
                              "DELETE"))))).
Proof.
  split; [split; reflexivity|].
  apply (proj2 (bulk_deletion_all_users two_users_store) 1 1 true true 2
               (Week.mk 2 2 1 monday_2025_01_06)).
  - right; left; reflexivity.
  - reflexivity.
  - simpl. lia.
Defined.

(** ** The weekly frame *)

Lemma in_cols_In c cols : Utils.in_cols c cols = true <-> In c cols.
Proof.
  unfold Utils.in_cols. rewrite existsb_exists. split.
  - intros (x & Hx & Heq). apply String.eqb_eq in Heq. now subst.
  - intros H. exists c. split; [assumption|apply String.eqb_refl].
Qed.

Lemma in_cols_app c l l' :
  Utils.in_cols c (l ++ l') = Utils.in_cols c l || Utils.in_cols c l'.
Proof. apply existsb_app. Qed.

Lemma get_cons_eq c v r : Utils.get ((c, v) :: r) c = v.
Proof. simpl. now rewrite String.eqb_refl. Qed.

Lemma get_cons_ne c c' v r : c <> c' -> Utils.get ((c, v) :: r) c' = Utils.get r c'.
Proof. intros H. simpl. apply String.eqb_neq in H. now rewrite H. Qed.

Lemma length_column df c : List.length (Utils.column df c) = List.length (Utils.rows df).
Proof. apply length_map. Qed.

Lemma has_col_assign_scalar df c v c' :
  Utils.has_col (Utils.assign_scalar df c v) c'
  = Utils.has_col df c' || String.eqb c' c.
Proof.
  unfold Utils.assign_scalar, Utils.has_col; cbn [Utils.columns].
  destruct (Utils.in_cols c (Utils.columns df)) eqn:Hc.
  - destruct (String.eqb_spec c' c) as [->|_].
    + now rewrite Hc.
    + now rewrite orb_false_r.
  - rewrite in_cols_app. f_equal. unfold Utils.in_cols; simpl. apply orb_false_r.
Qed.

Lemma column_assign_scalar_ne df c v c' :
  c <> c' -> Utils.column (Utils.assign_scalar df c v) c' = Utils.column df c'.
Proof.
  intros H. unfold Utils.column, Utils.assign_scalar; simpl.
  rewrite map_map. apply map_ext. intros r. now apply get_cons_ne.
Qed.

Lemma has_col_assign df c vals c' :
  Utils.has_col (Utils.assign df c vals) c' = Utils.has_col df c' || String.eqb c' c.
Proof. apply (has_col_assign_scalar df c Utils.NA c'). Qed.

Lemma map_snd_combine {A B} (l : list A) : forall l' : list B,
  List.length l' = List.length l -> map snd (combine l l') = l'.
Proof.
  induction l as [|x l IH]; intros [|y l'] H; simpl in *; try discriminate;
    [reflexivity|]. f_equal. apply IH. lia.
Qed.

Lemma map_fst_combine {A B} (l : list A) : forall l' : list B,
  List.length l' = List.length l -> map fst (combine l l') = l.
Proof.
  induction l as [|x l IH]; intros [|y l'] H; simpl in *; try discriminate;
    [reflexivity|]. f_equal. apply IH. lia.
Qed.

Lemma column_assign_eq df c vals :
  List.length vals = List.length (Utils.rows df) ->
  Utils.column (Utils.assign df c vals) c = vals.
Proof.
  intros H. unfold Utils.column, Utils.assign; cbn [Utils.rows]. rewrite map_map.
  rewrite <- (map_snd_combine (Utils.rows df) vals H) at 2.
  apply map_ext. intros [r v]. apply get_cons_eq.
Qed.

Lemma column_assign_ne df c vals c' :
  c <> c' -> List.length vals = List.length (Utils.rows df) ->
  Utils.column (Utils.assign df c vals) c' = Utils.column df c'.
Proof.
  intros Hne H. unfold Utils.column, Utils.assign; cbn [Utils.rows]. rewrite map_map.
  rewrite <- (map_fst_combine (Utils.rows df) vals H) at 2. rewrite map_map.
  apply map_ext. intros [r v]. now apply get_cons_ne.
Qed.

(** *** [_ensure_weekly_cols] *)

Lemma ensure_empty_frame df :
  Utils.empty df = true ->
  Utils._ensure_weekly_cols df = Utils.mkDF Utils.REQUIRED_WEEKLY_COLS [].
Proof. intros H. unfold Utils._ensure_weekly_cols. rewrite H. reflexivity. Qed.

Lemma ensure_fold_has cs : forall df c,
  In c cs \/ Utils.has_col df c = true ->
  Utils.has_col
    (fold_left (fun df c => if negb (Utils.has_col df c)
                            then Utils.assign_scalar df c Utils.NA else df) cs df) c
  = true.
Proof.
  induction cs as [|c0 cs IH]; intros df c H; simpl.
  - destruct H as [[]|H]; exact H.
  - apply IH. destruct H as [[->|H]|H]; [right| now left |right].
    + destruct (Utils.has_col df c) eqn:Hc; simpl; [exact Hc|].
      rewrite has_col_assign_scalar, String.eqb_refl. apply orb_true_r.
    + destruct (Utils.has_col df c0); simpl; [exact H|].
      rewrite has_col_assign_scalar, H. reflexivity.
Qed.

Lemma ensure_fold_column cs : forall df c,
  Utils.has_col df c = true ->
  Utils.column
    (fold_left (fun df c => if negb (Utils.has_col df c)
                            then Utils.assign_scalar df c Utils.NA else df) cs df) c
  = Utils.column df c.
Proof.
  induction cs as [|c0 cs IH]; intros df c H; simpl; [reflexivity|].
  destruct (Utils.has_col df c0) eqn:Hc0; simpl.
  - now apply IH.
  - rewrite IH.
    + apply column_assign_scalar_ne. intros ->. congruence.
    + rewrite has_col_assign_scalar, H. reflexivity.
Qed.

Lemma ensure_nonempty_frame df :
  Utils.empty df = false ->
  Utils._ensure_weekly_cols df
  = fold_left (fun df c => if negb (Utils.has_col df c)
                           then Utils.assign_scalar df c Utils.NA else df)
              Utils.REQUIRED_WEEKLY_COLS df.
Proof. intros H. unfold Utils._ensure_weekly_cols. rewrite H. reflexivity. Qed.

Lemma has_col_In df c : Utils.has_col df c = true <-> In c (Utils.columns df).
Proof. unfold Utils.has_col. apply in_cols_In. Qed.

Lemma ensure_has_required df c :
  In c Utils.REQUIRED_WEEKLY_COLS ->
  In c (Utils.columns (Utils._ensure_weekly_cols df)).
Proof.
  intros H. destruct (Utils.empty df) eqn:He.
  - rewrite (ensure_empty_frame _ He). exact H.
  - rewrite (ensure_nonempty_frame _ He). apply has_col_In.
    exact (ensure_fold_has Utils.REQUIRED_WEEKLY_COLS df c (or_introl H)).
Qed.

Lemma empty_has_col_rows df c :
  Utils.empty df = true -> Utils.has_col df c = true -> Utils.rows df = [].
Proof.
  unfold Utils.empty, Utils.has_col. destruct (Utils.columns df); [discriminate|].
  destruct (Utils.rows df); [reflexivity|discriminate].
Qed.

Lemma ensure_column df c :
  Utils.has_col df c = true ->
  Utils.column (Utils._ensure_weekly_cols df) c = Utils.column df c.
Proof.
  intros H. destruct (Utils.empty df) eqn:He.
  - rewrite (ensure_empty_frame _ He). unfold Utils.column.
    rewrite (empty_has_col_rows _ _ He H). reflexivity.
  - unfold Utils._ensure_weekly_cols. rewrite He. now apply ensure_fold_column.
Qed.

(** *** Labels kept along the pipeline of [load_weekly_df] *)

Lemma has_col_merge_left l r left_on right_on c :
  Utils.has_col l c = true ->
  Utils.has_col (Utils.merge_left l r left_on right_on) c = true.
Proof.
  intros H. unfold Utils.has_col, Utils.merge_left; cbn [Utils.columns].
  rewrite in_cols_app. unfold Utils.has_col in H. now rewrite H.
Qed.

Lemma has_col_merge_weekly out frame c :
  Utils.has_col out c = true -> Utils.has_col (Utils.merge_weekly out frame) c = true.
Proof.
  intros H. unfold Utils.merge_weekly.
  destruct (negb (Utils.empty frame)); [now apply has_col_merge_left|exact H].
Qed.

(** *** The order of the rows *)

Lemma key_leb_total a b : Utils.key_leb a b = false -> Utils.key_leb b a = true.
Proof.
  destruct a as [x|], b as [y|]; simpl; try discriminate; try reflexivity.
  rewrite Z.leb_gt, Z.leb_le. lia.
Qed.

Lemma HdRel_insert_by c x r l :
  week_number_order (Utils.get x c) (Utils.get r c) ->
  HdRel week_number_order (Utils.get x c) (map (fun r => Utils.get r c) l) ->
  HdRel week_number_order (Utils.get x c)
        (map (fun r => Utils.get r c) (Utils.insert_by c r l)).
Proof.
  intros Hr Hl. destruct l as [|y l']; simpl.
  - constructor. exact Hr.
  - destruct (Utils.key_leb _ _); simpl; constructor; [exact Hr|].
    now inversion Hl.
Qed.

Lemma Sorted_insert_by c r l :
  Sorted week_number_order (map (fun r => Utils.get r c) l) ->
  Sorted week_number_order (map (fun r => Utils.get r c) (Utils.insert_by c r l)).
Proof.
  induction l as [|x l' IH]; simpl; intros H.
  - repeat constructor.
  - destruct (Utils.key_leb (Utils.key_of (Utils.get r c))
                            (Utils.key_of (Utils.get x c))) eqn:Hk; simpl.
    + constructor; [exact H|]. constructor. exact Hk.
    + inversion H as [|? ? Hs Hh]; subst. constructor; [now apply IH|].
      apply HdRel_insert_by; [|exact Hh]. now apply key_leb_total.
Qed.

Lemma Sorted_sort_values df c :
  Sorted week_number_order (Utils.column (Utils.sort_values df c) c).
Proof.
  unfold Utils.column, Utils.sort_values; cbn [Utils.rows].
  induction (Utils.rows df) as [|r l IH]; simpl; [constructor|].
  now apply Sorted_insert_by.
Qed.

(** *** [diff] *)

Lemma length_diff_from l : forall prev,
  List.length (Utils.diff_from prev l) = List.length l.
Proof. induction l as [|c l IH]; intros prev; simpl; [reflexivity|]. now rewrite IH. Qed.

Lemma length_diff l : List.length (Utils.diff l) = List.length l.
Proof. destruct l; simpl; [reflexivity|]. now rewrite length_diff_from. Qed.

Lemma nth_error_diff_from l : forall prev i a b,
  nth_error (prev :: l) i = Some a ->
  nth_error (prev :: l) (S i) = Some b ->
  nth_error (Utils.diff_from prev l) i = Some (Utils.Float (Utils.num b - Utils.num a)%float).
Proof.
  induction l as [|c l IH]; intros prev i a b Ha Hb.
  - destruct i; discriminate.
  - destruct i as [|i]; simpl in *.
    + congruence.
    + now apply IH.
Qed.

Lemma nth_error_diff l i a b :
  nth_error l i = Some a ->
  nth_error l (S i) = Some b ->
  nth_error (Utils.diff l) (S i) = Some (Utils.Float (Utils.num b - Utils.num a)%float).
Proof.
  destruct l as [|c l]; [destruct i; discriminate|].
  intros Ha Hb. simpl. now apply nth_error_diff_from.
Qed.

(** *** The end of the pipeline: order, [weekly_weight_loss], missing labels *)

Lemma finish_weekly out1 :
  Utils.has_col out1 "week_number" = true ->
  Utils.has_col out1 "avg_weight_kg" = true ->
  let out2 := Utils.sort_values out1 "week_number" in
  let out3 := Utils.assign out2 "weekly_weight_loss"
                           (Utils.diff (Utils.column out2 "avg_weight_kg")) in
  let out := Utils._ensure_weekly_cols out3 in
  Utils.column out "weekly_weight_loss" = Utils.diff (Utils.column out "avg_weight_kg")
  /\ Sorted week_number_order (Utils.column out "week_number").
Proof.
  intros Hn Ha out2 out3 out.
  assert (Hlen : List.length (Utils.diff (Utils.column out2 "avg_weight_kg"))
                 = List.length (Utils.rows out2))
    by (now rewrite length_diff, length_column).
  assert (H3 : forall c, Utils.has_col out1 c = true -> Utils.has_col out3 c = true).
  { intros c Hc. unfold out3. rewrite has_col_assign. unfold out2.
    change (Utils.has_col (Utils.sort_values out1 "week_number") c)
      with (Utils.has_col out1 c).
    now rewrite Hc. }
  unfold out. rewrite !ensure_column.
  - unfold out3.
    rewrite column_assign_eq by exact Hlen.
    rewrite !column_assign_ne by (discriminate || exact Hlen).
    split; [reflexivity|apply Sorted_sort_values].
  - now apply H3.
  - now apply H3.
  - unfold out3. rewrite has_col_assign. apply orb_true_r.
Qed.

Lemma load_weekly_df_no_dailies st user_id :
  filter (fun r => DailyMetric.user_id r =? user_id) (dailies st) = [] ->
  Utils.load_weekly_df st user_id = Utils.mkDF Utils.REQUIRED_WEEKLY_COLS [].
Proof.
  intros H. unfold Utils.load_weekly_df, Utils.load_daily_df. rewrite H. reflexivity.
Qed.

Lemma load_weekly_df_shape st user_id :
  Utils.load_weekly_df st user_id = Utils.mkDF Utils.REQUIRED_WEEKLY_COLS []
  \/ exists out1,
      Utils.has_col out1 "week_number" = true
      /\ Utils.has_col out1 "avg_weight_kg" = true
      /\ Utils.load_weekly_df st user_id
         = Utils._ensure_weekly_cols
             (Utils.assign (Utils.sort_values out1 "week_number") "weekly_weight_loss"
                (Utils.diff (Utils.column (Utils.sort_values out1 "week_number")
                                          "avg_weight_kg"))).
Proof.
  unfold Utils.load_weekly_df.
  destruct (Utils.empty (Utils.load_daily_df st user_id)); [left; reflexivity|].
  right.
  change (Utils.has_col (Utils.load_daily_df st user_id) "week_id") with true.
  cbv beta iota zeta. cbn [negb].
  match goal with
  | |- context [fold_left Utils.merge_weekly _ ?o] => set (out0 := o)
  end.
  assert (H0 : forall c, c = "week_number" \/ c = "avg_weight_kg" ->
                         Utils.has_col out0 c = true).
  { intros c [->| ->]; unfold out0;
      destruct (negb (Utils.empty _)); reflexivity. }
  set (out1 := fold_left Utils.merge_weekly _ out0).
  assert (H1 : forall c, c = "week_number" \/ c = "avg_weight_kg" ->
                         Utils.has_col out1 c = true).
  { intros c Hc. unfold out1. simpl fold_left.
    repeat apply has_col_merge_weekly. now apply H0. }
  exists out1. repeat split; try (apply H1; auto).
  rewrite (H1 "week_number") by auto. reflexivity.
Qed.

(** C6: whatever the store and the user, the frame of [load_weekly_df] has
    each of the seventeen weekly labels among its columns; for a user with no
    daily data the frame has no row and still has all of them. *)
Theorem weekly_frame_columns st user_id :
  (forall c,
      In c ["week_id"; "week_number"; "start_date"; "avg_weight_kg"; "avg_steps";
            "weekly_weight_loss"; "diet_score"; "workout_score"; "sleep_issues";
            "hunger_issues"; "stress_issues"; "waist_navel_in"; "chest_in";
            "r_biceps_in"; "l_biceps_in"; "r_thigh_in"; "l_thigh_in"] ->
      In c (Utils.columns (Utils.load_weekly_df st user_id)))
  /\ (Utils.rows (Utils.load_daily_df st user_id) = [] ->
      Utils.empty (Utils.load_weekly_df st user_id) = true
      /\ Utils.rows (Utils.load_weekly_df st user_id) = []
      /\ Utils.columns (Utils.load_weekly_df st user_id)
         = ["week_id"; "week_number"; "start_date"; "avg_weight_kg"; "avg_steps";
            "weekly_weight_loss"; "diet_score"; "workout_score"; "sleep_issues";
            "hunger_issues"; "stress_issues"; "waist_navel_in"; "chest_in";
            "r_biceps_in"; "l_biceps_in"; "r_thigh_in"; "l_thigh_in"]).
Proof.
  split.
  - intros c Hc. change (In c Utils.REQUIRED_WEEKLY_COLS) in Hc.
    destruct (load_weekly_df_shape st user_id) as [-> | (out1 & _ & _ & ->)].
    + exact Hc.
    + now apply ensure_has_required.
  - intros H. rewrite load_weekly_df_no_dailies; [repeat split|].
    unfold Utils.load_daily_df in H; cbn [Utils.rows] in H.
    now apply map_eq_nil in H.
Qed.

Lemma weekly_frame_columns_witness :
  Utils.empty (Utils.load_weekly_df fresh_store 1) = true
  /\ Utils.rows (Utils.load_weekly_df fresh_store 1) = []
  /\ Utils.columns (Utils.load_weekly_df fresh_store 1)
     = ["week_id"; "week_number"; "start_date"; "avg_weight_kg"; "avg_steps";
        "weekly_weight_loss"; "diet_score"; "workout_score"; "sleep_issues";
        "hunger_issues"; "stress_issues"; "waist_navel_in"; "chest_in";
        "r_biceps_in"; "l_biceps_in"; "r_thigh_in"; "l_thigh_in"].
Proof. apply (proj2 (weekly_frame_columns fresh_store 1)). reflexivity. Defined.

(** C9: in the frame of [load_weekly_df] the rows are in week-number order
    (missing numbers last); [weekly_weight_loss] is NaN, that is absent, in
    the first row and in every later row the row's [avg_weight_kg] minus the
    [avg_weight_kg] of the row before; and three consecutive weeks whose
    averages are 90.0, 88.5 and 88.5 get absent, -1.5 and 0.0. *)
Theorem weekly_weight_loss_diff st user_id :
  let out := Utils.load_weekly_df st user_id in
  let avg := Utils.column out "avg_weight_kg" in
  let loss := Utils.column out "weekly_weight_loss" in
  Sorted week_number_order (Utils.column out "week_number")
  /\ List.length loss = List.length avg
  /\ nth_error loss 0 = match avg with [] => None | _ => Some (Utils.Float nan) end
  /\ (forall i a b,
        nth_error avg i = Some a -> nth_error avg (S i) = Some b ->
        nth_error loss (S i) = Some (Utils.Float (Utils.num b - Utils.num a)%float))
  /\ Utils.diff [Utils.Float 90; Utils.Float 88.5; Utils.Float 88.5]
     = [Utils.Float nan; Utils.Float (-1.5); Utils.Float 0]
  /\ Utils.column (Utils.load_weekly_df three_weeks_store 1) "week_number"
     = [Utils.Int 1; Utils.Int 2; Utils.Int 3]
  /\ Utils.column (Utils.load_weekly_df three_weeks_store 1) "avg_weight_kg"
     = [Utils.Float 90; Utils.Float 88.5; Utils.Float 88.5]
  /\ Utils.column (Utils.load_weekly_df three_weeks_store 1) "weekly_weight_loss"
     = [Utils.Float nan; Utils.Float (-1.5); Utils.Float 0].
Proof.
  intros out avg loss.
  assert (H : loss = Utils.diff avg
              /\ Sorted week_number_order (Utils.column out "week_number")).
  { unfold loss, avg, out.
    destruct (load_weekly_df_shape st user_id) as [-> | (out1 & Hn & Ha & ->)].
    - split; [reflexivity|constructor].
    - now apply finish_weekly. }
  destruct H as [Hl Hs]. rewrite Hl.
  split; [exact Hs|]. split; [apply length_diff|].
  split; [destruct avg; reflexivity|].
  split; [intros i a b; apply nth_error_diff|].
  repeat split; vm_compute; reflexivity.
Qed.

(** * Further properties of the screens *)

(** ** Week starts *)

Lemma monday_start_is_monday_aux d :
  DataEntry.weekday (DataEntry.monday_start d) = 0
  /\ DataEntry.monday_start d <= d <= DataEntry.monday_start d + 6
  /\ (forall d', DataEntry.monday_start d <= d' <= DataEntry.monday_start d + 6 ->
                 DataEntry.monday_start d' = DataEntry.monday_start d)
  /\ (1 <= d -> 1 <= DataEntry.monday_start d).
Proof.
  unfold DataEntry.monday_start, DataEntry.weekday.
  split; [|split; [|split]].
  - Z.div_mod_to_equations. lia.
  - Z.div_mod_to_equations. lia.
  - intros d' H. Z.div_mod_to_equations. lia.
  - intros H. Z.div_mod_to_equations. lia.
Qed.

(** X1: the week start of a date is a Monday, at most six days before the
    date; every date from that Monday to the Sunday after it has the same week
    start; and the week start of a valid ordinal is a valid ordinal, so the
    subtraction of [monday_start] never leaves the range of dates. *)
Theorem monday_start_is_monday d :
  DataEntry.weekday (DataEntry.monday_start d) = 0
  /\ DataEntry.monday_start d <= d <= DataEntry.monday_start d + 6
  /\ (forall d', DataEntry.monday_start d <= d' <= DataEntry.monday_start d + 6 ->
                 DataEntry.monday_start d' = DataEntry.monday_start d)
  /\ (1 <= d -> 1 <= DataEntry.monday_start d).
Proof. exact (monday_start_is_monday_aux d). Qed.

Lemma monday_start_is_monday_witness :
  DataEntry.monday_start (monday_2025_01_06 + 3) = DataEntry.monday_start monday_2025_01_06
  /\ 1 <= DataEntry.monday_start monday_2025_01_06.
Proof.
  split.
  - apply (proj1 (proj2 (proj2 (monday_start_is_monday monday_2025_01_06)))).
    vm_compute. split; discriminate.
  - apply (proj2 (proj2 (proj2 (monday_start_is_monday monday_2025_01_06)))).
    vm_compute. discriminate.
Defined.

(** ** Week resolution keeps the Week table well formed *)

Lemma next_id_fresh ids x : In x ids -> x < next_id ids.
Proof.
  unfold next_id. induction ids as [|y ids IH]; cbn [fold_right In]; [intros []|].
  intros [->|H]; [lia|]. specialize (IH H). lia.
Qed.

Lemma first_In {A} (l : list A) x : first l = Some x -> In x l.
Proof. destruct l; simpl; [discriminate|]. intros [= ->]. now left. Qed.

Lemma week_at_spec user_id start w :
  DataEntry.week_at user_id start w = true
  <-> Week.user_id w = user_id /\ Week.start_date w = start.
Proof. unfold DataEntry.week_at. now rewrite andb_true_iff, !Z.eqb_eq. Qed.

(** The two outcomes of a resolution. *)
Lemma get_or_create_week_cases st user_id d :
  (exists wk,
      first (filter (DataEntry.week_at user_id (DataEntry.monday_start d)) (weeks st))
      = Some wk
      /\ DataEntry.get_or_create_week st user_id d = (wk, st))
  \/ (filter (DataEntry.week_at user_id (DataEntry.monday_start d)) (weeks st) = []
      /\ exists n,
          DataEntry.get_or_create_week st user_id d
          = (Week.mk (next_id (map Week.id (weeks st))) user_id n
                     (DataEntry.monday_start d),
             set_weeks st
               (weeks st ++ [Week.mk (next_id (map Week.id (weeks st))) user_id n
                                     (DataEntry.monday_start d)]))
          /\ forall w, In w (weeks st) -> Week.user_id w = user_id ->
                       Week.week_number w < n).
Proof.
  unfold DataEntry.get_or_create_week.
  destruct (filter _ (weeks st)) as [|wk l] eqn:Hf; simpl.
  - right. split; [reflexivity|]. eexists. split; [reflexivity|].
    intros w Hin Hu.
    pose proof (first_order_by_desc (filter (DataEntry.week_of_user user_id) (weeks st)))
      as Hmax.
    assert (Hw : In w (filter (DataEntry.week_of_user user_id) (weeks st))).
    { apply filter_In. split; [exact Hin|]. unfold DataEntry.week_of_user.
      now apply Z.eqb_eq. }
    destruct (first _) as [m|].
    + destruct Hmax as [_ Hmax]. specialize (Hmax w Hw). lia.
    + rewrite Hmax in Hw. destruct Hw.
  - left. exists wk. split; reflexivity.
Qed.

(** X2: the Week a resolution returns is a row of the store it leaves,
    belongs to the user and starts on the Monday of the date; the resolution
    keeps every existing Week row, adds at most the returned one at the end,
    and touches no other table. *)
Theorem get_or_create_week_stored st user_id d :
  let wk := fst (DataEntry.get_or_create_week st user_id d) in
  let st' := snd (DataEntry.get_or_create_week st user_id d) in
  In wk (weeks st')
  /\ Week.user_id wk = user_id
  /\ Week.start_date wk = DataEntry.monday_start d
  /\ (weeks st' = weeks st \/ weeks st' = (weeks st ++ [wk])%list)
  /\ users st' = users st /\ dailies st' = dailies st
  /\ measurements st' = measurements st /\ wellbeings st' = wellbeings st
  /\ adherences st' = adherences st.
Proof.
  destruct (get_or_create_week_cases st user_id d)
    as [(wk & Hf & ->) | (_ & n & -> & _)]; simpl.
  - pose proof (first_In _ _ Hf) as Hin. apply filter_In in Hin.
    destruct Hin as [Hin Hw]. apply week_at_spec in Hw.
    repeat split; tauto.
  - repeat split; try tauto.
    apply in_or_app. right. now left.
Qed.

(** X3: when the ids of the Week table are distinct, they still are after a
    resolution: a created Week gets an id larger than every id in use. *)
Theorem get_or_create_week_keeps_ids_distinct st user_id d :
  NoDup (map Week.id (weeks st)) ->
  NoDup (map Week.id (weeks (snd (DataEntry.get_or_create_week st user_id d)))).
Proof.
  intros H.
  destruct (get_or_create_week_cases st user_id d)
    as [(wk & Hf & ->) | (_ & n & -> & _)]; simpl; [exact H|].
  rewrite map_app; simpl. apply NoDup_app_remove_l with (l := []).
  simpl. apply NoDup_app; [exact H| |].
  - constructor; [intros []|constructor].
  - intros x Hx [<-|[]]. apply next_id_fresh in Hx. lia.
Qed.

Lemma get_or_create_week_keeps_ids_distinct_witness :
  NoDup (map Week.id
             (weeks (snd (DataEntry.get_or_create_week two_weeks_store 1
                            (monday_2025_01_06 + 14))))).
Proof.
  apply (get_or_create_week_keeps_ids_distinct two_weeks_store 1 (monday_2025_01_06 + 14)).
  simpl. repeat constructor; simpl; intuition discriminate.
Defined.

(** X4: when no user has two Week rows at one start date, a resolution keeps
    it so: it creates a Week only where the user has none. *)
Theorem get_or_create_week_keeps_one_week_per_start st user_id d :
  (forall u s, (count_weeks_at st u s <= 1)%nat) ->
  forall u s,
    (count_weeks_at (snd (DataEntry.get_or_create_week st user_id d)) u s <= 1)%nat.
Proof.
  intros H u s.
  destruct (get_or_create_week_cases st user_id d)
    as [(wk & Hf & ->) | (Hnone & n & -> & _)]; simpl; [apply H|].
  unfold count_weeks_at; simpl. rewrite filter_app, length_app; simpl.
  destruct (DataEntry.week_at u s _) eqn:Hw; simpl.
  - apply week_at_spec in Hw. simpl in Hw. destruct Hw as [<- <-].
    rewrite Hnone. simpl. lia.
  - specialize (H u s). unfold count_weeks_at in H. lia.
Qed.

Lemma get_or_create_week_keeps_one_week_per_start_witness :
  (count_weeks_at (snd (DataEntry.get_or_create_week fresh_store 1 monday_2025_01_06))
                  1 monday_2025_01_06 <= 1)%nat.
Proof.
  apply (get_or_create_week_keeps_one_week_per_start fresh_store 1 monday_2025_01_06).
  intros u s. unfold count_weeks_at. simpl. lia.
Defined.

(** X5: when the week numbers of each user are distinct, they still are
    after a resolution, for the resolving user and for every other one. *)
Theorem get_or_create_week_keeps_numbers_distinct st user_id d :
  (forall u, NoDup (map Week.week_number (filter (DataEntry.week_of_user u) (weeks st)))) ->
  forall u,
    NoDup (map Week.week_number
               (filter (DataEntry.week_of_user u)
                       (weeks (snd (DataEntry.get_or_create_week st user_id d))))).
Proof.
  intros H u.
  destruct (get_or_create_week_cases st user_id d)
    as [(wk & Hf & ->) | (_ & n & -> & Hn)]; simpl; [apply H|].
  rewrite filter_app; simpl. unfold DataEntry.week_of_user at 2; simpl.
  destruct (Z.eqb_spec user_id u) as [->|Hne]; [|rewrite app_nil_r; apply H].
  rewrite map_app; simpl. apply NoDup_app_remove_l with (l := []). simpl.
  apply NoDup_app; [apply H| |].
  - constructor; [intros []|constructor].
  - intros x Hx [<-|[]]. apply in_map_iff in Hx. destruct Hx as (w & Hw & Hin).
    apply filter_In in Hin. destruct Hin as [Hin Hu].
    unfold DataEntry.week_of_user in Hu. apply Z.eqb_eq in Hu.
    specialize (Hn w Hin Hu). lia.
Qed.

Lemma get_or_create_week_keeps_numbers_distinct_witness :
  NoDup (map Week.week_number
             (filter (DataEntry.week_of_user 1)
                     (weeks (snd (DataEntry.get_or_create_week fresh_store 1
                                    monday_2025_01_06))))).
Proof.
  apply (get_or_create_week_keeps_numbers_distinct fresh_store 1 monday_2025_01_06).
  intros u. simpl. constructor.
Defined.

Lemma get_or_create_week_by_monday st user_id d d' :
  DataEntry.monday_start d' = DataEntry.monday_start d ->
  DataEntry.get_or_create_week st user_id d' = DataEntry.get_or_create_week st user_id d.
Proof. intros H. unfold DataEntry.get_or_create_week. now rewrite H. Qed.

(** X6: two dates of one Monday-to-Sunday span resolve to the same Week: the
    resolution of the second date returns the Week of the first and changes
    nothing. *)
Theorem same_week_same_resolution st user_id d d' :
  DataEntry.monday_start d <= d' <= DataEntry.monday_start d + 6 ->
  DataEntry.get_or_create_week (snd (DataEntry.get_or_create_week st user_id d)) user_id d'
  = DataEntry.get_or_create_week st user_id d.
Proof.
  intros H.
  apply (proj1 (proj2 (proj2 (monday_start_is_monday_aux d))) d') in H.
  rewrite (get_or_create_week_by_monday _ user_id d d' H).
  apply get_or_create_week_again.
Qed.

Lemma same_week_same_resolution_witness :
  DataEntry.get_or_create_week
    (snd (DataEntry.get_or_create_week fresh_store 1 (monday_2025_01_06 + 2)))
    1 (monday_2025_01_06 + 6)
  = DataEntry.get_or_create_week fresh_store 1 (monday_2025_01_06 + 2).
Proof.
  apply (same_week_same_resolution fresh_store 1 (monday_2025_01_06 + 2)
                                   (monday_2025_01_06 + 6)).
  vm_compute. split; discriminate.
Defined.

(** ** Daily entries *)

(** X7: "Save daily entry" raises exactly when there is no User row;
    otherwise it appends one DailyMetric, with a fresh id and the chosen
    date, linked to a Week of the store that belongs to the user and starts
    on the Monday of the date; rows already stored are kept as they are. *)
Theorem save_daily_entry_appends st d weight steps :
  (DataEntry.save_daily_entry st d weight steps = None <-> users st = [])
  /\ forall st',
      DataEntry.save_daily_entry st d weight steps = Some st' ->
      exists dm wk,
        dailies st' = (dailies st ++ [dm])%list
        /\ DailyMetric.date dm = d
        /\ (forall x, In x (dailies st) -> DailyMetric.id x < DailyMetric.id dm)
        /\ In wk (weeks st')
        /\ DailyMetric.week_id dm = Some (Week.id wk)
        /\ Week.user_id wk = DailyMetric.user_id dm
        /\ Week.start_date wk = DataEntry.monday_start d
        /\ users st' = users st.
Proof.
  unfold DataEntry.save_daily_entry, first.
  destruct (users st) as [|user us] eqn:Hu; simpl.
  - split; [tauto|discriminate].
  - pose proof (get_or_create_week_stored st (User.id user) d) as Hw. cbv zeta in Hw.
    destruct (DataEntry.get_or_create_week st (User.id user) d) as [wk st1].
    simpl in Hw. destruct Hw as (Hin & Hwu & Hws & _ & Hus & Hds & _).
    split; [split; discriminate|].
    intros st' [= <-]. eexists. exists wk. simpl. rewrite Hds.
    repeat split; try assumption; try congruence.
    intros x Hx. apply next_id_fresh. now apply in_map.
Qed.

Lemma save_daily_entry_appends_witness :
  exists dm wk,
    dailies (saved fresh_store monday_2025_01_06 89.5%float 8000)
    = (dailies fresh_store ++ [dm])%list
    /\ DailyMetric.date dm = monday_2025_01_06
    /\ (forall x, In x (dailies fresh_store) -> DailyMetric.id x < DailyMetric.id dm)
    /\ In wk (weeks (saved fresh_store monday_2025_01_06 89.5%float 8000))
    /\ DailyMetric.week_id dm = Some (Week.id wk)
    /\ Week.user_id wk = DailyMetric.user_id dm
    /\ Week.start_date wk = DataEntry.monday_start monday_2025_01_06
    /\ users (saved fresh_store monday_2025_01_06 89.5%float 8000) = users fresh_store.
Proof.
  apply (proj2 (save_daily_entry_appends fresh_store monday_2025_01_06 89.5%float 8000)).
  reflexivity.
Defined.

(** ** Upserts *)

Lemma length_update_row {A} (key : A -> Z) r l :
  List.length (update_row key r l) = List.length l.
Proof.
  induction l as [|x l IH]; simpl; [reflexivity|].
  destruct (key x =? key r); simpl; [reflexivity|now rewrite IH].
Qed.

(** The first match of a query, after the matching row was rewritten under
    its key, is the rewritten row. *)
Lemma first_filter_update_row {A} (key : A -> Z) (p : A -> bool) r l x :
  first (filter p l) = Some x -> key r = key x -> p r = true ->
  first (filter p (update_row key r l)) = Some r.
Proof.
  intros Hf Hk Hp. induction l as [|y l IH]; simpl in *; [discriminate|].
  destruct (Z.eqb_spec (key y) (key r)) as [Hy|Hy]; simpl.
  - now rewrite Hp.
  - destruct (p y) eqn:Hpy; simpl in *.
    + injection Hf as ->. congruence.
    + now apply IH.
Qed.

Lemma first_filter_app_new {A} (p : A -> bool) r l :
  filter p l = [] -> p r = true -> first (filter p (l ++ [r])) = Some r.
Proof. intros Hf Hp. rewrite filter_app, Hf. simpl. now rewrite Hp. Qed.

Lemma first_None_nil {A} (l : list A) : first l = None -> l = [].
Proof. destruct l; [reflexivity|discriminate]. Qed.

Lemma first_filter_true {A} (p : A -> bool) l x :
  first (filter p l) = Some x -> p x = true.
Proof. intros H. apply first_In in H. now apply filter_In in H. Qed.

(** X8: after the CSV import wrote the DailyMetric of a row, the lookup of
    the user's DailyMetric at the row's date finds the written row: it is
    linked to the row's Week and holds the row's weight and steps and the
    kilometres derived from them; an existing row kept its id, and the table
    grew only when there was none. *)
Theorem import_daily_lookup st user_id wk row :
  let st' := ImportExport.import_daily st user_id wk row in
  let dm := ImportExport.import_daily_row st user_id wk row in
  ImportExport.find_daily st' user_id (ImportExport.c_date row) = Some dm
  /\ DailyMetric.week_id dm = Some (Week.id wk)
  /\ DailyMetric.weight_kg dm = ImportExport.c_weight_kg row
  /\ DailyMetric.steps dm = ImportExport.c_steps row
  /\ km_derived dm
  /\ match ImportExport.find_daily st user_id (ImportExport.c_date row) with
     | Some old =>
         DailyMetric.id dm = DailyMetric.id old
         /\ List.length (dailies st') = List.length (dailies st)
     | None => dailies st' = (dailies st ++ [dm])%list
     end.
Proof.
  intros st' dm.
  split; [|repeat split; try apply import_daily_row_km_derived].
  - subst st' dm. unfold ImportExport.import_daily, ImportExport.import_daily_row.
    destruct (ImportExport.find_daily st user_id (ImportExport.c_date row))
      as [old|] eqn:Hf; unfold ImportExport.find_daily in *; simpl.
    + pose proof (first_filter_true _ _ _ Hf) as Hp. simpl in Hp.
      eapply first_filter_update_row; [exact Hf|reflexivity|exact Hp].
    + apply first_filter_app_new; [now apply first_None_nil|].
      simpl. now rewrite !Z.eqb_refl.
  - subst st' dm. unfold ImportExport.import_daily, ImportExport.import_daily_row.
    destruct (ImportExport.find_daily st user_id (ImportExport.c_date row)); simpl.
    + split; [reflexivity|apply length_update_row].
    + reflexivity.
Qed.

(** X9: the CSV import never writes a second Measurement for a user and
    week that have one: the table keeps its length, and the row found for the
    user and week afterwards has the id of the former one and holds, in each
    of its six fields, the cell of the CSV row when it is present and the
    former value when it is blank.  With no Measurement of the user for the
    week and some cell present, the commit raises IntegrityError when a
    Measurement of another user holds the week; otherwise one row is
    appended, with a fresh id and the six cells as its fields.  A CSV row
    with no measurement cell leaves the store as it is; and the other tables
    are never touched. *)
Theorem assign_measurement_upsert st user_id week_id row :
  let r := ImportExport.assign_measurement st user_id week_id row in
  let changed :=
    ImportExport.present (ImportExport.c_r_biceps_in row)
    || ImportExport.present (ImportExport.c_l_biceps_in row)
    || ImportExport.present (ImportExport.c_chest_in row)
    || ImportExport.present (ImportExport.c_r_thigh_in row)
    || ImportExport.present (ImportExport.c_l_thigh_in row)
    || ImportExport.present (ImportExport.c_waist_navel_in row) in
  (changed = false -> r = Some st)
  /\ (changed = true ->
      match DataEntry.find_measurement st user_id week_id with
      | Some old =>
          exists st' m,
            r = Some st'
            /\ DataEntry.find_measurement st' user_id week_id = Some m
            /\ List.length (measurements st') = List.length (measurements st)
            /\ Measurement.id m = Measurement.id old
            /\ Measurement.r_biceps_in m
               = ImportExport.override (ImportExport.c_r_biceps_in row)
                                       (Measurement.r_biceps_in old)
            /\ Measurement.l_biceps_in m
               = ImportExport.override (ImportExport.c_l_biceps_in row)
                                       (Measurement.l_biceps_in old)
            /\ Measurement.chest_in m
               = ImportExport.override (ImportExport.c_chest_in row)
                                       (Measurement.chest_in old)
            /\ Measurement.r_thigh_in m
               = ImportExport.override (ImportExport.c_r_thigh_in row)
                                       (Measurement.r_thigh_in old)
            /\ Measurement.l_thigh_in m
               = ImportExport.override (ImportExport.c_l_thigh_in row)
                                       (Measurement.l_thigh_in old)
            /\ Measurement.waist_navel_in m
               = ImportExport.override (ImportExport.c_waist_navel_in row)
                                       (Measurement.waist_navel_in old)
      | None =>
          if measurement_week_taken st week_id then r = None
          else
            exists st' m,
              r = Some st'
              /\ DataEntry.find_measurement st' user_id week_id = Some m
              /\ measurements st' = (measurements st ++ [m])%list
              /\ ~ In (Measurement.id m) (map Measurement.id (measurements st))
              /\ Measurement.user_id m = user_id
              /\ Measurement.week_id m = week_id
              /\ Measurement.r_biceps_in m = ImportExport.c_r_biceps_in row
              /\ Measurement.l_biceps_in m = ImportExport.c_l_biceps_in row
              /\ Measurement.chest_in m = ImportExport.c_chest_in row
              /\ Measurement.r_thigh_in m = ImportExport.c_r_thigh_in row
              /\ Measurement.l_thigh_in m = ImportExport.c_l_thigh_in row
              /\ Measurement.waist_navel_in m = ImportExport.c_waist_navel_in row
      end)
  /\ (forall st',
         r = Some st' ->
         users st' = users st /\ weeks st' = weeks st /\ dailies st' = dailies st
         /\ wellbeings st' = wellbeings st /\ adherences st' = adherences st).
Proof.
  intros r changed. subst r. unfold ImportExport.assign_measurement.
  fold changed. unfold DataEntry.find_measurement.
  assert (Hov : forall A (c : option A), ImportExport.override c None = c)
    by (intros A []; reflexivity).
  split; [|split].
  - intros ->. reflexivity.
  - intros ->.
    destruct (first (filter _ (measurements st))) as [old|] eqn:Hf.
    + pose proof (first_filter_true _ _ _ Hf) as Hp. simpl in Hp.
      eexists. eexists. split; [reflexivity|]. cbn [measurements set_measurements].
      split; [eapply first_filter_update_row; [exact Hf|reflexivity|exact Hp]|].
      split; [apply length_update_row|]. repeat split.
    + destruct (measurement_week_taken st week_id); [reflexivity|].
      eexists. eexists. split; [reflexivity|]. cbn [measurements set_measurements].
      split; [apply first_filter_app_new;
              [now apply first_None_nil|simpl; now rewrite !Z.eqb_refl]|].
      split; [reflexivity|].
      split; [cbn [Measurement.id]; intros Hin; apply next_id_fresh in Hin; lia|].
      cbn. rewrite !Hov. repeat split.
  - intros st'. destruct changed; [|intros [= <-]; repeat split].
    destruct (first (filter _ (measurements st))); [intros [= <-]; repeat split|].
    destruct (measurement_week_taken st week_id); [discriminate|].
    intros [= <-]. repeat split.
Qed.

Lemma assign_measurement_upsert_witness :
  (exists st' m,
      ImportExport.assign_measurement two_weeks_store 1 1 csv_row_chest = Some st'
      /\ DataEntry.find_measurement st' 1 1 = Some m
      /\ List.length (measurements st') = List.length (measurements two_weeks_store)
      /\ Measurement.id m = 1
      /\ Measurement.r_biceps_in m = None
      /\ Measurement.l_biceps_in m = None
      /\ Measurement.chest_in m = Some 41%float
      /\ Measurement.r_thigh_in m = None
      /\ Measurement.l_thigh_in m = None
      /\ Measurement.waist_navel_in m = None)
  /\ ImportExport.assign_measurement two_weeks_store 2 1 csv_row_chest = None.
Proof.
  split.
  - apply (proj1 (proj2 (assign_measurement_upsert two_weeks_store 1 1 csv_row_chest))).
    reflexivity.
  - apply (proj1 (proj2 (assign_measurement_upsert two_weeks_store 2 1 csv_row_chest))).
    reflexivity.
Defined.

(** ** Counts of the CSV import *)

Lemma assign_measurement_frame st user_id week_id row st' :
  ImportExport.assign_measurement st user_id week_id row = Some st' ->
  users st' = users st /\ weeks st' = weeks st /\ dailies st' = dailies st.
Proof.
  unfold ImportExport.assign_measurement. cbv zeta.
  match goal with |- context [if ?b then _ else _] => destruct b end;
    [|intros [= <-]; repeat split].
  destruct (first (filter _ (measurements st))); [intros [= <-]; repeat split|].
  destruct (measurement_week_taken st week_id); [discriminate|].
  intros [= <-]; repeat split.
Qed.

Lemma assign_wellbeing_frame st user_id week_id row st' :
  ImportExport.assign_wellbeing st user_id week_id row = Some st' ->
  users st' = users st /\ weeks st' = weeks st /\ dailies st' = dailies st.
Proof.
  unfold ImportExport.assign_wellbeing. cbv zeta.
  match goal with |- context [if ?b then _ else _] => destruct b end;
    [|intros [= <-]; repeat split].
  destruct (first (filter _ (wellbeings st))); [intros [= <-]; repeat split|].
  destruct (wellbeing_week_taken st week_id); [discriminate|].
  intros [= <-]; repeat split.
Qed.

Lemma assign_adherence_frame st user_id week_id row st' :
  ImportExport.assign_adherence st user_id week_id row = Some st' ->
  users st' = users st /\ weeks st' = weeks st /\ dailies st' = dailies st.
Proof.
  unfold ImportExport.assign_adherence. cbv zeta.
  match goal with |- context [if ?b then _ else _] => destruct b end;
    [|intros [= <-]; repeat split].
  destruct (first (filter _ (adherences st))); [intros [= <-]; repeat split|].
  destruct (adherence_week_taken st week_id); [discriminate|].
  intros [= <-]; repeat split.
Qed.

Lemma assign_weekly_rows_frame st user_id week_id row :
  let st' := fst (ImportExport.assign_weekly_rows st user_id week_id row) in
  users st' = users st /\ weeks st' = weeks st /\ dailies st' = dailies st.
Proof.
  cbv zeta. unfold ImportExport.assign_weekly_rows.
  destruct (ImportExport.assign_measurement st user_id week_id row) as [st3|] eqn:E3;
    [|repeat split].
  destruct (assign_measurement_frame _ _ _ _ _ E3) as (U3 & W3 & D3).
  destruct (ImportExport.assign_wellbeing st3 user_id week_id row) as [st4|] eqn:E4;
    [|cbn [fst]; auto].
  destruct (assign_wellbeing_frame _ _ _ _ _ E4) as (U4 & W4 & D4).
  destruct (ImportExport.assign_adherence st4 user_id week_id row) as [st5|] eqn:E5;
    [|cbn [fst]; repeat split; congruence].
  destruct (assign_adherence_frame _ _ _ _ _ E5) as (U5 & W5 & D5).
  cbn [fst]. repeat split; congruence.
Qed.

Lemma import_daily_frame st user_id wk row :
  users (ImportExport.import_daily st user_id wk row) = users st
  /\ weeks (ImportExport.import_daily st user_id wk row) = weeks st.
Proof.
  unfold ImportExport.import_daily. cbv zeta.
  destruct (ImportExport.find_daily st user_id (ImportExport.c_date row)); split;
    reflexivity.
Qed.

Lemma import_week_frame st user_id row :
  users (snd (fst (ImportExport.import_week st user_id row))) = users st
  /\ dailies (snd (fst (ImportExport.import_week st user_id row))) = dailies st
  /\ (snd (ImportExport.import_week st user_id row) = true ->
      List.length (weeks (snd (fst (ImportExport.import_week st user_id row))))
      = S (List.length (weeks st)))
  /\ (snd (ImportExport.import_week st user_id row) = false ->
      weeks (snd (fst (ImportExport.import_week st user_id row))) = weeks st).
Proof.
  unfold ImportExport.import_week. cbv zeta.
  destruct (first (filter _ (weeks st))); cbn [fst snd]; repeat split;
    try discriminate.
  intros _. cbn [weeks set_weeks]. rewrite length_app. cbn [List.length]. lia.
Qed.

Lemma import_row_tables st user_id row :
  let r := ImportExport.import_row st user_id row in
  let st' := fst (fst r) in
  users st' = users st
  /\ (snd (fst r) = true -> List.length (weeks st') = S (List.length (weeks st)))
  /\ (snd (fst r) = false -> weeks st' = weeks st).
Proof.
  unfold ImportExport.import_row.
  pose proof (import_week_frame st user_id row) as Hw.
  destruct (ImportExport.import_week st user_id row) as [[wk st1] created].
  destruct Hw as (Hu & _ & Ht & Hf). cbv zeta. cbn [fst snd] in *.
  pose proof (assign_weekly_rows_frame (ImportExport.import_daily st1 user_id wk row)
                user_id (Week.id wk) row) as Ha.
  destruct (ImportExport.assign_weekly_rows _ user_id (Week.id wk) row)
    as [st5 completed].
  cbv zeta in Ha. cbn [fst snd] in *. destruct Ha as (U & W & _).
  rewrite U, W, (proj1 (import_daily_frame _ _ _ _)),
    (proj2 (import_daily_frame _ _ _ _)).
  auto.
Qed.

Lemma import_rows_counts rows : forall st user_id n_daily n_week,
  let r := ImportExport.import_rows st user_id rows n_daily n_week in
  users (fst r) = users st
  /\ forall a b,
      snd r = Some (a, b) ->
      a = n_daily + Z.of_nat (List.length rows)
      /\ b = n_week + Z.of_nat (List.length (weeks (fst r)))
             - Z.of_nat (List.length (weeks st)).
Proof.
  induction rows as [|row rows IH]; intros st user_id n_daily n_week; simpl.
  - split; [reflexivity|]. intros a b [= <- <-]. split; lia.
  - pose proof (import_row_tables st user_id row) as (Hu & Ht & Hf). cbv zeta in *.
    destruct (ImportExport.import_row st user_id row) as [[st' created] completed];
      cbn [fst snd] in *.
    destruct completed; [|cbn [fst snd]; split; [exact Hu|discriminate]].
    specialize (IH st' user_id (n_daily + 1) (if created then n_week + 1 else n_week)).
    cbv zeta in IH. destruct IH as (H1 & H2).
    split; [congruence|]. intros a b Hab. destruct (H2 a b Hab) as (-> & ->).
    split; [lia|]. destruct created.
    + rewrite (Ht eq_refl). lia.
    + rewrite (Hf eq_refl). lia.
Qed.

(** X10: an import that completes reports as daily rows the number of CSV
    rows, each row being counted whether it inserted or updated, and as
    created weeks the number of Week rows by which the table grew; an import
    of at least one row on a store with no User row raises and writes
    nothing; the User table is never changed. *)
Theorem import_csv_counts st rows :
  let st' := fst (ImportExport.import_csv st rows) in
  users st' = users st
  /\ (rows <> [] -> users st = [] ->
      ImportExport.import_csv st rows = (st, None))
  /\ forall n_daily n_week,
      snd (ImportExport.import_csv st rows) = Some (n_daily, n_week) ->
      n_daily = Z.of_nat (List.length rows)
      /\ n_week = Z.of_nat (List.length (weeks st')) - Z.of_nat (List.length (weeks st)).
Proof.
  unfold ImportExport.import_csv.
  destruct rows as [|row rows].
  - simpl. split; [reflexivity|]. split; [congruence|].
    intros n_daily n_week H. injection H as <- <-. split; lia.
  - unfold first. destruct (users st) as [|user us] eqn:Hu; simpl hd_error; cbv iota.
    + simpl. split; [exact Hu|]. split; [intros; reflexivity|].
      intros n_daily n_week H. discriminate H.
    + pose proof (import_rows_counts (row :: rows) st (User.id user) 0 0) as H.
      cbv zeta in H. destruct H as (H1 & H2). cbv zeta.
      split; [congruence|]. split; [discriminate|].
      intros n_daily n_week Hn. destruct (H2 _ _ Hn) as (-> & ->). split; lia.
Qed.

Lemma import_csv_counts_witness :
  2 = Z.of_nat (List.length [csv_row_chest;
                             csv_row 1 monday_2025_01_06 (monday_2025_01_06 + 1)
                                     None (Some 9000)])
  /\ 1 = Z.of_nat (List.length
                     (weeks (fst (ImportExport.import_csv fresh_store
                                    [csv_row_chest;
                                     csv_row 1 monday_2025_01_06 (monday_2025_01_06 + 1)
                                             None (Some 9000)]))))
         - Z.of_nat (List.length (weeks fresh_store)).
Proof.
  apply (proj2 (proj2 (import_csv_counts fresh_store
                         [csv_row_chest;
                          csv_row 1 monday_2025_01_06 (monday_2025_01_06 + 1)
                                  None (Some 9000)]))).
  reflexivity.
Defined.

(** ** The derived kilometres as an invariant of the daily table *)

Lemma Forall_update_row {A} (P : A -> Prop) (key : A -> Z) r l :
  Forall P l -> P r -> Forall P (update_row key r l).
Proof.
  intros Hl Hr. induction Hl as [|x l Hx Hl IH]; simpl; [constructor|].
  destruct (key x =? key r); constructor; assumption.
Qed.

Lemma import_row_dailies st user_id row :
  exists wk st1,
    dailies st1 = dailies st
    /\ dailies (fst (fst (ImportExport.import_row st user_id row)))
       = dailies (ImportExport.import_daily st1 user_id wk row).
Proof.
  unfold ImportExport.import_row.
  pose proof (import_week_frame st user_id row) as Hw.
  destruct (ImportExport.import_week st user_id row) as [[wk st1] created].
  destruct Hw as (_ & Hd & _). cbn [fst snd] in Hd.
  exists wk, st1. split; [exact Hd|]. cbv zeta.
  pose proof (assign_weekly_rows_frame (ImportExport.import_daily st1 user_id wk row)
                user_id (Week.id wk) row) as Ha.
  destruct (ImportExport.assign_weekly_rows _ user_id (Week.id wk) row)
    as [st5 completed].
  cbv zeta in Ha. cbn [fst] in *. apply Ha.
Qed.

Lemma import_daily_km_derived st user_id wk row :
  Forall km_derived (dailies st) ->
  Forall km_derived (dailies (ImportExport.import_daily st user_id wk row)).
Proof.
  intros H. unfold ImportExport.import_daily.
  destruct (ImportExport.find_daily st user_id (ImportExport.c_date row)); simpl.
  - apply Forall_update_row; [exact H|apply import_daily_row_km_derived].
  - apply Forall_app. split; [exact H|].
    constructor; [apply import_daily_row_km_derived|constructor].
Qed.

Lemma import_rows_km_derived rows : forall st user_id a b,
  Forall km_derived (dailies st) ->
  Forall km_derived (dailies (fst (ImportExport.import_rows st user_id rows a b))).
Proof.
  induction rows as [|row rows IH]; intros st user_id a b H; simpl; [exact H|].
  destruct (import_row_dailies st user_id row) as (wk & st1 & Hd & Heq).
  destruct (ImportExport.import_row st user_id row) as [[st' created] completed];
    cbn [fst snd] in *.
  assert (H' : Forall km_derived (dailies st'))
    by (rewrite Heq; apply import_daily_km_derived; now rewrite Hd).
  destruct completed; [now apply IH|exact H'].
Qed.

(** X11: the CSV import keeps the daily table consistent: if every stored
    DailyMetric has its [run_km] derived from its [steps] (absent when the
    steps are absent), so has every DailyMetric after the import, the rows it
    inserted and the rows it rewrote included. *)
Theorem import_csv_keeps_km_derived st rows :
  Forall km_derived (dailies st) ->
  Forall km_derived (dailies (fst (ImportExport.import_csv st rows))).
Proof.
  intros H. unfold ImportExport.import_csv.
  destruct rows as [|row rows]; [exact H|].
  destruct (first (users st)) as [user|]; [|exact H].
  exact (import_rows_km_derived (row :: rows) st (User.id user) 0 0 H).
Qed.

Lemma import_csv_keeps_km_derived_witness :
  Forall km_derived
         (dailies (fst (ImportExport.import_csv fresh_store [csv_row_chest]))).
Proof.
  apply (import_csv_keeps_km_derived fresh_store [csv_row_chest]). constructor.
Defined.

(** ** Saving the daily grid *)

Lemma map_key_update_row {A} (key : A -> Z) r l :
  map key (update_row key r l) = map key l.
Proof.
  induction l as [|x l IH]; simpl; [reflexivity|].
  destruct (Z.eqb_spec (key x) (key r)) as [H|H]; simpl; [now rewrite H|now rewrite IH].
Qed.

Lemma save_daily_rows_raises edited : forall st r,
  In r edited -> ManageData.e_id r = None -> ManageData.save_daily_rows st edited = None.
Proof.
  induction edited as [|r0 edited IH]; intros st r Hin Hr; [destruct Hin|].
  simpl. destruct Hin as [->|Hin]; [now rewrite Hr|].
  destruct (ManageData.e_id r0); [|reflexivity].
  destruct (ManageData.get_daily st z); eapply IH; eassumption.
Qed.

Lemma save_daily_rows_keeps edited : forall st st',
  ManageData.save_daily_rows st edited = Some st' ->
  map DailyMetric.id (dailies st') = map DailyMetric.id (dailies st)
  /\ (Forall km_derived (dailies st) -> Forall km_derived (dailies st'))
  /\ users st' = users st /\ weeks st' = weeks st.
Proof.
  induction edited as [|r edited IH]; intros st st' H; simpl in H.
  - injection H as <-. repeat split. auto.
  - destruct (ManageData.e_id r) as [id|]; [|discriminate].
    destruct (ManageData.get_daily st id) as [dm|]; [|now apply IH].
    apply IH in H. simpl in H. destruct H as (H1 & H2 & H3 & H4).
    rewrite map_key_update_row in H1. repeat split; try assumption.
    intros Hk. apply H2. apply Forall_update_row; [exact Hk|apply edit_daily_km_derived].
Qed.

(** X12: "Save changes" on the daily grid writes nothing at all when one
    grid row has no id (a row added in the grid), even if other rows were
    edited; otherwise it keeps the ids of the daily table, in order, so it
    neither adds nor removes a row, it leaves the User and Week tables alone,
    and it keeps the kilometres derived from the steps in every row. *)
Theorem save_daily_changes_keeps st edited :
  ((exists r, In r edited /\ ManageData.e_id r = None) ->
   ManageData.save_daily_changes st edited = st)
  /\ map DailyMetric.id (dailies (ManageData.save_daily_changes st edited))
     = map DailyMetric.id (dailies st)
  /\ users (ManageData.save_daily_changes st edited) = users st
  /\ weeks (ManageData.save_daily_changes st edited) = weeks st
  /\ (Forall km_derived (dailies st) ->
      Forall km_derived (dailies (ManageData.save_daily_changes st edited))).
Proof.
  unfold ManageData.save_daily_changes. split.
  - intros (r & Hin & Hr). now rewrite (save_daily_rows_raises edited st r Hin Hr).
  - destruct (ManageData.save_daily_rows st edited) as [st'|] eqn:H.
    + apply save_daily_rows_keeps in H. tauto.
    + repeat split. auto.
Qed.

Lemma save_daily_changes_keeps_witness :
  ManageData.save_daily_changes two_weeks_store
    [ManageData.mkEditedDaily (Some 1) monday_2025_01_06 None (Some 89%float) (Some 5000);
     ManageData.mkEditedDaily None monday_2025_01_06 None None None]
  = two_weeks_store.
Proof.
  apply (proj1 (save_daily_changes_keeps two_weeks_store
                  [ManageData.mkEditedDaily (Some 1) monday_2025_01_06 None
                     (Some 89%float) (Some 5000);
                   ManageData.mkEditedDaily None monday_2025_01_06 None None None])).
  eexists. split; [right; left; reflexivity|reflexivity].
Defined.

(** ** The previews of the bulk deletions *)

Lemma filter_filter_and {A} (p q : A -> bool) l :
  filter p (filter q l) = filter (fun x => q x && p x) l.
Proof.
  induction l as [|x l IH]; simpl; [reflexivity|].
  destruct (q x); simpl; [destruct (p x)|]; now rewrite IH.
Qed.

Lemma length_filter_split {A} (p : A -> bool) l :
  (List.length (filter p l) + List.length (filter (fun x => negb (p x)) l)
   = List.length l)%nat.
Proof.
  induction l as [|x l IH]; simpl; [reflexivity|].
  destruct (p x); simpl; lia.
Qed.

Lemma delete_by_date_dailies st d_from d_to also_delete_weekly delete_empty_weeks :
  dailies (fst (ImportExport.delete_by_date st d_from d_to also_delete_weekly
                                            delete_empty_weeks "DELETE"))
  = filter (fun dm => negb (ImportExport.in_range d_from d_to dm)) (dailies st).
Proof.
  rewrite delete_by_date_confirmed. cbv zeta.
  destruct (also_delete_weekly && _); [destruct delete_empty_weeks|]; reflexivity.
Qed.

Lemma remaining_outside_after st d_from d_to wid :
  filter (ImportExport.remaining_outside wid d_from d_to) (dailies st)
  = filter (ImportExport.has_week_id wid) (dailies (after_dailies st d_from d_to)).
Proof.
  unfold after_dailies; simpl. rewrite filter_filter_and. apply filter_ext.
  intros dm. unfold ImportExport.remaining_outside, ImportExport.in_range.
  rewrite andb_comm. f_equal.
  rewrite negb_andb, <- !Z.ltb_antisym. reflexivity.
Qed.

(** X13: the preview of a deletion by date range tells what the confirmed
    deletion does: its count is the number of DailyMetric rows that go, and
    the weeks it lists as fully removed, found before anything is deleted by
    looking for dailies outside the range, are the weeks the deletion finds
    empty afterwards and clears of their weekly rows. *)
Theorem preview_by_date_predicts st d_from d_to also_delete_weekly delete_empty_weeks :
  let p := ImportExport.preview_by_date st d_from d_to also_delete_weekly in
  let st' := fst (ImportExport.delete_by_date st d_from d_to also_delete_weekly
                                              delete_empty_weeks "DELETE") in
  (fst (fst p) + List.length (dailies st') = List.length (dailies st))%nat
  /\ snd (fst p) = ImportExport.touched_week_ids st d_from d_to
  /\ forall ws,
      snd p = Some ws ->
      ws = detected_empty st d_from d_to
      /\ measurements st'
         = filter (fun m => negb (mem (Measurement.week_id m) ws)) (measurements st)
      /\ wellbeings st'
         = filter (fun m => negb (mem (Wellbeing.week_id m) ws)) (wellbeings st)
      /\ adherences st'
         = filter (fun m => negb (mem (Adherence.week_id m) ws)) (adherences st).
Proof.
  intros p st'. subst p st'. unfold ImportExport.preview_by_date. cbn [fst snd].
  split; [|split; [reflexivity|]].
  - rewrite delete_by_date_dailies. apply length_filter_split.
  - intros ws Hws.
    assert (Hempty : filter (fun wid =>
                       (List.length (filter (ImportExport.remaining_outside wid d_from d_to)
                                            (dailies st)) =? 0)%nat)
                            (ImportExport.touched_week_ids st d_from d_to)
                     = detected_empty st d_from d_to).
    { unfold detected_empty, ImportExport.empty_weeks. apply filter_ext.
      intros wid. now rewrite remaining_outside_after. }
    rewrite Hempty in Hws. rewrite delete_by_date_confirmed. cbv zeta.
    destruct also_delete_weekly; simpl in Hws; [|discriminate].
    destruct (ImportExport.nonempty (ImportExport.touched_week_ids st d_from d_to));
      [|discriminate].
    injection Hws as <-. split; [reflexivity|]. simpl.
    destruct (detected_empty st d_from d_to) as [|w ws] eqn:He; simpl.
    + repeat split; symmetry; apply filter_all; reflexivity.
    + destruct delete_empty_weeks; repeat split.
Qed.

Lemma preview_by_date_predicts_witness :
  [1] = detected_empty two_weeks_store monday_2025_01_06 (monday_2025_01_06 + 7)
  /\ measurements (fst (ImportExport.delete_by_date two_weeks_store monday_2025_01_06
                          (monday_2025_01_06 + 7) true true "DELETE"))
     = filter (fun m => negb (mem (Measurement.week_id m) [1]))
              (measurements two_weeks_store)
  /\ wellbeings (fst (ImportExport.delete_by_date two_weeks_store monday_2025_01_06
                        (monday_2025_01_06 + 7) true true "DELETE"))
     = filter (fun m => negb (mem (Wellbeing.week_id m) [1]))
              (wellbeings two_weeks_store)
  /\ adherences (fst (ImportExport.delete_by_date two_weeks_store monday_2025_01_06
                        (monday_2025_01_06 + 7) true true "DELETE"))
     = filter (fun m => negb (mem (Adherence.week_id m) [1]))
              (adherences two_weeks_store).
Proof.
  apply (proj2 (proj2 (preview_by_date_predicts two_weeks_store monday_2025_01_06
                         (monday_2025_01_06 + 7) true true))).
  reflexivity.
Defined.

Lemma dailies_week_in_nil l : filter (ImportExport.dailies_week_in []) l = [].
Proof.
  induction l as [|dm l IH]; simpl; [reflexivity|].
  unfold ImportExport.dailies_week_in at 1.
  destruct (DailyMetric.week_id dm); exact IH.
Qed.

(** X14: the preview of a deletion by week numbers tells what the confirmed
    deletion does: its count is the number of DailyMetric rows that go, and
    the week ids it lists are the ids whose Week rows go when "Delete the
    Week rows themselves" is ticked; without that option the Week table
    stays as it is. *)
Theorem preview_by_week_predicts st wk_from wk_to also_delete_weekly2 delete_weeks2 :
  let p := ImportExport.preview_by_week st wk_from wk_to in
  let st' := fst (ImportExport.delete_by_week st wk_from wk_to also_delete_weekly2
                                              delete_weeks2 "DELETE") in
  (snd p + List.length (dailies st') = List.length (dailies st))%nat
  /\ weeks st' = (if delete_weeks2
                  then filter (fun w => negb (mem (Week.id w) (fst p))) (weeks st)
                  else weeks st)
  /\ users st' = users st.
Proof.
  intros p st'. subst p st'. rewrite delete_by_week_confirmed.
  unfold ImportExport.preview_by_week. cbv zeta. cbn [fst snd].
  set (wids := map Week.id (filter (ImportExport.week_in_range wk_from wk_to) (weeks st))).
  assert (Hn : (if ImportExport.nonempty wids
                then List.length (filter (ImportExport.dailies_week_in wids) (dailies st))
                else 0%nat)
               = List.length (filter (ImportExport.dailies_week_in wids) (dailies st))).
  { destruct wids; [now rewrite dailies_week_in_nil|reflexivity]. }
  rewrite Hn. split; [|split].
  - destruct also_delete_weekly2, delete_weeks2; simpl; apply length_filter_split.
  - destruct also_delete_weekly2, delete_weeks2; reflexivity.
  - destruct also_delete_weekly2, delete_weeks2; reflexivity.
Qed.

(** ** What a deletion by date leaves alone *)

Lemma in_range_inverted d_from d_to dm :
  d_to < d_from -> ImportExport.in_range d_from d_to dm = false.
Proof.
  intros H. unfold ImportExport.in_range.
  destruct (Z.leb_spec d_from (DailyMetric.date dm)); [|reflexivity].
  destruct (Z.leb_spec (DailyMetric.date dm) d_to); [lia|reflexivity].
Qed.

Lemma filter_none {A} (p : A -> bool) l :
  (forall x, In x l -> p x = false) -> filter p l = [].
Proof.
  induction l as [|x l IH]; intros H; simpl; [reflexivity|].
  rewrite (H x (or_introl eq_refl)). apply IH. auto using in_cons.
Qed.

Lemma set_dailies_same st : set_dailies st (dailies st) = st.
Proof. destruct st; reflexivity. Qed.

(** X15: a deletion by date range never touches the User table; without
    "also remove weekly check-ins" it changes the DailyMetric table only;
    without "delete Week rows that become empty" it leaves the Week table as
    it is; and a range whose end is before its start deletes nothing, even
    when confirmed. *)
Theorem delete_by_date_scope st d_from d_to also_delete_weekly delete_empty_weeks confirm :
  let st' := fst (ImportExport.delete_by_date st d_from d_to also_delete_weekly
                                              delete_empty_weeks confirm) in
  users st' = users st
  /\ (also_delete_weekly = false ->
      weeks st' = weeks st /\ measurements st' = measurements st
      /\ wellbeings st' = wellbeings st /\ adherences st' = adherences st)
  /\ (delete_empty_weeks = false -> weeks st' = weeks st)
  /\ (d_to < d_from -> st' = st).
Proof.
  cbv zeta. unfold ImportExport.delete_by_date.
  destruct (Py.str_ne confirm "DELETE"); cbn [fst].
  - repeat split; reflexivity.
  - split; [|split; [|split]].
    + destruct (also_delete_weekly && _); [|reflexivity].
      destruct (ImportExport.nonempty _); [|reflexivity].
      destruct delete_empty_weeks; reflexivity.
    + intros ->. repeat split.
    + intros ->. destruct (also_delete_weekly && _); [|reflexivity].
      destruct (ImportExport.nonempty _); reflexivity.
    + intros H. unfold ImportExport.touched_week_ids.
      rewrite (filter_none (ImportExport.in_range d_from d_to) (dailies st))
        by (intros; now apply in_range_inverted).
      rewrite (filter_all (fun dm => negb (ImportExport.in_range d_from d_to dm)))
        by (intros; now rewrite in_range_inverted).
      simpl. rewrite andb_false_r. apply set_dailies_same.
Qed.

Lemma delete_by_date_scope_witness :
  fst (ImportExport.delete_by_date two_weeks_store (monday_2025_01_06 + 8)
                                   monday_2025_01_06 true true "DELETE")
  = two_weeks_store.
Proof.
  apply (proj2 (proj2 (proj2 (delete_by_date_scope two_weeks_store
                                (monday_2025_01_06 + 8) monday_2025_01_06
                                true true "DELETE")))).
  unfold monday_2025_01_06. lia.
Defined.

(** ** Deleting the selected rows of the daily grid *)

Lemma delete_daily_rows_raises ids : forall st,
  In None ids -> ManageData.delete_daily_rows st ids = None.
Proof.
  induction ids as [|[i|] ids IH]; intros st H; simpl; [destruct H| |reflexivity].
  destruct H as [H|H]; [discriminate|].
  destruct (ManageData.get_daily st i); now apply IH.
Qed.

Lemma set_dailies_twice st x y : set_dailies (set_dailies st x) y = set_dailies st y.
Proof. reflexivity. Qed.

Lemma delete_daily_rows_all sel : forall st,
  ManageData.delete_daily_rows st (map Some sel)
  = Some (set_dailies st (filter (fun dm => negb (mem (DailyMetric.id dm) sel))
                                 (dailies st))).
Proof.
  induction sel as [|i sel IH]; intros st; simpl.
  - rewrite filter_all by reflexivity. now rewrite set_dailies_same.
  - assert (Hstep : filter (fun dm => negb (mem (DailyMetric.id dm) sel))
                      (filter (fun dm => negb (DailyMetric.id dm =? i)) (dailies st))
                    = filter (fun dm => negb ((DailyMetric.id dm =? i)
                                              || mem (DailyMetric.id dm) sel))
                             (dailies st)).
    { rewrite filter_filter_and. apply filter_ext. intros dm. now rewrite negb_orb. }
    destruct (ManageData.get_daily st i) as [dm|] eqn:Hg.
    + unfold ManageData.get_daily in Hg. apply find_some in Hg.
      destruct Hg as [_ Hid]. apply Z.eqb_eq in Hid. rewrite Hid.
      rewrite IH. unfold ManageData.delete_daily. rewrite set_dailies_twice.
      cbn [dailies set_dailies]. now rewrite Hstep.
    + rewrite IH. do 2 f_equal. rewrite <- Hstep. f_equal. symmetry.
      apply filter_all. intros dm Hin. unfold ManageData.get_daily in Hg.
      now rewrite (find_none _ _ Hg dm Hin).
Qed.

(** X16: "Delete selected" on the daily grid, for the ids of the ticked
    rows.  With nothing ticked it warns and changes nothing; with a ticked
    row that has no id (a row added in the grid) it raises before the commit
    and changes nothing; otherwise exactly the DailyMetric rows with a
    ticked id go, every other table stays as it is, and the number reported
    is the number of ticked rows. *)
Theorem delete_selected_daily_spec st ids :
  (ids = [] ->
   ManageData.delete_selected_daily st ids = (st, Some ManageData.select_at_least_one))
  /\ (In None ids -> ManageData.delete_selected_daily st ids = (st, None))
  /\ (forall sel, sel <> [] -> ids = map Some sel ->
      ManageData.delete_selected_daily st ids
      = (set_dailies st (filter (fun dm => negb (mem (DailyMetric.id dm) sel))
                                (dailies st)),
         Some (ManageData.deleted (List.length sel)))).
Proof.
  split; [|split].
  - intros ->. reflexivity.
  - intros H. unfold ManageData.delete_selected_daily.
    rewrite (delete_daily_rows_raises ids st H). destruct ids; [destruct H|reflexivity].
  - intros sel Hsel ->. unfold ManageData.delete_selected_daily.
    rewrite delete_daily_rows_all, length_map.
    destruct sel; [congruence|reflexivity].
Qed.

Lemma delete_selected_daily_spec_witness :
  ManageData.delete_selected_daily two_weeks_store [Some 2; Some 3]
  = (set_dailies two_weeks_store
       (filter (fun dm => negb (mem (DailyMetric.id dm) [2; 3]))
               (dailies two_weeks_store)),
     Some (ManageData.deleted 2)).
Proof.
  apply (proj2 (proj2 (delete_selected_daily_spec two_weeks_store [Some 2; Some 3]))
           [2; 3]); [discriminate|reflexivity].
Defined.

(** ** Deleting the weekly records of the selected weeks *)

Lemma NoDup_key_inj {A} (key : A -> Z) l x y :
  NoDup (map key l) -> In x l -> In y l -> key x = key y -> x = y.
Proof.
  induction l as [|a l IH]; simpl; intros Hnd Hx Hy Hk; [destruct Hx|].
  inversion Hnd as [|? ? Hna Hnd']; subst.
  destruct Hx as [->|Hx], Hy as [->|Hy]; auto.
  - exfalso. apply Hna. rewrite Hk. now apply in_map.
  - exfalso. apply Hna. rewrite <- Hk. now apply in_map.
Qed.

Lemma NoDup_map_filter {A} (key : A -> Z) (p : A -> bool) l :
  NoDup (map key l) -> NoDup (map key (filter p l)).
Proof.
  induction l as [|a l IH]; simpl; intros H; [constructor|].
  inversion H as [|? ? Hna Hnd]; subst.
  destruct (p a); simpl; auto. constructor; auto.
  intros Hin. apply Hna. apply in_map_iff in Hin. destruct Hin as (x & Hx & Hin).
  apply filter_In in Hin. apply in_map_iff. exists x. tauto.
Qed.

Lemma kept_refl {A} (key wk : A -> Z) ids l : kept key wk ids l l.
Proof.
  exists (fun _ => true). split; [|reflexivity].
  symmetry. apply filter_all. reflexivity.
Qed.

(** Deleting the first match of a query that selects rows of week [wid]
    keeps every row of another week. *)
Lemma kept_delete_first {A} (key wk : A -> Z) (q : A -> bool) wid l row :
  (forall x, q x = true -> wk x = wid) ->
  first (filter q l) = Some row ->
  kept key wk [wid] l (filter (fun m => negb (key m =? key row)) l).
Proof.
  intros Hq Hf. exists (fun m => negb (key m =? key row)). split; [reflexivity|].
  intros Hnd m Hm Hw. destruct (Z.eqb_spec (key m) (key row)) as [Hk|]; [|reflexivity].
  exfalso. apply Hw. left. symmetry.
  assert (Hrow : In row l /\ q row = true) by (apply filter_In; now apply first_In).
  rewrite (NoDup_key_inj key l m row Hnd Hm (proj1 Hrow) Hk). apply Hq, Hrow.
Qed.

Lemma kept_step {A} (key wk : A -> Z) wid ids l l1 l2 :
  kept key wk [wid] l l1 -> kept key wk ids l1 l2 -> kept key wk (wid :: ids) l l2.
Proof.
  intros (p1 & -> & H1) (p2 & -> & H2).
  exists (fun x => p1 x && p2 x). split; [apply filter_filter_and|].
  intros Hnd m Hm Hw.
  assert (Hp1 : p1 m = true).
  { apply H1; [assumption|assumption|]. intros [->|[]]. apply Hw. now left. }
  rewrite Hp1. apply H2.
  - now apply NoDup_map_filter.
  - apply filter_In. now split.
  - intros Hin. apply Hw. now right.
Qed.

Lemma kept_In {A} (key wk : A -> Z) ids l l' m :
  kept key wk ids l l' ->
  NoDup (map key l) -> In m l -> ~ In (wk m) ids -> In m l'.
Proof. intros (p & -> & H) Hnd Hm Hw. apply filter_In. auto. Qed.

Lemma kept_incl {A} (key wk : A -> Z) ids l l' :
  kept key wk ids l l' -> incl l' l.
Proof. intros (p & -> & _) m Hm. now apply filter_In in Hm. Qed.

Lemma week_query_measurement user_id wid m :
  (Measurement.user_id m =? user_id) && (Measurement.week_id m =? wid) = true ->
  Measurement.week_id m = wid.
Proof. intros H. apply andb_true_iff in H. now apply Z.eqb_eq. Qed.

Lemma week_query_wellbeing user_id wid m :
  (Wellbeing.user_id m =? user_id) && (Wellbeing.week_id m =? wid) = true ->
  Wellbeing.week_id m = wid.
Proof. intros H. apply andb_true_iff in H. now apply Z.eqb_eq. Qed.

Lemma week_query_adherence user_id wid m :
  (Adherence.user_id m =? user_id) && (Adherence.week_id m =? wid) = true ->
  Adherence.week_id m = wid.
Proof. intros H. apply andb_true_iff in H. now apply Z.eqb_eq. Qed.

Lemma delete_weekly_of_frame st user_id wid :
  let st' := ManageData.delete_weekly_of st user_id wid in
  users st' = users st /\ weeks st' = weeks st /\ dailies st' = dailies st
  /\ kept Measurement.id Measurement.week_id [wid] (measurements st) (measurements st')
  /\ kept Wellbeing.id Wellbeing.week_id [wid] (wellbeings st) (wellbeings st')
  /\ kept Adherence.id Adherence.week_id [wid] (adherences st) (adherences st').
Proof.
  cbv zeta. unfold ManageData.delete_weekly_of.
  destruct (first (filter _ (measurements st))) as [rm|] eqn:Hm;
    cbn [wellbeings set_measurements];
    destruct (first (filter _ (wellbeings st))) as [rw|] eqn:Hw;
    cbn [adherences set_wellbeings set_measurements];
    destruct (first (filter _ (adherences st))) as [ra|] eqn:Ha;
    cbn [users weeks dailies measurements wellbeings adherences
         set_adherences set_wellbeings set_measurements];
    (split; [reflexivity|]); (split; [reflexivity|]); (split; [reflexivity|]);
    (split; [|split]);
    first [ apply kept_refl
          | eapply kept_delete_first; [|eassumption];
            first [ apply week_query_measurement
                  | apply week_query_wellbeing
                  | apply week_query_adherence ] ].
Qed.

Lemma delete_weeks_fold_frame user_id ids : forall st,
  let st' := fold_left (fun st wid => ManageData.delete_weekly_of st user_id wid) ids st in
  users st' = users st /\ weeks st' = weeks st /\ dailies st' = dailies st
  /\ kept Measurement.id Measurement.week_id ids (measurements st) (measurements st')
  /\ kept Wellbeing.id Wellbeing.week_id ids (wellbeings st) (wellbeings st')
  /\ kept Adherence.id Adherence.week_id ids (adherences st) (adherences st').
Proof.
  induction ids as [|wid ids IH]; intros st; cbn [fold_left]; cbv zeta.
  - repeat split; apply kept_refl.
  - destruct (delete_weekly_of_frame st user_id wid) as (Hu & Hw & Hd & Hm & Hb & Ha).
    destruct (IH (ManageData.delete_weekly_of st user_id wid))
      as (Hu' & Hw' & Hd' & Hm' & Hb' & Ha').
    split; [congruence|]. split; [congruence|]. split; [congruence|].
    split; [|split]; eapply kept_step; eassumption.
Qed.

Lemma delete_selected_weeks_frame st ids :
  let st' := fst (ManageData.delete_selected_weeks st ids) in
  users st' = users st /\ weeks st' = weeks st /\ dailies st' = dailies st
  /\ kept Measurement.id Measurement.week_id ids (measurements st) (measurements st')
  /\ kept Wellbeing.id Wellbeing.week_id ids (wellbeings st) (wellbeings st')
  /\ kept Adherence.id Adherence.week_id ids (adherences st) (adherences st').
Proof.
  cbv zeta. unfold ManageData.delete_selected_weeks.
  destruct ids as [|wid ids]; [cbn [fst]; repeat split; apply kept_refl|].
  destruct (first (users st)) as [user|]; cbn [fst].
  - apply (delete_weeks_fold_frame (User.id user) (wid :: ids) st).
  - repeat split; apply kept_refl.
Qed.

(** X17: "Delete selected week rows (all weekly records)" removes weekly
    records only: the Week rows themselves, the DailyMetric rows and the User
    table stay as they are; no row is added or altered in the Measurement,
    Wellbeing and Adherence tables; and, the ids of a table being distinct,
    every row of a week that was not ticked is still there. *)
Theorem delete_selected_weeks_scope st ids :
  let st' := fst (ManageData.delete_selected_weeks st ids) in
  users st' = users st /\ weeks st' = weeks st /\ dailies st' = dailies st
  /\ incl (measurements st') (measurements st)
  /\ incl (wellbeings st') (wellbeings st)
  /\ incl (adherences st') (adherences st)
  /\ (NoDup (map Measurement.id (measurements st)) ->
      forall m, In m (measurements st) -> ~ In (Measurement.week_id m) ids ->
                In m (measurements st'))
  /\ (NoDup (map Wellbeing.id (wellbeings st)) ->
      forall m, In m (wellbeings st) -> ~ In (Wellbeing.week_id m) ids ->
                In m (wellbeings st'))
  /\ (NoDup (map Adherence.id (adherences st)) ->
      forall m, In m (adherences st) -> ~ In (Adherence.week_id m) ids ->
                In m (adherences st')).
Proof.
  destruct (delete_selected_weeks_frame st ids) as (Hu & Hw & Hd & Hm & Hb & Ha).
  cbv zeta. repeat (split; [assumption|]).
  split; [eapply kept_incl; eassumption|].
  split; [eapply kept_incl; eassumption|].
  split; [eapply kept_incl; eassumption|].
  split; [|split]; intros Hnd m Hin Hn; eapply kept_In; eassumption.
Qed.

Lemma delete_selected_weeks_scope_witness :
  In (Measurement.mk 2 1 2 None None (Some 39.5%float) None None None)
     (measurements (fst (ManageData.delete_selected_weeks two_weeks_store [1]))).
Proof.
  apply (proj1 (proj2 (proj2 (proj2 (proj2 (proj2 (proj2
           (delete_selected_weeks_scope two_weeks_store [1])))))))).
  - repeat constructor; simpl; intuition discriminate.
  - right. left. reflexivity.
  - simpl. intros [H|[]]. discriminate H.
Defined.

(** ** The weekly check-in *)

Lemma upsert_measurement_cases st user_id wk_id i :
  if measurement_blocked st user_id wk_id
  then DataEntry.upsert_measurement st user_id wk_id i = None
  else exists st', DataEntry.upsert_measurement st user_id wk_id i = Some st'.
Proof.
  unfold measurement_blocked, DataEntry.upsert_measurement.
  destruct (DataEntry.find_measurement st user_id wk_id); [eexists; reflexivity|].
  destruct (measurement_week_taken st wk_id); [reflexivity|eexists; reflexivity].
Qed.

Lemma upsert_wellbeing_cases st user_id wk_id i :
  if wellbeing_blocked st user_id wk_id
  then DataEntry.upsert_wellbeing st user_id wk_id i = None
  else exists st', DataEntry.upsert_wellbeing st user_id wk_id i = Some st'.
Proof.
  unfold wellbeing_blocked, DataEntry.upsert_wellbeing.
  destruct (DataEntry.find_wellbeing st user_id wk_id); [eexists; reflexivity|].
  destruct (wellbeing_week_taken st wk_id); [reflexivity|eexists; reflexivity].
Qed.

Lemma upsert_adherence_cases st user_id wk_id i :
  if adherence_blocked st user_id wk_id
  then DataEntry.upsert_adherence st user_id wk_id i = None
  else exists st', DataEntry.upsert_adherence st user_id wk_id i = Some st'.
Proof.
  unfold adherence_blocked, DataEntry.upsert_adherence.
  destruct (DataEntry.find_adherence st user_id wk_id); [eexists; reflexivity|].
  destruct (adherence_week_taken st wk_id); [reflexivity|eexists; reflexivity].
Qed.

Lemma upsert_measurement_lookup st user_id wk_id i st' :
  DataEntry.upsert_measurement st user_id wk_id i = Some st' ->
  (exists m,
      DataEntry.find_measurement st' user_id wk_id = Some m
      /\ Measurement.r_biceps_in m = Py.or_none (DataEntry.r_bi i)
      /\ Measurement.l_biceps_in m = Py.or_none (DataEntry.l_bi i)
      /\ Measurement.chest_in m = Py.or_none (DataEntry.chest i)
      /\ Measurement.r_thigh_in m = Py.or_none (DataEntry.r_th i)
      /\ Measurement.l_thigh_in m = Py.or_none (DataEntry.l_th i)
      /\ Measurement.waist_navel_in m = Py.or_none (DataEntry.waist i))
  /\ List.length (measurements st')
     = (List.length (measurements st)
        + match DataEntry.find_measurement st user_id wk_id with
          | Some _ => 0
          | None => 1
          end)%nat
  /\ users st' = users st /\ weeks st' = weeks st /\ dailies st' = dailies st
  /\ wellbeings st' = wellbeings st /\ adherences st' = adherences st.
Proof.
  unfold DataEntry.upsert_measurement.
  destruct (DataEntry.find_measurement st user_id wk_id) as [row|] eqn:Hf;
    unfold DataEntry.find_measurement in *.
  - intros [= <-]. cbn [measurements set_measurements].
    split; [|split; [now rewrite length_update_row, Nat.add_0_r|repeat split]].
    eexists. split;
      [eapply first_filter_update_row;
       [exact Hf|reflexivity|exact (first_filter_true _ _ _ Hf)]
      |repeat split; reflexivity].
  - destruct (measurement_week_taken st wk_id); [discriminate|].
    intros [= <-]. cbn [measurements set_measurements].
    split; [|split; [now rewrite length_app|repeat split]].
    eexists. split;
      [apply first_filter_app_new;
       [now apply first_None_nil|cbn; now rewrite !Z.eqb_refl]
      |repeat split; reflexivity].
Qed.

Lemma upsert_wellbeing_lookup st user_id wk_id i st' :
  DataEntry.upsert_wellbeing st user_id wk_id i = Some st' ->
  (exists wb,
      DataEntry.find_wellbeing st' user_id wk_id = Some wb
      /\ Wellbeing.sleep_issues wb = Some (DataEntry.sleep i)
      /\ Wellbeing.hunger_issues wb = Some (DataEntry.hunger i)
      /\ Wellbeing.stress_issues wb = Some (DataEntry.stress i))
  /\ List.length (wellbeings st')
     = (List.length (wellbeings st)
        + match DataEntry.find_wellbeing st user_id wk_id with
          | Some _ => 0
          | None => 1
          end)%nat
  /\ users st' = users st /\ weeks st' = weeks st /\ dailies st' = dailies st
  /\ measurements st' = measurements st /\ adherences st' = adherences st.
Proof.
  unfold DataEntry.upsert_wellbeing.
  destruct (DataEntry.find_wellbeing st user_id wk_id) as [row|] eqn:Hf;
    unfold DataEntry.find_wellbeing in *.
  - intros [= <-]. cbn [wellbeings set_wellbeings].
    split; [|split; [now rewrite length_update_row, Nat.add_0_r|repeat split]].
    eexists. split;
      [eapply first_filter_update_row;
       [exact Hf|reflexivity|exact (first_filter_true _ _ _ Hf)]
      |repeat split; reflexivity].
  - destruct (wellbeing_week_taken st wk_id); [discriminate|].
    intros [= <-]. cbn [wellbeings set_wellbeings].
    split; [|split; [now rewrite length_app|repeat split]].
    eexists. split;
      [apply first_filter_app_new;
       [now apply first_None_nil|cbn; now rewrite !Z.eqb_refl]
      |repeat split; reflexivity].
Qed.

Lemma upsert_adherence_lookup st user_id wk_id i st' :
  DataEntry.upsert_adherence st user_id wk_id i = Some st' ->
  (exists ad,
      DataEntry.find_adherence st' user_id wk_id = Some ad
      /\ Adherence.diet_score ad = Some (DataEntry.diet i)
      /\ Adherence.workout_score ad = Some (DataEntry.workout i))
  /\ List.length (adherences st')
     = (List.length (adherences st)
        + match DataEntry.find_adherence st user_id wk_id with
          | Some _ => 0
          | None => 1
          end)%nat
  /\ users st' = users st /\ weeks st' = weeks st /\ dailies st' = dailies st
  /\ measurements st' = measurements st /\ wellbeings st' = wellbeings st.
Proof.
  unfold DataEntry.upsert_adherence.
  destruct (DataEntry.find_adherence st user_id wk_id) as [row|] eqn:Hf;
    unfold DataEntry.find_adherence in *.
  - intros [= <-]. cbn [adherences set_adherences].
    split; [|split; [now rewrite length_update_row, Nat.add_0_r|repeat split]].
    eexists. split;
      [eapply first_filter_update_row;
       [exact Hf|reflexivity|exact (first_filter_true _ _ _ Hf)]
      |repeat split; reflexivity].
  - destruct (adherence_week_taken st wk_id); [discriminate|].
    intros [= <-]. cbn [adherences set_adherences].
    split; [|split; [now rewrite length_app|repeat split]].
    eexists. split;
      [apply first_filter_app_new;
       [now apply first_None_nil|cbn; now rewrite !Z.eqb_refl]
      |repeat split; reflexivity].
Qed.

Lemma wellbeing_blocked_ext a b user_id wk_id :
  wellbeings a = wellbeings b ->
  wellbeing_blocked a user_id wk_id = wellbeing_blocked b user_id wk_id.
Proof.
  intros E. unfold wellbeing_blocked, DataEntry.find_wellbeing, wellbeing_week_taken.
  now rewrite E.
Qed.

Lemma adherence_blocked_ext a b user_id wk_id :
  adherences a = adherences b ->
  adherence_blocked a user_id wk_id = adherence_blocked b user_id wk_id.
Proof.
  intros E. unfold adherence_blocked, DataEntry.find_adherence, adherence_week_taken.
  now rewrite E.
Qed.

Lemma measurement_blocked_ext a b user_id wk_id :
  measurements a = measurements b ->
  measurement_blocked a user_id wk_id = measurement_blocked b user_id wk_id.
Proof.
  intros E.
  unfold measurement_blocked, DataEntry.find_measurement, measurement_week_taken.
  now rewrite E.
Qed.

Lemma checkin_rows_blocked st user_id wk_id i :
  checkin_blocked st user_id wk_id = true ->
  DataEntry.checkin_rows st user_id wk_id i = None.
Proof.
  unfold checkin_blocked, DataEntry.checkin_rows. intros H.
  pose proof (upsert_measurement_cases st user_id wk_id i) as Hm.
  destruct (measurement_blocked st user_id wk_id); [now rewrite Hm|].
  destruct Hm as (st2 & Hm). rewrite Hm.
  destruct (upsert_measurement_lookup _ _ _ _ _ Hm) as (_ & _ & _ & _ & _ & Eb & Ea).
  pose proof (upsert_wellbeing_cases st2 user_id wk_id i) as Hb.
  rewrite (wellbeing_blocked_ext st2 st) in Hb by exact Eb.
  destruct (wellbeing_blocked st user_id wk_id); [now rewrite Hb|].
  destruct Hb as (st3 & Hb). rewrite Hb.
  destruct (upsert_wellbeing_lookup _ _ _ _ _ Hb) as (_ & _ & _ & _ & _ & _ & Ea').
  pose proof (upsert_adherence_cases st3 user_id wk_id i) as Ha.
  rewrite (adherence_blocked_ext st3 st) in Ha by congruence.
  destruct (adherence_blocked st user_id wk_id); [exact Ha|discriminate H].
Qed.

Lemma checkin_rows_saved st user_id wk_id i :
  checkin_blocked st user_id wk_id = false ->
  exists st',
    DataEntry.checkin_rows st user_id wk_id i = Some st'
    /\ (exists m,
           DataEntry.find_measurement st' user_id wk_id = Some m
           /\ Measurement.r_biceps_in m = Py.or_none (DataEntry.r_bi i)
           /\ Measurement.l_biceps_in m = Py.or_none (DataEntry.l_bi i)
           /\ Measurement.chest_in m = Py.or_none (DataEntry.chest i)
           /\ Measurement.r_thigh_in m = Py.or_none (DataEntry.r_th i)
           /\ Measurement.l_thigh_in m = Py.or_none (DataEntry.l_th i)
           /\ Measurement.waist_navel_in m = Py.or_none (DataEntry.waist i))
    /\ (exists wb,
           DataEntry.find_wellbeing st' user_id wk_id = Some wb
           /\ Wellbeing.sleep_issues wb = Some (DataEntry.sleep i)
           /\ Wellbeing.hunger_issues wb = Some (DataEntry.hunger i)
           /\ Wellbeing.stress_issues wb = Some (DataEntry.stress i))
    /\ (exists ad,
           DataEntry.find_adherence st' user_id wk_id = Some ad
           /\ Adherence.diet_score ad = Some (DataEntry.diet i)
           /\ Adherence.workout_score ad = Some (DataEntry.workout i))
    /\ List.length (measurements st')
       = (List.length (measurements st)
          + match DataEntry.find_measurement st user_id wk_id with
            | Some _ => 0
            | None => 1
            end)%nat
    /\ List.length (wellbeings st')
       = (List.length (wellbeings st)
          + match DataEntry.find_wellbeing st user_id wk_id with
            | Some _ => 0
            | None => 1
            end)%nat
    /\ List.length (adherences st')
       = (List.length (adherences st)
          + match DataEntry.find_adherence st user_id wk_id with
            | Some _ => 0
            | None => 1
            end)%nat
    /\ users st' = users st /\ weeks st' = weeks st /\ dailies st' = dailies st.
Proof.
  unfold checkin_blocked, DataEntry.checkin_rows. intros H.
  apply orb_false_iff in H. destruct H as (H & Hba).
  apply orb_false_iff in H. destruct H as (Hbm & Hbb).
  pose proof (upsert_measurement_cases st user_id wk_id i) as Hm.
  rewrite Hbm in Hm. destruct Hm as (st2 & Hm). rewrite Hm.
  destruct (upsert_measurement_lookup _ _ _ _ _ Hm)
    as (Lm & Nm & H2u & H2w & H2d & H2b & H2a).
  pose proof (upsert_wellbeing_cases st2 user_id wk_id i) as Hb.
  rewrite (wellbeing_blocked_ext st2 st), Hbb in Hb by exact H2b.
  destruct Hb as (st3 & Hb). rewrite Hb.
  destruct (upsert_wellbeing_lookup _ _ _ _ _ Hb)
    as (Lb & Nb & H3u & H3w & H3d & H3m & H3a).
  pose proof (upsert_adherence_cases st3 user_id wk_id i) as Ha.
  rewrite (adherence_blocked_ext st3 st), Hba in Ha by congruence.
  destruct Ha as (st4 & Ha).
  destruct (upsert_adherence_lookup _ _ _ _ _ Ha)
    as (La & Na & H4u & H4w & H4d & H4m & H4b).
  exists st4. split; [exact Ha|].
  assert (Fm : forall a b, measurements a = measurements b ->
                           DataEntry.find_measurement a user_id wk_id
                           = DataEntry.find_measurement b user_id wk_id)
    by (intros a b E; unfold DataEntry.find_measurement; now rewrite E).
  assert (Fb : forall a b, wellbeings a = wellbeings b ->
                           DataEntry.find_wellbeing a user_id wk_id
                           = DataEntry.find_wellbeing b user_id wk_id)
    by (intros a b E; unfold DataEntry.find_wellbeing; now rewrite E).
  assert (Fa : forall a b, adherences a = adherences b ->
                           DataEntry.find_adherence a user_id wk_id
                           = DataEntry.find_adherence b user_id wk_id)
    by (intros a b E; unfold DataEntry.find_adherence; now rewrite E).
  split; [rewrite (Fm st4 st2) by congruence; exact Lm|].
  split; [rewrite (Fb st4 st3) by congruence; exact Lb|].
  split; [exact La|].
  split; [congruence|].
  split; [rewrite <- (Fb st2 st) by congruence; rewrite <- H2b, <- Nb; congruence|].
  split; [rewrite <- (Fa st3 st) by congruence;
          rewrite <- H2a, <- H3a, <- Na; reflexivity|].
  repeat split; congruence.
Qed.

Lemma get_or_create_week_weekly st user_id d :
  let st1 := snd (DataEntry.get_or_create_week st user_id d) in
  users st1 = users st /\ dailies st1 = dailies st
  /\ measurements st1 = measurements st /\ wellbeings st1 = wellbeings st
  /\ adherences st1 = adherences st.
Proof.
  cbv zeta. unfold DataEntry.get_or_create_week.
  destruct (first (filter _ (weeks st))); repeat split.
Qed.

Lemma checkin_blocked_ext a b user_id wk_id :
  measurements a = measurements b -> wellbeings a = wellbeings b ->
  adherences a = adherences b ->
  checkin_blocked a user_id wk_id = checkin_blocked b user_id wk_id.
Proof.
  intros Em Eb Ea. unfold checkin_blocked.
  now rewrite (measurement_blocked_ext a b), (wellbeing_blocked_ext a b),
    (adherence_blocked_ext a b).
Qed.

(** X18: "Save weekly check-in" fails (user.id on None) when the User table
    is empty.  Otherwise the Week of the chosen date is resolved when the tab
    is drawn, and the save depends on the UNIQUE constraint of [week_id]:
    when, in one of the three weekly tables, the user has no row for that
    week and a row of another user holds it, the save raises IntegrityError
    and writes nothing beyond the resolved Week.  In every other case it is
    committed: the lookups of the user's Measurement, Wellbeing and Adherence
    of that week afterwards return rows holding the submitted values, a
    measurement input of 0 being stored as absent; each of the three tables
    grows by one row when the user had none for that week and keeps its
    length otherwise; the User and DailyMetric tables stay as they are, and
    the Week table is as the resolution left it. *)
Theorem save_weekly_checkin_upserts st wd i :
  (users st = [] -> DataEntry.save_weekly_checkin st wd i = None)
  /\ forall user, first (users st) = Some user ->
     let uid := User.id user in
     let wk := fst (DataEntry.get_or_create_week st uid wd) in
     let st1 := snd (DataEntry.get_or_create_week st uid wd) in
     (checkin_blocked st uid (Week.id wk) = true ->
      DataEntry.save_weekly_checkin st wd i = Some (st1, false))
     /\ (checkin_blocked st uid (Week.id wk) = false ->
         exists st',
           DataEntry.save_weekly_checkin st wd i = Some (st', true)
           /\ (exists m,
                  DataEntry.find_measurement st' uid (Week.id wk) = Some m
                  /\ Measurement.r_biceps_in m = Py.or_none (DataEntry.r_bi i)
                  /\ Measurement.l_biceps_in m = Py.or_none (DataEntry.l_bi i)
                  /\ Measurement.chest_in m = Py.or_none (DataEntry.chest i)
                  /\ Measurement.r_thigh_in m = Py.or_none (DataEntry.r_th i)
                  /\ Measurement.l_thigh_in m = Py.or_none (DataEntry.l_th i)
                  /\ Measurement.waist_navel_in m = Py.or_none (DataEntry.waist i))
           /\ (exists wb,
                  DataEntry.find_wellbeing st' uid (Week.id wk) = Some wb
                  /\ Wellbeing.sleep_issues wb = Some (DataEntry.sleep i)
                  /\ Wellbeing.hunger_issues wb = Some (DataEntry.hunger i)
                  /\ Wellbeing.stress_issues wb = Some (DataEntry.stress i))
           /\ (exists ad,
                  DataEntry.find_adherence st' uid (Week.id wk) = Some ad
                  /\ Adherence.diet_score ad = Some (DataEntry.diet i)
                  /\ Adherence.workout_score ad = Some (DataEntry.workout i))
           /\ List.length (measurements st')
              = (List.length (measurements st)
                 + match DataEntry.find_measurement st uid (Week.id wk) with
                   | Some _ => 0
                   | None => 1
                   end)%nat
           /\ List.length (wellbeings st')
              = (List.length (wellbeings st)
                 + match DataEntry.find_wellbeing st uid (Week.id wk) with
                   | Some _ => 0
                   | None => 1
                   end)%nat
           /\ List.length (adherences st')
              = (List.length (adherences st)
                 + match DataEntry.find_adherence st uid (Week.id wk) with
                   | Some _ => 0
                   | None => 1
                   end)%nat
           /\ users st' = users st /\ weeks st' = weeks st1
           /\ dailies st' = dailies st).
Proof.
  split.
  - intros H. unfold DataEntry.save_weekly_checkin. now rewrite H.
  - intros user Hu. cbv zeta. unfold DataEntry.save_weekly_checkin. rewrite Hu.
    destruct (get_or_create_week_weekly st (User.id user) wd)
      as (H1u & H1d & H1m & H1b & H1a).
    destruct (DataEntry.get_or_create_week st (User.id user) wd) as [wk st1].
    cbn [fst snd] in *.
    set (uid := User.id user) in *. set (wid := Week.id wk).
    rewrite <- (checkin_blocked_ext st1 st uid wid H1m H1b H1a).
    split; intros Hb.
    + now rewrite (checkin_rows_blocked _ _ _ i Hb).
    + destruct (checkin_rows_saved _ _ _ i Hb)
        as (st' & -> & Lm & Lb & La & Nm & Nb & Na & Hu' & Hw' & Hd').
      exists st'. split; [reflexivity|].
      unfold DataEntry.find_measurement, DataEntry.find_wellbeing,
        DataEntry.find_adherence in Nm, Nb, Na.
      rewrite H1m in Nm. rewrite H1b in Nb. rewrite H1a in Na.
      repeat (split; [assumption|]).
      repeat split; congruence.
Qed.

Lemma save_weekly_checkin_upserts_witness :
  DataEntry.save_weekly_checkin empty_store monday_2025_01_06
    (DataEntry.mkWeeklyInputs 0 0 41 0 0 36 1 2 1 9 8)
  = None
  /\ DataEntry.save_weekly_checkin week_held_store monday_2025_01_06
       (DataEntry.mkWeeklyInputs 0 0 41 0 0 36 1 2 1 9 8)
     = Some (week_held_store, false)
  /\ exists st',
      DataEntry.save_weekly_checkin fresh_store monday_2025_01_06
        (DataEntry.mkWeeklyInputs 0 0 41 0 0 36 1 2 1 9 8)
      = Some (st', true)
      /\ List.length (measurements st') = 1%nat.
Proof.
  split; [|split].
  - apply (proj1 (save_weekly_checkin_upserts empty_store monday_2025_01_06
                    (DataEntry.mkWeeklyInputs 0 0 41 0 0 36 1 2 1 9 8))).
    reflexivity.
  - apply (proj1 (proj2 (save_weekly_checkin_upserts week_held_store monday_2025_01_06
                           (DataEntry.mkWeeklyInputs 0 0 41 0 0 36 1 2 1 9 8))
                        (User.mk 1 "You" None None None "metric") eq_refl)).
    reflexivity.
  - destruct (proj2 (proj2 (save_weekly_checkin_upserts fresh_store monday_2025_01_06
                              (DataEntry.mkWeeklyInputs 0 0 41 0 0 36 1 2 1 9 8))
                           (User.mk 1 "You" None None None "metric") eq_refl)
                    eq_refl)
      as (st' & H & _ & _ & _ & Hm & _).
    exists st'. split; [exact H|exact Hm].
Defined.

(** ** The profile form of the home screen *)

(** X19: a run of the home screen with "Save profile" submitted never adds a
    second user: the first User row (created with id 1 when the table was
    empty) is rewritten with the submitted name and units, a height or goal
    weight of 0 being stored as absent and the email kept; the rows after it
    and every other table stay as they are. *)
Theorem home_save_profile_first_user st name height goal units :
  let st' := App.home_save_profile st name height goal units in
  users st'
  = User.mk (match first (users st) with Some u => User.id u | None => 1 end)
            name
            (match first (users st) with Some u => User.email u | None => None end)
            (Py.or_none height) (Py.or_none goal) units
    :: tl (users st)
  /\ List.length (users st') = Nat.max 1 (List.length (users st))
  /\ weeks st' = weeks st /\ dailies st' = dailies st
  /\ measurements st' = measurements st /\ wellbeings st' = wellbeings st
  /\ adherences st' = adherences st.
Proof.
  cbv zeta. unfold App.home_save_profile, App.bootstrap_user, App.save_profile.
  destruct (users st) as [|u rest] eqn:Hu; cbn [first hd_error tl].
  - cbn. repeat split.
  - cbn [users set_users weeks dailies measurements wellbeings adherences].
    rewrite Hu. cbn [update_row User.id]. rewrite Z.eqb_refl. repeat split.
Qed.

(** ** The emoji of the dashboard *)

(** X20: [issue_emoji] never fails with an IndexError, whatever number it is
    given: a value that [int] rejects (missing, NaN, infinite) gives the
    dash, an integer part of 0 or less the first face, of 5 or more the last
    face, and one from 0 to 5 the face at that index. *)
Theorem issue_emoji_clamps v :
  Dashboard.issue_emoji v <> None
  /\ (Py.int v = None -> Dashboard.issue_emoji v = Some "—")
  /\ (forall n, Py.int v = Some n -> n <= 0 ->
                Dashboard.issue_emoji v = Some "😄")
  /\ (forall n, Py.int v = Some n -> 5 <= n ->
                Dashboard.issue_emoji v = Some "😫")
  /\ (forall n, Py.int v = Some n -> 0 <= n <= 5 ->
                Dashboard.issue_emoji v = nth_error Dashboard.faces (Z.to_nat n)).
Proof.
  unfold Dashboard.issue_emoji. destruct (Py.int v) as [n|].
  - split; [|split; [discriminate|split; [|split]]].
    + apply nth_error_Some. change (List.length Dashboard.faces) with 6%nat. lia.
    + intros n' [= <-] H. replace (Z.max 0 (Z.min 5 n)) with 0 by lia. reflexivity.
    + intros n' [= <-] H. replace (Z.max 0 (Z.min 5 n)) with 5 by lia. reflexivity.
    + intros n' [= <-] H. replace (Z.max 0 (Z.min 5 n)) with n by lia. reflexivity.
  - split; [discriminate|]. split; [reflexivity|].
    repeat split; intros; discriminate.
Qed.

Lemma issue_emoji_clamps_witness :
  Dashboard.issue_emoji (Py.SFloat 7.9%float) = Some "😫"
  /\ Dashboard.issue_emoji (Py.SFloat nan) = Some "—".
Proof.
  split.
  - apply (proj1 (proj2 (proj2 (proj2 (issue_emoji_clamps (Py.SFloat 7.9%float))))) 7);
      [reflexivity|lia].
  - apply (proj1 (proj2 (issue_emoji_clamps (Py.SFloat nan)))). reflexivity.
Defined.

(** ** [_ensure_weekly_cols] applied twice *)

Lemma ensure_fold_id cs : forall df,
  (forall c, In c cs -> Utils.has_col df c = true) ->
  fold_left (fun df c => if negb (Utils.has_col df c)
                         then Utils.assign_scalar df c Utils.NA else df) cs df
  = df.
Proof.
  induction cs as [|c cs IH]; intros df H; simpl; [reflexivity|].
  rewrite (H c (or_introl eq_refl)). simpl. apply IH. auto using in_cons.
Qed.

Lemma ensure_fold_rows cs : forall df,
  List.length (Utils.rows
                 (fold_left (fun df c => if negb (Utils.has_col df c)
                                         then Utils.assign_scalar df c Utils.NA else df)
                            cs df))
  = List.length (Utils.rows df).
Proof.
  induction cs as [|c cs IH]; intros df; simpl; [reflexivity|].
  rewrite IH. destruct (Utils.has_col df c); simpl; [reflexivity|apply length_map].
Qed.

Lemma empty_false df c :
  Utils.has_col df c = true -> Utils.rows df <> [] -> Utils.empty df = false.
Proof.
  unfold Utils.has_col, Utils.empty. intros Hc Hr.
  destruct (Utils.columns df); [discriminate|].
  destruct (Utils.rows df); [congruence|reflexivity].
Qed.

Lemma rows_of_nonempty df : Utils.empty df = false -> Utils.rows df <> [].
Proof.
  unfold Utils.empty. destruct (Utils.columns df); [discriminate|].
  destruct (Utils.rows df); [discriminate|discriminate].
Qed.

(** X21: [_ensure_weekly_cols] is idempotent: applied to its own result it
    changes nothing.  On a frame that is not empty it keeps the number of
    rows, and every column the frame already had is still there with the
    same values. *)
Theorem ensure_weekly_cols_idempotent df :
  Utils._ensure_weekly_cols (Utils._ensure_weekly_cols df) = Utils._ensure_weekly_cols df
  /\ (Utils.empty df = false ->
      List.length (Utils.rows (Utils._ensure_weekly_cols df))
      = List.length (Utils.rows df)
      /\ forall c, Utils.has_col df c = true ->
                   Utils.has_col (Utils._ensure_weekly_cols df) c = true
                   /\ Utils.column (Utils._ensure_weekly_cols df) c = Utils.column df c).
Proof.
  split; [|intros He0; split].
  - destruct (Utils.empty df) eqn:He.
    + rewrite (ensure_empty_frame _ He). now apply ensure_empty_frame.
    + rewrite (ensure_nonempty_frame _ He).
      set (out := fold_left _ Utils.REQUIRED_WEEKLY_COLS df).
      assert (Hhas : forall c, In c Utils.REQUIRED_WEEKLY_COLS ->
                               Utils.has_col out c = true).
      { intros c Hc. apply ensure_fold_has. now left. }
      assert (Hout : Utils.empty out = false).
      { apply (empty_false out "week_id").
        - apply Hhas. left. reflexivity.
        - intros Hr. apply (rows_of_nonempty _ He).
          apply length_zero_iff_nil. rewrite <- (ensure_fold_rows Utils.REQUIRED_WEEKLY_COLS df).
          fold out. now rewrite Hr. }
      rewrite (ensure_nonempty_frame _ Hout). now apply ensure_fold_id.
  - rewrite (ensure_nonempty_frame _ He0). apply ensure_fold_rows.
  - intros c Hc. split; [|now apply ensure_column].
    rewrite (ensure_nonempty_frame _ He0). apply ensure_fold_has. now right.
Qed.

Lemma ensure_weekly_cols_idempotent_witness :
  List.length (Utils.rows (Utils._ensure_weekly_cols
                             (Utils.load_daily_df two_weeks_store 1)))
  = 4%nat.
Proof.
  apply (proj2 (ensure_weekly_cols_idempotent
                  (Utils.load_daily_df two_weeks_store 1))).
  reflexivity.
Defined.

(** ** Saving the weekly grid *)

Lemma map_update_row_found {A B} (key : A -> Z) (f : A -> B) k r l x :
  find (fun y => key y =? k) l = Some x -> key r = k -> f r = f x ->
  map f (update_row key r l) = map f l.
Proof.
  intros Hf Hk Hfx. induction l as [|y l IH]; simpl in *; [reflexivity|].
  rewrite Hk. destruct (key y =? k) eqn:Hy.
  - injection Hf as ->. simpl. now rewrite Hfx.
  - simpl. now rewrite IH.
Qed.

Lemma set_week_start_frame st r :
  let st' := ManageData.set_week_start st r in
  map Week.id (weeks st') = map Week.id (weeks st)
  /\ map Week.user_id (weeks st') = map Week.user_id (weeks st)
  /\ map Week.week_number (weeks st') = map Week.week_number (weeks st)
  /\ users st' = users st /\ dailies st' = dailies st.
Proof.
  cbv zeta. unfold ManageData.set_week_start.
  destruct (find _ (weeks st)) as [wk|] eqn:Hf; [|repeat split].
  cbn [weeks users dailies set_weeks].
  assert (Hid : Week.id wk = ManageData.ew_week_id r).
  { apply find_some in Hf. now apply Z.eqb_eq. }
  repeat split;
    apply (map_update_row_found Week.id _ (ManageData.ew_week_id r) _ _ wk Hf);
    first [exact Hid|reflexivity].
Qed.

Lemma upsert_measurement_frame st user_id cols r st' :
  ManageData.upsert_measurement st user_id cols r = Some st' ->
  weeks st' = weeks st /\ users st' = users st /\ dailies st' = dailies st.
Proof.
  unfold ManageData.upsert_measurement.
  destruct (first (filter _ (measurements st))); [intros [= <-]; repeat split|].
  destruct (measurement_week_taken st _); [discriminate|].
  intros [= <-]; repeat split.
Qed.

Lemma upsert_wellbeing_frame st user_id cols r st' :
  ManageData.upsert_wellbeing st user_id cols r = Some st' ->
  weeks st' = weeks st /\ users st' = users st /\ dailies st' = dailies st.
Proof.
  unfold ManageData.upsert_wellbeing.
  destruct (first (filter _ (wellbeings st))); [intros [= <-]; repeat split|].
  destruct (wellbeing_week_taken st _); [discriminate|].
  intros [= <-]; repeat split.
Qed.

Lemma upsert_adherence_frame st user_id cols r st' :
  ManageData.upsert_adherence st user_id cols r = Some st' ->
  weeks st' = weeks st /\ users st' = users st /\ dailies st' = dailies st.
Proof.
  unfold ManageData.upsert_adherence.
  destruct (first (filter _ (adherences st))); [intros [= <-]; repeat split|].
  destruct (adherence_week_taken st _); [discriminate|].
  intros [= <-]; repeat split.
Qed.

Lemma save_weekly_row_frame st user_id m_cols wb_cols ad_cols r st' :
  ManageData.save_weekly_row st user_id m_cols wb_cols ad_cols r = Some st' ->
  map Week.id (weeks st') = map Week.id (weeks st)
  /\ map Week.user_id (weeks st') = map Week.user_id (weeks st)
  /\ map Week.week_number (weeks st') = map Week.week_number (weeks st)
  /\ users st' = users st /\ dailies st' = dailies st.
Proof.
  unfold ManageData.save_weekly_row.
  destruct (set_week_start_frame st r) as (S1 & S2 & S3 & S4 & S5).
  destruct (ManageData.upsert_measurement _ user_id m_cols r) as [st2|] eqn:E2;
    [|discriminate].
  destruct (upsert_measurement_frame _ _ _ _ _ E2) as (W2 & U2 & D2).
  destruct (ManageData.upsert_wellbeing st2 user_id wb_cols r) as [st3|] eqn:E3;
    [|discriminate].
  destruct (upsert_wellbeing_frame _ _ _ _ _ E3) as (W3 & U3 & D3).
  intros E4. destruct (upsert_adherence_frame _ _ _ _ _ E4) as (W4 & U4 & D4).
  rewrite W4, W3, W2, U4, U3, U2, D4, D3, D2. auto.
Qed.

Lemma save_weekly_rows_frame user_id m_cols wb_cols ad_cols edited : forall st st',
  ManageData.save_weekly_rows st user_id m_cols wb_cols ad_cols edited = Some st' ->
  map Week.id (weeks st') = map Week.id (weeks st)
  /\ map Week.user_id (weeks st') = map Week.user_id (weeks st)
  /\ map Week.week_number (weeks st') = map Week.week_number (weeks st)
  /\ users st' = users st /\ dailies st' = dailies st.
Proof.
  induction edited as [|r edited IH]; intros st st'; cbn [ManageData.save_weekly_rows].
  - intros [= <-]. repeat split.
  - destruct (ManageData.save_weekly_row st user_id m_cols wb_cols ad_cols r)
      as [st1|] eqn:E1; [|discriminate].
    intros E. destruct (IH _ _ E) as (H1 & H2 & H3 & H4 & H5).
    destruct (save_weekly_row_frame _ _ _ _ _ _ _ E1) as (R1 & R2 & R3 & R4 & R5).
    repeat split; congruence.
Qed.

(** X22: "Save weekly changes" never adds or removes a Week row, and the
    id, the owner and the week number of every Week row stay as they are:
    the only field of a Week the weekly grid writes is its start date.  The
    User and DailyMetric tables are not touched. *)
Theorem save_weekly_changes_keeps_weeks st m_cols wb_cols ad_cols edited :
  let st' := ManageData.save_weekly_changes st m_cols wb_cols ad_cols edited in
  map Week.id (weeks st') = map Week.id (weeks st)
  /\ map Week.user_id (weeks st') = map Week.user_id (weeks st)
  /\ map Week.week_number (weeks st') = map Week.week_number (weeks st)
  /\ List.length (weeks st') = List.length (weeks st)
  /\ users st' = users st /\ dailies st' = dailies st.
Proof.
  cbv zeta. unfold ManageData.save_weekly_changes.
  destruct (first (users st)) as [user|]; [|repeat split].
  destruct (ManageData.save_weekly_rows st (User.id user) m_cols wb_cols ad_cols edited)
    as [st'|] eqn:E; [|repeat split].
  destruct (save_weekly_rows_frame _ _ _ _ _ _ _ E) as (H1 & H2 & H3 & H4 & H5).
  repeat split; try assumption.
  rewrite <- (length_map Week.id (weeks st)), <- H1. symmetry. apply length_map.
Qed.

(** ** One row per week in the weekly frame *)

Lemma key_eqb_eq a b : Utils.key_eqb a b = true <-> a = b.
Proof.
  destruct a, b; simpl; try (split; congruence).
  rewrite Z.eqb_eq. split; congruence.
Qed.

Lemma length_insert_by c r l :
  List.length (Utils.insert_by c r l) = S (List.length l).
Proof.
  induction l as [|x l IH]; simpl; [reflexivity|].
  destruct (Utils.key_leb _ _); simpl; [reflexivity|now rewrite IH].
Qed.

Lemma length_rows_sort_values df c :
  List.length (Utils.rows (Utils.sort_values df c)) = List.length (Utils.rows df).
Proof.
  unfold Utils.sort_values; cbn [Utils.rows].
  induction (Utils.rows df) as [|r l IH]; simpl; [reflexivity|].
  now rewrite length_insert_by, IH.
Qed.

Lemma length_rows_assign df c vals :
  List.length vals = List.length (Utils.rows df) ->
  List.length (Utils.rows (Utils.assign df c vals)) = List.length (Utils.rows df).
Proof.
  intros H. unfold Utils.assign; cbn [Utils.rows].
  rewrite length_map, length_combine, H. apply Nat.min_id.
Qed.

Lemma length_rows_ensure df c :
  Utils.has_col df c = true ->
  List.length (Utils.rows (Utils._ensure_weekly_cols df)) = List.length (Utils.rows df).
Proof.
  intros H. destruct (Utils.empty df) eqn:He.
  - rewrite (ensure_empty_frame _ He), (empty_has_col_rows _ _ He H). reflexivity.
  - rewrite (ensure_nonempty_frame _ He). apply ensure_fold_rows.
Qed.

(** A left merge against a frame whose keys are distinct gives one row per
    left row. *)
Lemma length_merge_left l r left_on right_on :
  (forall k, (List.length (filter (fun rr => Utils.key_eqb k (Utils.key_of (Utils.get rr right_on)))
                                  (Utils.rows r)) <= 1)%nat) ->
  List.length (Utils.rows (Utils.merge_left l r left_on right_on))
  = List.length (Utils.rows l).
Proof.
  intros H. unfold Utils.merge_left; cbn [Utils.rows].
  induction (Utils.rows l) as [|lr ls IH]; cbn [flat_map List.length]; [reflexivity|].
  rewrite length_app, IH. f_equal.
  specialize (H (Utils.key_of (Utils.get lr left_on))).
  destruct (filter _ (Utils.rows r)) as [|x [|y ms]]; simpl in *;
    [reflexivity|reflexivity|lia].
Qed.

Lemma In_keep_last c l r : In r (Utils.keep_last c l) -> In r l.
Proof.
  induction l as [|x l IH]; simpl; [tauto|].
  destruct (existsb _ l); simpl; intuition.
Qed.

Lemma keep_last_unique c l k :
  (List.length (filter (fun rr => Utils.key_eqb k (Utils.key_of (Utils.get rr c)))
                       (Utils.keep_last c l)) <= 1)%nat.
Proof.
  induction l as [|r l IH]; simpl; [lia|].
  destruct (existsb _ l) eqn:He; [exact IH|]. simpl.
  destruct (Utils.key_eqb k (Utils.key_of (Utils.get r c))) eqn:Hk; [|exact IH].
  simpl. rewrite filter_none; [simpl; lia|].
  intros x Hx. apply In_keep_last in Hx.
  destruct (Utils.key_eqb k (Utils.key_of (Utils.get x c))) eqn:Hx'; [|reflexivity].
  apply key_eqb_eq in Hk, Hx'.
  assert (Ht : existsb (fun r' => Utils.key_eqb (Utils.key_of (Utils.get r' c))
                                                (Utils.key_of (Utils.get r c))) l = true).
  { apply existsb_exists. exists x. split; [assumption|].
    apply key_eqb_eq. congruence. }
  congruence.
Qed.

Lemma get_drop cols c r :
  Utils.in_cols c cols = false ->
  Utils.get (filter (fun kv => negb (Utils.in_cols (fst kv) cols)) r) c = Utils.get r c.
Proof.
  intros H. induction r as [|[k v] r IH]; simpl; [reflexivity|].
  destruct (Utils.in_cols k cols) eqn:Hk; simpl.
  - destruct (String.eqb_spec k c) as [->|_]; [congruence|exact IH].
  - destruct (String.eqb k c); [reflexivity|exact IH].
Qed.

Lemma length_filter_map {A B} (g : A -> B) (p : B -> bool) l :
  List.length (filter p (map g l)) = List.length (filter (fun x => p (g x)) l).
Proof.
  induction l as [|x l IH]; simpl; [reflexivity|].
  destruct (p (g x)); simpl; now rewrite IH.
Qed.

Lemma length_merge_weekly out frame :
  List.length (Utils.rows (Utils.merge_weekly out frame)) = List.length (Utils.rows out).
Proof.
  unfold Utils.merge_weekly. destruct (negb (Utils.empty frame)); [|reflexivity].
  apply length_merge_left. intros k. unfold Utils.drop; cbn [Utils.rows].
  rewrite length_filter_map.
  erewrite filter_ext; [apply (keep_last_unique "week_id" _ k)|].
  intros rr. cbv beta. now rewrite get_drop by reflexivity.
Qed.

Lemma NoDup_key_filter_le1 {A} (key : A -> Z) l k :
  NoDup (map key l) ->
  (List.length (filter (fun x => Utils.key_eqb k (Some (key x))) l) <= 1)%nat.
Proof.
  induction l as [|a l IH]; simpl; intros H; [lia|].
  inversion H as [|? ? Hn Hnd]; subst. specialize (IH Hnd).
  destruct (Utils.key_eqb k (Some (key a))) eqn:Hk; [|exact IH]. simpl.
  rewrite filter_none; [simpl; lia|].
  intros x Hx. destruct (Utils.key_eqb k (Some (key x))) eqn:Hx'; [|reflexivity].
  apply key_eqb_eq in Hk, Hx'. exfalso. apply Hn.
  assert (Heq : key a = key x) by congruence.
  rewrite Heq. now apply in_map.
Qed.

(** X23: the weekly frame has exactly one row per distinct [week_id] value
    of the user's daily rows, a missing week id counting as one value: the
    joins with the Week table and with the check-in tables neither repeat a
    week nor lose one, given that the Week ids are distinct. *)
Theorem load_weekly_df_one_row_per_week st user_id :
  NoDup (map Week.id (weeks st)) ->
  List.length (Utils.rows (Utils.load_weekly_df st user_id))
  = List.length
      (Utils.group_keys
         (map DailyMetric.week_id
              (filter (fun r => DailyMetric.user_id r =? user_id) (dailies st)))).
Proof.
  intros Hnd.
  assert (Hkeys : map Utils.key_of
                      (Utils.column (Utils.load_daily_df st user_id) "week_id")
                  = map DailyMetric.week_id
                        (filter (fun r => DailyMetric.user_id r =? user_id) (dailies st))).
  { unfold Utils.column, Utils.load_daily_df; cbn [Utils.rows].
    rewrite !map_map. apply map_ext. intros r. cbn.
    destruct (DailyMetric.week_id r); reflexivity. }
  unfold Utils.load_weekly_df.
  destruct (Utils.empty (Utils.load_daily_df st user_id)) eqn:He.
  - rewrite ensure_empty_frame by reflexivity. cbn [Utils.rows].
    unfold Utils.load_daily_df, Utils.empty in He; cbn in He.
    destruct (filter _ (dailies st)); [reflexivity|discriminate].
  - change (Utils.has_col (Utils.load_daily_df st user_id) "week_id") with true.
    cbv beta iota zeta. cbn [negb]. rewrite <- Hkeys.
    match goal with
    | |- context [fold_left Utils.merge_weekly _ ?o] => set (out0 := o)
    end.
    assert (H0 : List.length (Utils.rows out0)
                 = List.length
                     (Utils.group_keys
                        (map Utils.key_of
                             (Utils.column (Utils.load_daily_df st user_id) "week_id")))).
    { unfold out0. destruct (negb (Utils.empty _)).
      - unfold Utils.drop; cbn [Utils.rows]. rewrite length_map.
        rewrite length_merge_left.
        + unfold Utils.weekly_means; cbn [Utils.rows]. apply length_map.
        + intros k. unfold Utils.select; cbn [Utils.rows].
          rewrite map_map, length_filter_map.
          apply (NoDup_key_filter_le1 Week.id _ k).
          now apply NoDup_map_filter.
      - unfold Utils.assign_scalar, Utils.weekly_means; cbn [Utils.rows].
        now rewrite !length_map. }
    set (out1 := fold_left Utils.merge_weekly _ out0).
    assert (H1 : List.length (Utils.rows out1) = List.length (Utils.rows out0)).
    { unfold out1. simpl fold_left. now rewrite !length_merge_weekly. }
    match goal with
    | |- context [Utils.assign ?o "weekly_weight_loss" _] => set (out2 := o)
    end.
    assert (H2 : List.length (Utils.rows out2) = List.length (Utils.rows out1)).
    { unfold out2. destruct (Utils.has_col out1 "week_number");
        [apply length_rows_sort_values|reflexivity]. }
    rewrite (length_rows_ensure _ "weekly_weight_loss").
    + rewrite length_rows_assign; [congruence|].
      now rewrite length_diff, length_column.
    + rewrite has_col_assign. apply orb_true_r.
Qed.

Lemma load_weekly_df_one_row_per_week_witness :
  List.length (Utils.rows (Utils.load_weekly_df two_weeks_store 1)) = 2%nat.
Proof.
  apply (load_weekly_df_one_row_per_week two_weeks_store 1).
  repeat constructor; simpl; intuition discriminate.
Defined.
